(** * ComfyUI serverless worker: a shallow embedding of [serverless_worker.py]

    The worker receives a job (a JSON object), validates it, makes sure the
    ComfyUI engine is reachable, submits the workflow, monitors its execution
    over a WebSocket (or by HTTP polling), collects the produced images and
    assembles a response.

    The embedding follows the Python source function by function.  JSON data
    is an inductive type, dictionaries are association lists in insertion
    order, Python's dynamic operations ([x.get], [k in x], [len], [str],
    truthiness, [==]) are total functions that return the exception Python
    raises.  Everything outside the process (HTTP, the WebSocket, the clock,
    the object store, the file system, the logger) is a scripted world that
    is threaded through a state-and-exception monad. *)

From Stdlib Require Import String Ascii List ZArith Bool Lia.
From Stdlib Require Import Decimal DecimalString.
Import ListNotations.
Local Open Scope list_scope.
Local Open Scope string_scope.
Set Warnings "-register-all".

(* ===================================================================== *)
(** ** Python values *)
(* ===================================================================== *)

Module Py.

(** JSON values as [json.loads] and [response.json()] produce them.  Numbers
    are integers; a [dict] keeps its items in insertion order. *)
Inductive json : Type :=
| JNull
| JBool (b : bool)
| JInt (n : Z)
| JStr (s : string)
| JArr (items : list json)
| JObj (fields : list (string * json)).

Definition bytes := list Byte.byte.

(** Exception classes the worker raises, catches or lets through. *)
Inductive exn_class : Type :=
| Exception
| ValueError
| JSONDecodeError            (* json.JSONDecodeError, a ValueError *)
| RequestsJSONDecodeError    (* raised by response.json() *)
| BinasciiError              (* binascii.Error, a ValueError *)
| TypeError
| AttributeError
| KeyError
| RuntimeError
| ImportError
| OSError
| RequestException
| RequestsTimeout
| HTTPError
| WebSocketException
| WebSocketTimeoutException
| WebSocketConnectionClosedException.

Definition exn_class_eqb (a b : exn_class) : bool :=
  match a, b with
  | Exception, Exception | ValueError, ValueError
  | JSONDecodeError, JSONDecodeError
  | RequestsJSONDecodeError, RequestsJSONDecodeError
  | BinasciiError, BinasciiError | TypeError, TypeError
  | AttributeError, AttributeError | RuntimeError, RuntimeError
  | KeyError, KeyError
  | ImportError, ImportError | OSError, OSError
  | RequestException, RequestException | RequestsTimeout, RequestsTimeout
  | HTTPError, HTTPError | WebSocketException, WebSocketException
  | WebSocketTimeoutException, WebSocketTimeoutException
  | WebSocketConnectionClosedException, WebSocketConnectionClosedException => true
  | _, _ => false
  end.

(** The proper base classes of a class, nearest first. *)
Definition bases (c : exn_class) : list exn_class :=
  match c with
  | Exception => []
  | ValueError | TypeError | AttributeError | KeyError | RuntimeError
  | ImportError | OSError | WebSocketException => [Exception]
  | JSONDecodeError | BinasciiError => [ValueError; Exception]
  | RequestException => [OSError; Exception]
  | RequestsTimeout | HTTPError => [RequestException; OSError; Exception]
  | RequestsJSONDecodeError =>
      [RequestException; JSONDecodeError; ValueError; OSError; Exception]
  | WebSocketTimeoutException | WebSocketConnectionClosedException =>
      [WebSocketException; Exception]
  end.

(** An exception object: its class and its single argument. *)
Record exn : Type := mk_exn { e_class : exn_class; e_arg : json }.

(** [isinstance(e, c)], the test an [except c] clause makes. *)
Definition is_a (e : exn) (c : exn_class) : bool :=
  exn_class_eqb (e_class e) c ||
  existsb (fun b => exn_class_eqb b c) (bases (e_class e)).

(** Pure computations that may raise. *)
Inductive exc (A : Type) : Type :=
| Ok (a : A)
| Err (e : exn).
Arguments Ok {A} a.
Arguments Err {A} e.

Definition exc_bind {A B} (c : exc A) (k : A -> exc B) : exc B :=
  match c with
  | Ok a => k a
  | Err e => Err e
  end.

Declare Scope exc_scope.
Delimit Scope exc_scope with exc.
Notation "'let?' x ':=' c 'in' k" := (exc_bind c (fun x => k))
  (at level 10, x pattern, c at level 100, k at level 200) : exc_scope.

(** The library functions the worker calls and the embedding does not
    define: the JSON decoder, [repr] of a [str], base64 and
    [os.path.splitext]. *)
Class PyRuntime : Type := {
  json_loads : string -> option json;       (* None: JSONDecodeError *)
  repr_str : string -> string;
  b64encode : bytes -> string;
  b64decode : string -> bytes + exn;        (* inr: the exception raised *)
  splitext_ext : string -> string           (* os.path.splitext(p)[1] *)
}.

(** *** Strings *)

Fixpoint is_prefix (p s : string) : bool :=
  match p, s with
  | EmptyString, _ => true
  | String a p', String b s' => Ascii.eqb a b && is_prefix p' s'
  | String _ _, EmptyString => false
  end.

(** [sub in s] for two [str]. *)
Fixpoint str_contains (sub s : string) : bool :=
  is_prefix sub s ||
  match s with
  | EmptyString => false
  | String _ s' => str_contains sub s'
  end.

(** [s.split(sep, 1)[1]] for a one-character [sep] that occurs in [s]. *)
Fixpoint after_first (sep : ascii) (s : string) : string :=
  match s with
  | EmptyString => EmptyString
  | String c s' => if Ascii.eqb c sep then s' else after_first sep s'
  end.

Definition is_utf8_continuation (c : ascii) : bool :=
  let n := nat_of_ascii c in (128 <=? n)%nat && (n <? 192)%nat.

(** The characters of a [str] held as UTF-8: every lead byte with the
    continuation bytes that follow it. *)
Fixpoint utf8_chars (s : string) : list string :=
  match s with
  | EmptyString => []
  | String c s' =>
      match utf8_chars s' with
      | [] => [String c EmptyString]
      | ch :: rest =>
          match ch with
          | String d _ =>
              if is_utf8_continuation d
              then String c ch :: rest
              else String c EmptyString :: ch :: rest
          | EmptyString => String c EmptyString :: rest
          end
      end
  end.

(** The line feed. *)
Definition newline : string := String (ascii_of_nat 10) "".

(** [str(n)] for an [int]. *)
Definition int_str (n : Z) : string := NilZero.string_of_int (Z.to_int n).

(** *** Dynamic operations on JSON values *)

Definition type_name (v : json) : string :=
  match v with
  | JNull => "NoneType"
  | JBool _ => "bool"
  | JInt _ => "int"
  | JStr _ => "str"
  | JArr _ => "list"
  | JObj _ => "dict"
  end.

(** [bool(v)]. *)
Definition truthy (v : json) : bool :=
  match v with
  | JNull => false
  | JBool b => b
  | JInt n => negb (n =? 0)%Z
  | JStr s => negb (String.eqb s "")
  | JArr l => match l with [] => false | _ => true end
  | JObj l => match l with [] => false | _ => true end
  end.

Fixpoint assoc {A} (k : string) (l : list (string * A)) : option A :=
  match l with
  | [] => None
  | (k', v) :: l' => if String.eqb k k' then Some v else assoc k l'
  end.

Definition has_key {A} (k : string) (l : list (string * A)) : bool :=
  match assoc k l with Some _ => true | None => false end.

Definition raise_of {A} (c : exn_class) (msg : string) : exc A :=
  Err (mk_exn c (JStr msg)).

Definition no_attribute {A} (v : json) (attr : string) : exc A :=
  raise_of AttributeError
    ("'" ++ type_name v ++ "' object has no attribute '" ++ attr ++ "'").

(** [v.get(k, default)]. *)
Definition get_default (v : json) (k : string) (default : json) : exc json :=
  match v with
  | JObj fields =>
      Ok (match assoc k fields with Some x => x | None => default end)
  | _ => no_attribute v "get"
  end.

(** [v.get(k)]. *)
Definition get (v : json) (k : string) : exc json := get_default v k JNull.

(** [a == b]; two dicts are equal when they hold the same items, in any
    order. *)
Fixpoint eq (a b : json) {struct a} : bool :=
  match a, b with
  | JNull, JNull => true
  | JBool x, JBool y => Bool.eqb x y
  | JBool x, JInt y => ((if x then 1 else 0) =? y)%Z
  | JInt x, JBool y => (x =? (if y then 1 else 0))%Z
  | JInt x, JInt y => (x =? y)%Z
  | JStr x, JStr y => String.eqb x y
  | JArr xs, JArr ys =>
      (fix go (xs ys : list json) {struct xs} : bool :=
         match xs, ys with
         | [], [] => true
         | x :: xs', y :: ys' => eq x y && go xs' ys'
         | _, _ => false
         end) xs ys
  | JObj xs, JObj ys =>
      (length xs =? length ys)%nat &&
      (fix go (xs : list (string * json)) : bool :=
         match xs with
         | [] => true
         | (k, v) :: xs' =>
             match assoc k ys with
             | Some v' => eq v v'
             | None => false
             end && go xs'
         end) xs
  | _, _ => false
  end.

Definition is_none (v : json) : bool :=
  match v with JNull => true | _ => false end.
Definition is_dict (v : json) : bool :=
  match v with JObj _ => true | _ => false end.
Definition is_list (v : json) : bool :=
  match v with JArr _ => true | _ => false end.
Definition is_str (v : json) : bool :=
  match v with JStr _ => true | _ => false end.

(** [k in v]. *)
Definition contains (v k : json) : exc bool :=
  match v with
  | JObj fields =>
      match k with
      | JStr s => Ok (has_key s fields)
      | JArr _ | JObj _ =>
          raise_of TypeError ("unhashable type: '" ++ type_name k ++ "'")
      | _ => Ok false
      end
  | JArr items => Ok (existsb (fun x => eq x k) items)
  | JStr s =>
      match k with
      | JStr sub => Ok (str_contains sub s)
      | _ => raise_of TypeError
               ("'in <string>' requires string as left operand, not "
                  ++ type_name k)
      end
  | _ => raise_of TypeError
           ("argument of type '" ++ type_name v ++ "' is not iterable")
  end.

(** [v.get(k, default)] for a key that is any value. *)
Definition get_key (v k default : json) : exc json :=
  match v with
  | JObj fields =>
      match k with
      | JStr s => Ok (match assoc s fields with
                      | Some x => x
                      | None => default
                      end)
      | JArr _ | JObj _ =>
          raise_of TypeError ("unhashable type: '" ++ type_name k ++ "'")
      | _ => Ok default
      end
  | _ => no_attribute v "get"
  end.

(** [a + b]. *)
Definition add (a b : json) : exc json :=
  match a, b with
  | JArr x, JArr y => Ok (JArr (x ++ y)%list)
  | JStr x, JStr y => Ok (JStr (x ++ y))
  | JInt x, JInt y => Ok (JInt (x + y))
  | JInt x, JBool y => Ok (JInt (x + (if y then 1 else 0)))
  | JBool x, JInt y => Ok (JInt ((if x then 1 else 0) + y))
  | JBool x, JBool y => Ok (JInt ((if x then 1 else 0) + (if y then 1 else 0)))
  | _, _ => raise_of TypeError
              ("unsupported operand type(s) for +: '" ++ type_name a
                 ++ "' and '" ++ type_name b ++ "'")
  end.

(** [l.append(x)]. *)
Definition append {A} (l : list A) (x : A) : list A := (l ++ [x])%list.

(** [d[k] = v] on the items of a dict. *)
Fixpoint dict_set (k : string) (v : json) (l : list (string * json))
  : list (string * json) :=
  match l with
  | [] => [(k, v)]
  | (k', v') :: l' =>
      if String.eqb k k' then (k, v) :: l' else (k', v') :: dict_set k v l'
  end.

(** [v[k]] for a [str] k. *)
Definition getitem (v : json) (k : string) : exc json :=
  match v with
  | JObj fields =>
      match assoc k fields with
      | Some x => Ok x
      | None => Err (mk_exn KeyError (JStr k))
      end
  | JArr _ => raise_of TypeError "list indices must be integers or slices, not str"
  | JStr _ => raise_of TypeError "string indices must be integers, not 'str'"
  | _ => raise_of TypeError ("'" ++ type_name v ++ "' object is not subscriptable")
  end.

(** [len(v)]. *)
Definition len (v : json) : exc Z :=
  match v with
  | JObj fields => Ok (Z.of_nat (length fields))
  | JArr items => Ok (Z.of_nat (length items))
  | JStr s => Ok (Z.of_nat (length (utf8_chars s)))
  | _ => raise_of TypeError
           ("object of type '" ++ type_name v ++ "' has no len()")
  end.

(** [v.items()]. *)
Definition items (v : json) : exc (list (string * json)) :=
  match v with
  | JObj fields => Ok fields
  | _ => no_attribute v "items"
  end.

(** The elements [for x in v] visits. *)
Definition iter (v : json) : exc (list json) :=
  match v with
  | JArr l => Ok l
  | JObj fields => Ok (map (fun kv => JStr (fst kv)) fields)
  | JStr s => Ok (map JStr (utf8_chars s))
  | _ => raise_of TypeError
           ("'" ++ type_name v ++ "' object is not iterable")
  end.

Section Formatting.
Context {RT : PyRuntime}.

(** [repr(v)]. *)
Fixpoint repr (v : json) : string :=
  match v with
  | JNull => "None"
  | JBool true => "True"
  | JBool false => "False"
  | JInt n => int_str n
  | JStr s => repr_str s
  | JArr l => "[" ++ String.concat ", " (map repr l) ++ "]"
  | JObj l =>
      "{" ++ String.concat ", "
               (map (fun kv => repr_str (fst kv) ++ ": " ++ repr (snd kv)) l)
          ++ "}"
  end.

(** [str(v)], the text an f-string inserts. *)
Definition str (v : json) : string :=
  match v with
  | JStr s => s
  | _ => repr v
  end.

(** [str(e)] for an exception; a [KeyError] shows the [repr] of its key. *)
Definition exn_str (e : exn) : string :=
  match e_class e with
  | KeyError => repr (e_arg e)
  | _ => str (e_arg e)
  end.

(** [repr(l)] for a list of [str]. *)
Definition repr_str_list (l : list string) : string :=
  "[" ++ String.concat ", " (map repr_str l) ++ "]".

(** [v += s] for a [str] s. *)
Definition iadd_str (v : json) (s : string) : exc json :=
  match v with
  | JStr a => Ok (JStr (a ++ s))
  | JArr l => Ok (JArr (l ++ map JStr (utf8_chars s))%list)
  | _ => raise_of TypeError
           ("unsupported operand type(s) for +=: '" ++ type_name v
              ++ "' and 'str'")
  end.
End Formatting.

End Py.

(* ===================================================================== *)
(** ** The world outside the worker *)
(* ===================================================================== *)

Module World.
Import Py.

(** What the worker reads of a [requests.Response]. *)
Record response : Type := mk_response {
  status_code : Z;
  reason : string;
  text : string;
  content : bytes;
  json_body : json + exn       (* what [response.json()] returns or raises *)
}.

(** What one [ws.recv()] produces. *)
Inductive recv_reply : Type :=
| RecvStr (out : string)
| RecvBytes (out : bytes)
| RecvRaise (e : exn).

Inductive post_body : Type :=
| JsonBody (payload : json)                       (* data=json.dumps(payload) *)
| ImageFile (name : json) (blob : bytes).         (* files={image, overwrite} *)

(** The calls that leave the process. *)
Inductive call : Type :=
| HttpGet (url : string) (params : list (string * json)) (timeout : Z)
| HttpPost (url : string) (body : post_body) (timeout : Z)
| WsConnect (url : string)
| WsRecv
| WsClose
| Sleep (milliseconds : Z)
| Popen (cwd : string)
| UploadImage (job_id : json) (path : string).

Definition is_network_call (c : call) : bool :=
  match c with
| HttpGet _ _ _ | HttpPost _ _ _ | WsConnect _ | WsRecv | WsClose
  | UploadImage _ _ => true
  | Sleep _ | Popen _ => false
  end.

Inductive level : Type := INFO | WARNING | ERROR.

(** The scripted world.  Each script lists, in order, the outcomes of the
    calls of one kind; the rest is the state those calls change. *)
Record world : Type := mk_world {
  http : list (response + exn);     (* requests.get / requests.post *)
  ws_connects : list (option exn);  (* ws.connect: None is success *)
  ws_recvs : list recv_reply;       (* ws.recv *)
  clock : list Z;                   (* time.time(), in seconds *)
  uploads : list (string + exn);    (* rp_upload.upload_image *)
  popen : option exn;               (* subprocess.Popen: None is success *)
  comfy_process : bool;             (* the global handle is not None *)
  polls : list (option Z);          (* comfy_process.poll(): None while it runs *)
  ws_connected : bool;              (* [connected] of the current socket *)
  files : list (string * bytes);    (* scratch files on disk *)
  tmp_count : nat;                  (* scratch files created so far *)
  uuid : string;                    (* the next uuid.uuid4() *)
  trace : list call;                (* calls made, oldest first *)
  log : list (level * string)       (* log records, oldest first *)
}.

Definition set_http (x : list (response + exn)) (w : world) : world :=
  mk_world x (ws_connects w) (ws_recvs w) (clock w) (uploads w) (popen w)
    (comfy_process w) (polls w) (ws_connected w) (files w) (tmp_count w)
    (uuid w) (trace w) (log w).
Definition set_ws_connects (x : list (option exn)) (w : world) : world :=
  mk_world (http w) x (ws_recvs w) (clock w) (uploads w) (popen w)
    (comfy_process w) (polls w) (ws_connected w) (files w) (tmp_count w)
    (uuid w) (trace w) (log w).
Definition set_ws_recvs (x : list recv_reply) (w : world) : world :=
  mk_world (http w) (ws_connects w) x (clock w) (uploads w) (popen w)
    (comfy_process w) (polls w) (ws_connected w) (files w) (tmp_count w)
    (uuid w) (trace w) (log w).
Definition set_clock (x : list Z) (w : world) : world :=
  mk_world (http w) (ws_connects w) (ws_recvs w) x (uploads w) (popen w)
    (comfy_process w) (polls w) (ws_connected w) (files w) (tmp_count w)
    (uuid w) (trace w) (log w).
Definition set_uploads (x : list (string + exn)) (w : world) : world :=
  mk_world (http w) (ws_connects w) (ws_recvs w) (clock w) x (popen w)
    (comfy_process w) (polls w) (ws_connected w) (files w) (tmp_count w)
    (uuid w) (trace w) (log w).
Definition set_comfy_process (x : bool) (w : world) : world :=
  mk_world (http w) (ws_connects w) (ws_recvs w) (clock w) (uploads w)
    (popen w) x (polls w) (ws_connected w) (files w) (tmp_count w) (uuid w)
    (trace w) (log w).
Definition set_polls (x : list (option Z)) (w : world) : world :=
  mk_world (http w) (ws_connects w) (ws_recvs w) (clock w) (uploads w)
    (popen w) (comfy_process w) x (ws_connected w) (files w) (tmp_count w)
    (uuid w) (trace w) (log w).
Definition set_ws_connected (x : bool) (w : world) : world :=
  mk_world (http w) (ws_connects w) (ws_recvs w) (clock w) (uploads w)
    (popen w) (comfy_process w) (polls w) x (files w) (tmp_count w) (uuid w)
    (trace w) (log w).
Definition set_files (x : list (string * bytes)) (n : nat) (w : world) : world :=
  mk_world (http w) (ws_connects w) (ws_recvs w) (clock w) (uploads w)
    (popen w) (comfy_process w) (polls w) (ws_connected w) x n (uuid w)
    (trace w) (log w).
Definition record (c : call) (w : world) : world :=
  mk_world (http w) (ws_connects w) (ws_recvs w) (clock w) (uploads w)
    (popen w) (comfy_process w) (polls w) (ws_connected w) (files w)
    (tmp_count w) (uuid w) (append (trace w) c) (log w).
Definition add_log (l : level) (msg : string) (w : world) : world :=
  mk_world (http w) (ws_connects w) (ws_recvs w) (clock w) (uploads w)
    (popen w) (comfy_process w) (polls w) (ws_connected w) (files w)
    (tmp_count w) (uuid w) (trace w) (append (log w) (l, msg)).

(** *** The monad *)

(** How a computation ends: it returns, it raises, or it is still blocked
    in a call when the script of that call has run out. *)
Inductive outcome (A : Type) : Type :=
| Ret (a : A)
| Raise (e : exn)
| Stall.
Arguments Ret {A} a.
Arguments Raise {A} e.
Arguments Stall {A}.

Definition M (A : Type) : Type := world -> outcome A * world.

Definition ret {A} (a : A) : M A := fun w => (Ret a, w).
Definition raise {A} (e : exn) : M A := fun w => (Raise e, w).
Definition stall {A} : M A := fun w => (Stall, w).

Definition bind {A B} (m : M A) (k : A -> M B) : M B :=
  fun w =>
    match m w with
    | (Ret a, w') => k a w'
    | (Raise e, w') => (Raise e, w')
    | (Stall, w') => (Stall, w')
    end.

Declare Scope worker_scope.
Delimit Scope worker_scope with worker.
Notation "x <- m ;; k" := (bind m (fun x => k))
  (at level 100, m at next level, right associativity) : worker_scope.
Notation "' p <- m ;; k" := (bind m (fun x => let 'p := x in k))
  (at level 100, p pattern, m at next level, right associativity) : worker_scope.
Notation "m ;; k" := (bind m (fun _ => k))
  (at level 100, right associativity) : worker_scope.
Local Open Scope worker_scope.

(** A pure computation run inside the monad. *)
Definition lift {A} (c : exc A) : M A :=
  match c with
  | Ok a => ret a
  | Err e => raise e
  end.

(** [try: m  except ...: h e]; a handler that does not match re-raises. *)
Definition try_except {A} (m : M A) (h : exn -> M A) : M A :=
  fun w =>
    match m w with
    | (Raise e, w') => h e w'
    | r => r
    end.

(** [try: m  finally: f]. *)
Definition try_finally {A} (m : M A) (f : M unit) : M A :=
  fun w =>
    match m w with
    | (Ret a, w') =>
        match f w' with
        | (Ret _, w'') => (Ret a, w'')
        | (Raise e, w'') => (Raise e, w'')
        | (Stall, w'') => (Stall, w'')
        end
    | (Raise e, w') =>
        match f w' with
        | (Ret _, w'') => (Raise e, w'')
        | (Raise e', w'') => (Raise e', w'')
        | (Stall, w'') => (Stall, w'')
        end
    | (Stall, w') => (Stall, w')
    end.

(** *** The calls *)

Definition logger (l : level) (msg : string) : M unit :=
  fun w => (Ret tt, add_log l msg w).

(** [requests.get] and [requests.post]. *)
Definition request (c : call) : M response :=
  fun w =>
    match http w with
    | [] => (Stall, w)
    | inl r :: rest => (Ret r, record c (set_http rest w))
    | inr e :: rest => (Raise e, record c (set_http rest w))
    end.

Definition http_error (r : response) (url kind : string) : exn :=
  mk_exn HTTPError
    (JStr (int_str (status_code r) ++ " " ++ kind ++ ": " ++ reason r
             ++ " for url: " ++ url)).

(** [response.raise_for_status()]. *)
Definition raise_for_status (url : string) (r : response) : M unit :=
  if (400 <=? status_code r)%Z && (status_code r <? 500)%Z
  then raise (http_error r url "Client Error")
  else if (500 <=? status_code r)%Z && (status_code r <? 600)%Z
  then raise (http_error r url "Server Error")
  else ret tt.

(** [response.json()]. *)
Definition response_json (r : response) : M json :=
  match json_body r with
  | inl j => ret j
  | inr e => raise e
  end.

(** [ws = websocket.WebSocket()]: a new socket, not connected. *)
Definition ws_new : M unit :=
  fun w => (Ret tt, set_ws_connected false w).

(** [ws.connect(url, timeout=10)]. *)
Definition ws_connect (url : string) : M unit :=
  fun w =>
    match ws_connects w with
    | [] => (Stall, w)
    | None :: rest =>
        (Ret tt, record (WsConnect url)
                   (set_ws_connected true (set_ws_connects rest w)))
    | Some e :: rest =>
        (Raise e, record (WsConnect url) (set_ws_connects rest w))
    end.

(** [ws.recv()]; a closed connection leaves the socket not connected. *)
Definition ws_recv : M recv_reply :=
  fun w =>
    match ws_recvs w with
    | [] => (Stall, w)
    | RecvRaise e :: rest =>
        let w' := record WsRecv (set_ws_recvs rest w) in
        (Raise e,
         if is_a e WebSocketConnectionClosedException
         then set_ws_connected false w' else w')
    | r :: rest => (Ret r, record WsRecv (set_ws_recvs rest w))
    end.

(** [ws.close()]. *)
Definition ws_close : M unit :=
  fun w => (Ret tt, record WsClose (set_ws_connected false w)).

(** [time.time()]. *)
Definition time_time : M Z :=
  fun w =>
    match clock w with
    | [] => (Stall, w)
    | t :: rest => (Ret t, set_clock rest w)
    end.

(** [time.sleep], its argument in milliseconds. *)
Definition time_sleep (ms : Z) : M unit :=
  if (ms <? 0)%Z
  then raise (mk_exn ValueError (JStr "sleep length must be non-negative"))
  else fun w => (Ret tt, record (Sleep ms) w).

(** [subprocess.Popen([...], cwd=cwd)], stored in the global handle. *)
Definition subprocess_Popen (cwd : string) : M unit :=
  fun w =>
    match popen w with
    | Some e => (Raise e, record (Popen cwd) w)
    | None => (Ret tt, record (Popen cwd) (set_comfy_process true w))
    end.

(** [comfy_process.poll()]: None while the process runs, its exit code
    once it has ended.  The answer is the world's, at every call. *)
Definition process_poll : M (option Z) :=
  fun w =>
    match polls w with
    | [] => (Stall, w)
    | code :: rest => (Ret code, set_polls rest w)
    end.

(** [rp_upload.upload_image(job_id, path)]. *)
Definition rp_upload_image (job_id : json) (path : string) : M string :=
  fun w =>
    match uploads w with
    | [] => (Stall, w)
    | inl url :: rest =>
        (Ret url, record (UploadImage job_id path) (set_uploads rest w))
    | inr e :: rest =>
        (Raise e, record (UploadImage job_id path) (set_uploads rest w))
    end.

(** [with tempfile.NamedTemporaryFile(suffix=ext, delete=False) as f:
       f.write(data); path = f.name].  Names are numbered. *)
Definition write_scratch_file (ext : string) (data : bytes) : M string :=
  fun w =>
    let path := "/tmp/tmp" ++ int_str (Z.of_nat (tmp_count w)) ++ ext in
    (Ret path, set_files (append (files w) (path, data)) (S (tmp_count w)) w).

Definition file_exists (path : string) (w : world) : bool :=
  existsb (fun f => String.eqb (fst f) path) (files w).

(** [os.remove(path)]. *)
Definition os_remove (path : string) : M unit :=
  fun w =>
    if file_exists path w
    then (Ret tt,
          set_files
            (filter (fun f => negb (String.eqb (fst f) path)) (files w))
            (tmp_count w) w)
    else (Raise (mk_exn OSError (JStr ("No such file or directory: " ++ path))), w).

(** [str(uuid.uuid4())]. *)
Definition uuid4 : M string := fun w => (Ret (uuid w), w).

End World.

(* ===================================================================== *)
(** ** The worker *)
(* ===================================================================== *)

Module Worker.
Import Py World.
Local Open Scope worker_scope.

(** The module-level configuration, read from the environment at import. *)
Record config : Type := mk_config {
  COMFY_HOST : string;
  COMFYUI_DIR : string;
  WEBSOCKET_RECONNECT_ATTEMPTS : Z;
  WEBSOCKET_RECONNECT_DELAY_S : Z;
  BUCKET_ENDPOINT_URL : option string;
  websocket_installed : bool;        (* [import websocket] succeeds *)
  runpod_installed : bool            (* [from runpod... import rp_upload] succeeds *)
}.

Definition COMFY_API_AVAILABLE_INTERVAL_MS : Z := 50.
Definition COMFY_API_AVAILABLE_MAX_RETRIES : Z := 500.

(** The state of the stream monitor's loop. *)
Record monitor_state : Type := mk_monitor_state {
  execution_done : bool;
  errors : list string
}.

Inductive control : Type := Continue | Break.

Fixpoint foldM {A S} (f : S -> A -> M S) (l : list A) (s : S) : M S :=
  match l with
  | [] => ret s
  | a :: l' => s' <- f s a ;; foldM f l' s'
  end.

Section Worker.
Context {RT : PyRuntime} (cfg : config).

Definition base_url : string := "http://" ++ COMFY_HOST cfg.

(** *** check_server *)

(** The [for i in range(retries)] loop; [true] is the [return True]
    inside it, [false] is falling out of the loop. *)
Fixpoint check_server_loop (url : string) (delay : Z) (n : nat) : M bool :=
  match n with
  | O => ret false
  | S n' =>
      reached <-
        try_except
          (response <- request (HttpGet url [] 5) ;;
           if (status_code response =? 200)%Z
           then logger INFO "API is reachable" ;; ret true
           else ret false)
          (fun e =>
             if is_a e RequestsTimeout then ret false
             else if is_a e RequestException then ret false
             else raise e) ;;
      if reached : bool then ret true
      else time_sleep delay ;; check_server_loop url delay n'
  end.

Definition check_server (url : string) (retries delay : Z) : M bool :=
  logger INFO ("Checking API server at " ++ url ++ "...") ;;
  reached <- check_server_loop url delay (Z.to_nat retries) ;;
  if reached : bool then ret true
  else
    logger ERROR ("Failed to connect to server at " ++ url ++ " after "
                    ++ int_str retries ++ " attempts") ;;
    ret false.

(** *** start_comfyui_server *)

(** [comfy_process is not None and comfy_process.poll() is None]: the
    process is polled only when there is a handle. *)
Definition engine_running : M bool :=
  fun w =>
    if comfy_process w
    then (code <- process_poll ;;
          ret (match code with None => true | Some _ => false end)) w
    else (Ret false, w).

Definition start_comfyui_server : M unit :=
  running <- engine_running ;;
  if running : bool then logger INFO "ComfyUI server already running"
  else
    logger INFO ("Starting ComfyUI server from " ++ COMFYUI_DIR cfg ++ "...") ;;
    subprocess_Popen (COMFYUI_DIR cfg) ;;
    ready <- check_server (base_url ++ "/")
               COMFY_API_AVAILABLE_MAX_RETRIES
               COMFY_API_AVAILABLE_INTERVAL_MS ;;
    if ready : bool then ret tt
    else raise (mk_exn RuntimeError (JStr "ComfyUI server failed to start")).

(** *** validate_input *)

(** The loop over the entries of [images]; [Some msg] is its [return]. *)
Fixpoint validate_images (images : list json) : exc (option string) :=
  match images with
  | [] => Ok None
  | img :: rest =>
      if negb (is_dict img) then Ok (Some "Each image must be an object")
      else
        (let? has_name := contains img (JStr "name") in
         let? has_image := contains img (JStr "image") in
         if negb has_name || negb has_image
         then Ok (Some "'images' must contain objects with 'name' and 'image' keys")
         else validate_images rest)%exc
  end.

(** The function from [# Validate workflow] on. *)
Definition validate_fields (job_input : json)
  : exc (option json * option string) :=
  (let? workflow := get job_input "workflow" in
   if is_none workflow then Ok (None, Some "Missing 'workflow' parameter")
   else if negb (is_dict workflow)
   then Ok (None, Some "'workflow' must be a JSON object")
   else
     let? n := len workflow in
     if (n =? 0)%Z then Ok (None, Some "'workflow' cannot be empty")
     else
       let? images := get job_input "images" in
       let? bad :=
         if negb (is_none images) then
           if negb (is_list images) then Ok (Some "'images' must be a list")
           else let? l := iter images in validate_images l
         else Ok None in
       match bad with
       | Some msg => Ok (None, Some msg)
       | None =>
           Ok (Some (JObj [("workflow", workflow); ("images", images)]), None)
       end)%exc.

Definition validate_input (job_input : json)
  : exc (option json * option string) :=
  if is_none job_input then Ok (None, Some "Please provide input")
  else
    match job_input with
    | JStr s =>
        match json_loads s with
        | Some parsed => validate_fields parsed
        | None => Ok (None, Some "Invalid JSON format in input")
        end
    | _ => validate_fields job_input
    end.

(** *** upload_images *)

(** What [requests.post(files=...)] does with the file name before it
    sends anything: the name is written into the multipart body with
    [str.translate]; None is left out of the body; any other value has no
    such method. *)
Definition multipart_filename (name : json) : M unit :=
  match name with
  | JStr _ | JNull => ret tt
  | _ => lift (no_attribute name "translate")
  end.

(** The [try] body of one round of the loop: the line for [responses]. *)
Definition upload_image_try (image : json) : M string :=
  name <- lift (getitem image "name") ;;
  image_data <- lift (getitem image "image") ;;
  has_comma <- lift (contains image_data (JStr ",")) ;;
  base64_data <-
    (if has_comma : bool then
       match image_data with
       | JStr s => ret (JStr (after_first "," s))
       | _ => lift (no_attribute image_data "split")
       end
     else ret image_data) ;;
  blob <-
    match base64_data with
    | JStr s =>
        match b64decode s with
        | inl b => ret b
        | inr e => raise e
        end
    | _ => lift (raise_of TypeError
                   ("argument should be a bytes-like object or ASCII string, not '"
                      ++ type_name base64_data ++ "'"))
    end ;;
  let url := base_url ++ "/upload/image" in
  multipart_filename name ;;
  response <- request (HttpPost url (ImageFile name blob) 30) ;;
  raise_for_status url response ;;
  logger INFO ("Successfully uploaded " ++ str name) ;;
  ret ("Successfully uploaded " ++ str name).

(** One round of the loop over [(responses, errors)]. *)
Definition upload_image_step (acc : list string * list string) (image : json)
  : M (list string * list string) :=
  let '(responses, errs) := acc in
  try_except
    (line <- upload_image_try image ;; ret (append responses line, errs))
    (fun e =>
       let fail (prefix : string) :=
         name <- lift (get_default image "name" (JStr "unknown")) ;;
         let error_msg := prefix ++ str name ++ ": " ++ exn_str e in
         logger ERROR error_msg ;;
         ret (responses, append errs error_msg) in
       if is_a e BinasciiError then fail "Error decoding base64 for "
       else if is_a e RequestException then fail "Error uploading "
       else if is_a e Exception then fail "Unexpected error uploading "
       else raise e).

Definition status_dict (status message : string) (details : list string) : json :=
  JObj [("status", JStr status); ("message", JStr message);
        ("details", JArr (map JStr details))].

Definition upload_images (images : json) : M json :=
  if negb (truthy images)
  then ret (status_dict "success" "No images to upload" [])
  else
    n <- lift (len images) ;;
    logger INFO ("Uploading " ++ int_str n ++ " image(s)...") ;;
    l <- lift (iter images) ;;
    '(responses, errs) <- foldM upload_image_step l ([], []) ;;
    match errs with
    | _ :: _ => ret (status_dict "error" "Some images failed to upload" errs)
    | [] => ret (status_dict "success" "All images uploaded successfully" responses)
    end.

(** *** queue_workflow *)

(** The lines one entry of [node_errors] adds to [details]. *)
Definition node_details (node : string * json) : list string :=
  let '(node_id, node_error) := node in
  match node_error with
  | JObj findings =>
      map (fun f => "Node " ++ node_id ++ " (" ++ fst f ++ "): " ++ str (snd f))
          findings
  | _ => ["Node " ++ node_id ++ ": " ++ str node_error]
  end.

Definition bullet (d : string) : string := "• " ++ d.

(** The value of [error_msg] when [raise ValueError(error_msg)] is
    reached, for the decoded body of a 400 response. *)
Definition validation_error_message (error_data : json) : exc json :=
  (let error_msg := JStr "Workflow validation failed" in
   let? has_error := contains error_data (JStr "error") in
   let? error_msg :=
     if has_error : bool then
       let? error_info := getitem error_data "error" in
       if is_dict error_info
       then get_default error_info "message" error_msg
       else Ok (JStr (str error_info))
     else Ok error_msg in
   let? has_node_errors := contains error_data (JStr "node_errors") in
   if has_node_errors : bool then
     let? node_errors := getitem error_data "node_errors" in
     let? nodes := items node_errors in
     let details := flat_map node_details nodes in
     match details with
     | [] => Ok error_msg
     | _ :: _ =>
         iadd_str error_msg
           (":" ++ newline ++ String.concat newline (map bullet details))
     end
   else Ok error_msg)%exc.

Definition queue_workflow (workflow : json) (client_id : string) : M json :=
  let payload := JObj [("prompt", workflow); ("client_id", JStr client_id)] in
  let url := base_url ++ "/prompt" in
  response <- request (HttpPost url (JsonBody payload) 30) ;;
  (if (status_code response =? 400)%Z then
     logger ERROR ("ComfyUI returned 400: " ++ text response) ;;
     try_except
       (error_data <- response_json response ;;
        error_msg <- lift (validation_error_message error_data) ;;
        raise (mk_exn ValueError error_msg))
       (fun e =>
          if is_a e JSONDecodeError
          then raise (mk_exn ValueError
                        (JStr ("ComfyUI validation failed: " ++ text response)))
          else raise e)
   else ret tt) ;;
  raise_for_status url response ;;
  response_json response.

(** *** get_history *)

Definition get_history (prompt_id : json) : M json :=
  let url := base_url ++ "/history/" ++ str prompt_id in
  response <- request (HttpGet url [] 30) ;;
  raise_for_status url response ;;
  response_json response.

(** *** get_image_data *)

Definition get_image_data (filename subfolder image_type : json)
  : M (option bytes) :=
  logger INFO ("Fetching image: type=" ++ str image_type ++ ", subfolder="
                 ++ str subfolder ++ ", filename=" ++ str filename) ;;
  let params := [("filename", filename); ("subfolder", subfolder);
                 ("type", image_type)] in
  let url := base_url ++ "/view" in
  try_except
    (response <- request (HttpGet url params 60) ;;
     raise_for_status url response ;;
     logger INFO ("Successfully fetched " ++ str filename) ;;
     ret (Some (content response)))
    (fun e =>
       if is_a e Exception
       then logger ERROR ("Error fetching " ++ str filename ++ ": " ++ exn_str e) ;;
            ret None
       else raise e).

(** *** process_with_websocket *)

Definition ws_url (client_id : string) : string :=
  "ws://" ++ COMFY_HOST cfg ++ "/ws?clientId=" ++ client_id.

(** [import websocket]. *)
Definition import_websocket : M unit :=
  if websocket_installed cfg then ret tt
  else raise (mk_exn ImportError (JStr "No module named 'websocket'")).

(** What the loop body does with a decoded message. *)
Definition on_message (prompt_id : json) (st : monitor_state) (message : json)
  : M (control * monitor_state) :=
  msg_type <- lift (get message "type") ;;
  if eq msg_type (JStr "status") then
    data <- lift (get_default message "data" (JObj [])) ;;
    status_data <- lift (get_default data "status" (JObj [])) ;;
    exec_info <- lift (get_default status_data "exec_info" (JObj [])) ;;
    queue_remaining <- lift (get_default exec_info "queue_remaining" (JStr "N/A")) ;;
    logger INFO ("Status: " ++ str queue_remaining ++ " items in queue") ;;
    ret (Continue, st)
  else if eq msg_type (JStr "executing") then
    data <- lift (get_default message "data" (JObj [])) ;;
    node <- lift (get data "node") ;;
    pid <- lift (get data "prompt_id") ;;
    if is_none node && eq pid prompt_id then
      logger INFO ("Execution finished for prompt " ++ str prompt_id) ;;
      ret (Break, mk_monitor_state true (errors st))
    else ret (Continue, st)
  else if eq msg_type (JStr "execution_error") then
    data <- lift (get_default message "data" (JObj [])) ;;
    pid <- lift (get data "prompt_id") ;;
    if eq pid prompt_id then
      node_type <- lift (get data "node_type") ;;
      node_id <- lift (get data "node_id") ;;
      exception_message <- lift (get data "exception_message") ;;
      let error_details :=
        "Node Type: " ++ str node_type ++ ", Node ID: " ++ str node_id
          ++ ", Message: " ++ str exception_message in
      logger ERROR ("Execution error: " ++ error_details) ;;
      ret (Break,
           mk_monitor_state (execution_done st)
             (append (errors st) ("Workflow execution error: " ++ error_details)))
    else ret (Continue, st)
  else ret (Continue, st).

(** What the loop body does with the value of [ws.recv()]. *)
Definition on_recv (prompt_id : json) (st : monitor_state) (out : recv_reply)
  : M (control * monitor_state) :=
  match out with
  | RecvStr s =>
      match json_loads s with
      | Some message => on_message prompt_id st message
      | None => raise (mk_exn JSONDecodeError (JStr "Expecting value"))
      end
  | _ => ret (Continue, st)
  end.

(** The [for attempt in range(WEBSOCKET_RECONNECT_ATTEMPTS)] loop, from
    [attempt] on with [n] rounds left. *)
Fixpoint reconnect_loop (url : string) (n : nat) (attempt : Z) : M unit :=
  match n with
  | O => ret tt
  | S n' =>
      logger INFO ("Reconnect attempt " ++ int_str (attempt + 1) ++ "/"
                     ++ int_str (WEBSOCKET_RECONNECT_ATTEMPTS cfg) ++ "...") ;;
      reconnected <-
        try_except
          (time_sleep (1000 * WEBSOCKET_RECONNECT_DELAY_S cfg) ;;
           ws_new ;;
           ws_connect url ;;
           logger INFO "Reconnected successfully" ;;
           ret true)
          (fun reconn_err =>
             if is_a reconn_err Exception then
               logger ERROR ("Reconnect failed: " ++ exn_str reconn_err) ;;
               if (attempt =? WEBSOCKET_RECONNECT_ATTEMPTS cfg - 1)%Z
               then raise reconn_err
               else ret false
             else raise reconn_err) ;;
      if reconnected : bool then ret tt
      else reconnect_loop url n' (attempt + 1)
  end.

Definition reconnect (url : string) : M unit :=
  reconnect_loop url (Z.to_nat (WEBSOCKET_RECONNECT_ATTEMPTS cfg)) 0.

(** One round of [while True]. *)
Definition monitor_step (url : string) (prompt_id : json) (st : monitor_state)
  : M (control * monitor_state) :=
  try_except
    (out <- ws_recv ;; on_recv prompt_id st out)
    (fun e =>
       if is_a e WebSocketTimeoutException then
         logger INFO "WebSocket receive timed out, still waiting..." ;;
         ret (Continue, st)
       else if is_a e WebSocketConnectionClosedException then
         logger ERROR ("WebSocket connection closed: " ++ exn_str e) ;;
         reconnect url ;;
         ret (Continue, st)
       else if is_a e JSONDecodeError then
         logger WARNING "Received invalid JSON via WebSocket" ;;
         ret (Continue, st)
       else raise e).

(** [while True], for at most [fuel] rounds. *)
Fixpoint monitor_loop (fuel : nat) (url : string) (prompt_id : json)
    (st : monitor_state) : M monitor_state :=
  match fuel with
  | O => stall
  | S fuel' =>
      '(c, st') <- monitor_step url prompt_id st ;;
      match c with
      | Break => ret st'
      | Continue => monitor_loop fuel' url prompt_id st'
      end
  end.

(** The [finally] clause. *)
Definition close_if_connected : M unit :=
  fun w =>
    if ws_connected w
    then (ws_close ;; logger INFO "WebSocket closed") w
    else (Ret tt, w).

(** Every round begins with one [ws.recv()], so a loop that has as many
    rounds as the script has replies, and one more, never runs short. *)
Definition process_with_websocket (workflow : json) (client_id : string)
    (prompt_id : json) : M (bool * list string) :=
  import_websocket ;;
  let url := ws_url client_id in
  logger INFO ("Connecting to websocket: " ++ url) ;;
  st <- try_finally
          (ws_new ;;
           ws_connect url ;;
           logger INFO "WebSocket connected" ;;
           fun w =>
             monitor_loop (S (length (ws_recvs w))) url prompt_id
               (mk_monitor_state false []) w)
          close_if_connected ;;
  ret (execution_done st, errors st).

(** *** process_with_polling *)

(** [any(prompt_id in str(item) for item in l)]. *)
Fixpoint any_mentions (prompt_id : json) (l : list json) : exc bool :=
  match l with
  | [] => Ok false
  | item :: rest =>
      (let? hit := contains (JStr (str item)) prompt_id in
       if hit : bool then Ok true else any_mentions prompt_id rest)%exc
  end.

(** The [try] body of one round; [true] is its [return True, errors]. *)
Definition poll_try (prompt_id : json) : M bool :=
  queue_resp <- request (HttpGet (base_url ++ "/queue") [] 10) ;;
  queue_data <- response_json queue_resp ;;
  queue_pending <- lift (get_default queue_data "queue_pending" (JArr [])) ;;
  queue_running <- lift (get_default queue_data "queue_running" (JArr [])) ;;
  both <- lift (add queue_pending queue_running) ;;
  l <- lift (iter both) ;;
  in_queue <- lift (any_mentions prompt_id l) ;;
  if negb in_queue then
    history <- get_history prompt_id ;;
    found <- lift (contains history prompt_id) ;;
    if found : bool then
      logger INFO ("Execution finished for prompt " ++ str prompt_id) ;;
      ret true
    else ret false
  else ret false.

(** The [while] loop, for at most [fuel] rounds; [true] is the [return]
    inside it, [false] is leaving the loop on its test. *)
Fixpoint poll_loop (fuel : nat) (prompt_id : json) (timeout start_time : Z)
  : M bool :=
  match fuel with
  | O => stall
  | S fuel' =>
      now <- time_time ;;
      if (now - start_time <? timeout)%Z then
        finished <-
          try_except (poll_try prompt_id)
            (fun e =>
               if is_a e Exception
               then logger WARNING ("Queue check failed: " ++ exn_str e) ;;
                    ret false
               else raise e) ;;
        if finished : bool then ret true
        else time_sleep 1000 ;; poll_loop fuel' prompt_id timeout start_time
      else ret false
  end.

(** Every round begins with one [time.time()]. *)
Definition process_with_polling (prompt_id : json) (timeout : Z)
  : M (bool * list string) :=
  logger INFO "Using HTTP polling for execution monitoring (websocket-client not available)" ;;
  let errs : list string := [] in
  start_time <- time_time ;;
  finished <- (fun w => poll_loop (S (length (clock w))) prompt_id timeout
                          start_time w) ;;
  if finished : bool then ret (true, errs)
  else
    ret (false,
         append errs ("Workflow execution timed out after " ++ int_str timeout
                        ++ " seconds")).

(** *** handler *)

Definition nonempty {A} (l : list A) : bool :=
  match l with [] => false | _ :: _ => true end.

Definition error_response (msg : string) : json :=
  JObj [("error", JStr msg)].

Definition failure_response (details : list string) : json :=
  JObj [("error", JStr "Job processing failed");
        ("details", JArr (map JStr details))].

Definition artifact (filename : json) (kind data : string) : json :=
  JObj [("filename", filename); ("type", JStr kind); ("data", JStr data)].

(** [if BUCKET_ENDPOINT_URL:]. *)
Definition bucket_configured : bool :=
  match BUCKET_ENDPOINT_URL cfg with
  | Some u => negb (String.eqb u "")
  | None => false
  end.

(** [from runpod.serverless.utils import rp_upload]. *)
Definition import_rp_upload : M unit :=
  if runpod_installed cfg then ret tt
  else raise (mk_exn ImportError (JStr "No module named 'runpod'")).

(** The [# S3 upload] branch, over [(output_data, errors)]. *)
Definition encode_s3 (job_id filename : json) (image_bytes : bytes)
    (acc : list json * list string) : M (list json * list string) :=
  let '(output_data, errs) := acc in
  try_except
    (import_rp_upload ;;
     ext <- match filename with
            | JStr s => ret (splitext_ext s)
            | _ => lift (raise_of TypeError
                           ("expected str, bytes or os.PathLike object, not "
                              ++ type_name filename))
            end ;;
     let file_ext := if String.eqb ext "" then ".png" else ext in
     temp_path <- write_scratch_file file_ext image_bytes ;;
     s3_url <- rp_upload_image job_id temp_path ;;
     os_remove temp_path ;;
     logger INFO ("Uploaded " ++ str filename ++ " to S3") ;;
     ret (append output_data (artifact filename "s3_url" s3_url), errs))
    (fun e =>
       if is_a e Exception then
         logger ERROR ("S3 upload failed for " ++ str filename ++ ": "
                         ++ exn_str e) ;;
         ret (output_data, append errs ("S3 upload failed: " ++ exn_str e))
       else raise e).

(** The [# Return as base64] branch. *)
Definition encode_base64 (filename : json) (image_bytes : bytes)
    (acc : list json * list string) : M (list json * list string) :=
  let '(output_data, errs) := acc in
  try_except
    (let b64_image := b64encode image_bytes in
     logger INFO ("Encoded " ++ str filename ++ " as base64") ;;
     ret (append output_data (artifact filename "base64" b64_image), errs))
    (fun e =>
       if is_a e Exception then
         logger ERROR ("Base64 encoding failed for " ++ str filename ++ ": "
                         ++ exn_str e) ;;
         ret (output_data, append errs ("Base64 encoding failed: " ++ exn_str e))
       else raise e).

(** One round of [for image_info in node_output["images"]]. *)
Definition collect_image (job_id : json) (node_id : string)
    (acc : list json * list string) (image_info : json)
  : M (list json * list string) :=
  let '(output_data, errs) := acc in
  filename <- lift (get image_info "filename") ;;
  subfolder <- lift (get_default image_info "subfolder" (JStr "")) ;;
  img_type <- lift (get image_info "type") ;;
  if eq img_type (JStr "temp") then
    logger INFO ("Skipping temp image: " ++ str filename) ;;
    ret acc
  else if negb (truthy filename) then
    ret (output_data, append errs ("Missing filename in node " ++ node_id))
  else
    image_bytes <- get_image_data filename subfolder img_type ;;
    match image_bytes with
    | Some (b :: bs) =>
        if bucket_configured
        then encode_s3 job_id filename (b :: bs) acc
        else encode_base64 filename (b :: bs) acc
    | _ =>
        ret (output_data,
             append errs ("Failed to fetch image data for " ++ str filename))
    end.

(** One round of [for node_id, node_output in outputs.items()]. *)
Definition collect_node (job_id : json) (acc : list json * list string)
    (node : string * json) : M (list json * list string) :=
  let '(node_id, node_output) := node in
  has_images <- lift (contains node_output (JStr "images")) ;;
  if has_images : bool then
    images <- lift (getitem node_output "images") ;;
    l <- lift (iter images) ;;
    foldM (collect_image job_id node_id) l acc
  else ret acc.

(** [# Monitor execution]: the stream monitor, or the poll monitor when
    the import fails. *)
Definition monitor (workflow : json) (client_id : string) (prompt_id : json)
  : M (bool * list string) :=
  try_except
    (import_websocket ;;
     process_with_websocket workflow client_id prompt_id)
    (fun e =>
       if is_a e ImportError then process_with_polling prompt_id 600
       else raise e).

(** The handler's [try] from the fetched manifest on: [inl] is a
    [return] inside it, [inr] is [(output_data, errors)] at its end. *)
Definition handler_collect (job_id prompt_id history : json)
    (errs : list string) : M (json + list json * list string) :=
  present <- lift (contains history prompt_id) ;;
  if negb present then
    let error_msg := "Prompt ID " ++ str prompt_id ++ " not found in history" in
    logger ERROR error_msg ;;
    if negb (nonempty errs) then ret (inl (error_response error_msg))
    else ret (inl (failure_response (append errs error_msg)))
  else
    prompt_history <- lift (get_key history prompt_id (JObj [])) ;;
    outputs <- lift (get_default prompt_history "outputs" (JObj [])) ;;
    errs <-
      (if negb (truthy outputs) then
         logger WARNING ("No outputs found for prompt " ++ str prompt_id) ;;
         if negb (nonempty errs)
         then ret (append errs "Workflow produced no outputs")
         else ret errs
       else ret errs) ;;
    n <- lift (len outputs) ;;
    logger INFO ("Processing " ++ int_str n ++ " output nodes...") ;;
    nodes <- lift (items outputs) ;;
    acc <- foldM (collect_node job_id) nodes ([], errs) ;;
    ret (inr acc).

(** The body of the handler's [try]. *)
Definition handler_try (job_id workflow : json) (client_id : string)
  : M (json + list json * list string) :=
  logger INFO "Queuing workflow..." ;;
  queued <- queue_workflow workflow client_id ;;
  prompt_id <- lift (get queued "prompt_id") ;;
  if negb (truthy prompt_id) then
    raise (mk_exn ValueError
             (JStr ("Missing 'prompt_id' in queue response: " ++ str queued)))
  else
    logger INFO ("Workflow queued with prompt_id: " ++ str prompt_id) ;;
    '(done, exec_errors) <- monitor workflow client_id prompt_id ;;
    let errs : list string := exec_errors in
    if negb done && negb (nonempty errs) then
      raise (mk_exn ValueError
               (JStr "Workflow monitoring exited without completion or error"))
    else
      logger INFO ("Fetching history for prompt " ++ str prompt_id ++ "...") ;;
      history <- get_history prompt_id ;;
      handler_collect job_id prompt_id history errs.

(** [# Build final result]. *)
Definition handler_result (output_data : list json) (errs : list string)
  : M json :=
  let result : list (string * json) := [] in
  let result :=
    if nonempty output_data
    then dict_set "images" (JArr output_data) result else result in
  result <-
    (if nonempty errs then
       logger WARNING ("Job completed with errors: " ++ repr_str_list errs) ;;
       ret (dict_set "errors" (JArr (map JStr errs)) result)
     else ret result) ;;
  if negb (nonempty output_data) && nonempty errs then
    logger ERROR "Job failed with no output images" ;;
    ret (failure_response errs)
  else
    result <-
      (if negb (nonempty output_data) && negb (nonempty errs) then
         logger INFO "Job completed but produced no images" ;;
         ret (dict_set "images" (JArr [])
                (dict_set "status" (JStr "success_no_images") result))
       else ret result) ;;
    logger INFO ("Job completed. Returning "
                   ++ int_str (Z.of_nat (length output_data)) ++ " image(s)") ;;
    ret (JObj result).

(** The handler up to its [try]: [inl] is a [return] (a rejected input, an
    engine that does not start or does not answer, a failed upload), [inr]
    is [(job_id, workflow, client_id)]. *)
Definition handler_prepare (job : list (string * json))
  : M (json + json * json * string) :=
  let job_input :=
    match assoc "input" job with Some v => v | None => JObj [] end in
  let job_id :=
    match assoc "id" job with Some v => v | None => JStr "unknown" end in
  logger INFO ("Processing job: " ++ str job_id) ;;
  '(validated_data, error_message) <- lift (validate_input job_input) ;;
  match error_message with
  | Some (String c msg) => ret (inl (error_response (String c msg)))
  | _ =>
      validated <-
        match validated_data with
        | Some d => ret d
        | None => lift (raise_of TypeError "'NoneType' object is not subscriptable")
        end ;;
      workflow <- lift (getitem validated "workflow") ;;
      input_images <- lift (get validated "images") ;;
      started <-
        try_except (start_comfyui_server ;; ret None)
          (fun e =>
             if is_a e Exception
             then ret (Some (error_response
                               ("Failed to start ComfyUI server: " ++ exn_str e)))
             else raise e) ;;
      match started with
      | Some failed => ret (inl failed)
      | None =>
          reachable <- check_server (base_url ++ "/")
                         COMFY_API_AVAILABLE_MAX_RETRIES
                         COMFY_API_AVAILABLE_INTERVAL_MS ;;
          if negb reachable then
            ret (inl (error_response
                        ("ComfyUI server (" ++ COMFY_HOST cfg ++ ") not reachable")))
          else
            rejected <-
              (if truthy input_images then
                 upload_result <- upload_images input_images ;;
                 status <- lift (getitem upload_result "status") ;;
                 if eq status (JStr "error") then
                   details <- lift (getitem upload_result "details") ;;
                   ret (Some (JObj [("error", JStr "Failed to upload input images");
                                    ("details", details)]))
                 else ret None
               else ret None) ;;
            match rejected with
            | Some failed => ret (inl failed)
            | None =>
                client_id <- uuid4 ;;
                ret (inr (job_id, workflow, client_id))
            end
      end
  end.

(** The [except] clauses of the handler's [try].  [traceback.print_exc()]
    writes to the standard error stream and is left out. *)
Definition handler_except (e : exn) : M (json + list json * list string) :=
  if is_a e ValueError then
    logger ERROR ("Validation error: " ++ exn_str e) ;;
    ret (inl (error_response (exn_str e)))
  else if is_a e RequestException then
    logger ERROR ("HTTP error: " ++ exn_str e) ;;
    ret (inl (error_response ("HTTP communication error: " ++ exn_str e)))
  else if is_a e Exception then
    logger ERROR ("Unexpected error: " ++ exn_str e) ;;
    ret (inl (error_response ("Unexpected error: " ++ exn_str e)))
  else raise e.

Definition handler (job : list (string * json)) : M json :=
  prepared <- handler_prepare job ;;
  match prepared with
  | inl response => ret response
  | inr (job_id, workflow, client_id) =>
      r <- try_except (handler_try job_id workflow client_id) handler_except ;;
      match r with
      | inl response => ret response
      | inr (output_data, errs) => handler_result output_data errs
      end
  end.

End Worker.
End Worker.

(* ===================================================================== *)
(** ** Sample runtime, configuration and worlds *)
(* ===================================================================== *)

Module Samples.
Import Py World Worker.

Definition quote : string := String (ascii_of_nat 34) "".

(** [json.dumps(v)] for values whose strings need no escape. *)
Fixpoint dumps (v : json) : string :=
  match v with
  | JNull => "null"
  | JBool true => "true"
  | JBool false => "false"
  | JInt n => int_str n
  | JStr s => quote ++ s ++ quote
  | JArr l => "[" ++ String.concat ", " (map dumps l) ++ "]"
  | JObj l =>
      "{" ++ String.concat ", "
               (map (fun kv => quote ++ fst kv ++ quote ++ ": " ++ dumps (snd kv)) l)
          ++ "}"
  end.

Definition status_message (remaining : Z) : json :=
  JObj [("type", JStr "status");
        ("data", JObj [("status",
                        JObj [("exec_info",
                               JObj [("queue_remaining", JInt remaining)])])])].

Definition executing_message (node prompt_id : json) : json :=
  JObj [("type", JStr "executing");
        ("data", JObj [("node", node); ("prompt_id", prompt_id)])].

Definition execution_error_message (prompt_id : json) : json :=
  JObj [("type", JStr "execution_error");
        ("data", JObj [("prompt_id", prompt_id);
                       ("node_type", JStr "KSampler");
                       ("node_id", JStr "3");
                       ("exception_message", JStr "out of memory")])].

Definition sample_workflow : json :=
  JObj [("1", JObj [("class_type", JStr "CheckpointLoaderSimple")])].

(** The texts the sample decoder knows. *)
Definition sample_values : list json :=
  [ status_message 1;
    executing_message JNull (JStr "abc");
    executing_message JNull (JStr "xyz");
    executing_message (JStr "3") (JStr "abc");
    execution_error_message (JStr "abc");
    JObj [("type", JStr "status"); ("data", JNull)];
    JObj [("workflow", sample_workflow)];
    JObj [("workflow", JObj [])];
    JArr [] ].

Definition sample_loads (s : string) : option json :=
  find (fun v => String.eqb (dumps v) s) sample_values.

Definition png_bytes : bytes := [Byte.x4d; Byte.x61; Byte.x6e].

Definition bytes_eqb (a b : bytes) : bool :=
  (length a =? length b)%nat &&
  forallb (fun p => Byte.eqb (fst p) (snd p)) (combine a b).

(** A runtime that decodes the sample texts, quotes plain strings, and
    knows base64 and the extension of the sample image. *)
Definition sample_runtime : PyRuntime := {|
  json_loads := sample_loads;
  repr_str := fun s => "'" ++ s ++ "'";
  b64encode := fun b => if bytes_eqb b png_bytes then "TWFu" else "";
  b64decode := fun s => if String.eqb s "TWFu" then inl png_bytes
                        else inr (mk_exn BinasciiError (JStr "Incorrect padding"));
  splitext_ext := fun p => if String.eqb p "out.png" then ".png" else ""
|}.

Definition sample_config : config := {|
  COMFY_HOST := "127.0.0.1:8188";
  COMFYUI_DIR := "/comfyui";
  WEBSOCKET_RECONNECT_ATTEMPTS := 5;
  WEBSOCKET_RECONNECT_DELAY_S := 3;
  BUCKET_ENDPOINT_URL := None;
  websocket_installed := true;
  runpod_installed := true
|}.

Definition with_bucket (c : config) : config :=
  mk_config (COMFY_HOST c) (COMFYUI_DIR c) (WEBSOCKET_RECONNECT_ATTEMPTS c)
    (WEBSOCKET_RECONNECT_DELAY_S c) (Some "https://bucket.example")
    (websocket_installed c) (runpod_installed c).

Definition with_attempts (n : Z) (c : config) : config :=
  mk_config (COMFY_HOST c) (COMFYUI_DIR c) n
    (WEBSOCKET_RECONNECT_DELAY_S c) (BUCKET_ENDPOINT_URL c)
    (websocket_installed c) (runpod_installed c).

Definition without_websocket (c : config) : config :=
  mk_config (COMFY_HOST c) (COMFYUI_DIR c) (WEBSOCKET_RECONNECT_ATTEMPTS c)
    (WEBSOCKET_RECONNECT_DELAY_S c) (BUCKET_ENDPOINT_URL c)
    false (runpod_installed c).

(** A world in which the engine already runs and nothing else is
    scripted. *)
Definition quiet_world : world := {|
  http := []; ws_connects := []; ws_recvs := []; clock := []; uploads := [];
  popen := None; comfy_process := true; polls := [None];
  ws_connected := false;
  files := []; tmp_count := 0; uuid := "client-1"; trace := []; log := []
|}.

Definition ok_json (j : json) : response + exn :=
  inl (mk_response 200 "OK" (dumps j) [] (inl j)).

Definition ok_bytes (b : bytes) : response + exn :=
  inl (mk_response 200 "OK" ""
         b (inr (mk_exn RequestsJSONDecodeError (JStr "Expecting value")))).

Definition status_only (code : Z) (why : string) : response + exn :=
  inl (mk_response code why ""
         [] (inr (mk_exn RequestsJSONDecodeError (JStr "Expecting value")))).

Definition connection_refused : exn :=
  mk_exn OSError (JStr "[Errno 111] Connection refused").

Definition connection_lost : exn :=
  mk_exn WebSocketConnectionClosedException
    (JStr "Connection to remote host was lost.").

Definition job_of (input : json) : list (string * json) :=
  [("id", JStr "job-1"); ("input", input)].

(** The manifest of a run that produced one image in node 9. *)
Definition manifest (outputs : json) : json :=
  JObj [("abc", JObj [("outputs", outputs)])].

Definition image_ref (filename kind : string) : json :=
  JObj [("filename", JStr filename); ("subfolder", JStr ""); ("type", JStr kind)].

(** A run up to the manifest: the engine answers the probe, accepts the
    workflow as prompt "abc" and reports completion on the stream. *)
Definition completed_run (after : list (response + exn)) : world :=
  set_ws_recvs [RecvStr (dumps (executing_message JNull (JStr "abc")))]
    (set_ws_connects [None]
       (set_http (status_only 200 "OK"
                    :: ok_json (JObj [("prompt_id", JStr "abc")]) :: after)
          quiet_world)).

End Samples.

(* ===================================================================== *)
(** ** Properties *)
(* ===================================================================== *)

Import Py World Worker.
Local Open Scope worker_scope.

(** *** Running the monad *)

Lemma bind_run {A B} (m : M A) (k : A -> M B) (w : world) :
  bind m k w =
  match m w with
  | (Ret a, w') => k a w'
  | (Raise e, w') => (Raise e, w')
  | (Stall, w') => (Stall, w')
  end.
Proof. reflexivity. Qed.

Lemma bind_ret_inv {A B} (m : M A) (k : A -> M B) (w w' : world) (b : B) :
  bind m k w = (Ret b, w') ->
  exists a w1, m w = (Ret a, w1) /\ k a w1 = (Ret b, w').
Proof.
  unfold bind. destruct (m w) as [[a | e | ] w1]; intro H; try discriminate.
  exists a, w1. split; [reflexivity | exact H].
Qed.

Lemma try_except_ret_inv {A} (m : M A) (h : exn -> M A) (w w' : world) (a : A) :
  try_except m h w = (Ret a, w') ->
  m w = (Ret a, w') \/ exists e w1, m w = (Raise e, w1) /\ h e w1 = (Ret a, w').
Proof.
  unfold try_except. destruct (m w) as [[a0 | e | ] w1]; intro H.
  - left. exact H.
  - right. exists e, w1. split; [reflexivity | exact H].
  - discriminate.
Qed.

Lemma lift_ret_inv {A} (c : exc A) (w w' : world) (a : A) :
  lift c w = (Ret a, w') -> c = Ok a /\ w' = w.
Proof.
  destruct c as [a0 | e]; simpl; unfold ret, raise; intro H; inversion H.
  split; reflexivity.
Qed.

Lemma is_a_Exception (e : exn) : is_a e Exception = true.
Proof. destruct e as [c arg]. destruct c; reflexivity. Qed.

(* --------------------------------------------------------------------- *)
(** *** Input validation *)
(* --------------------------------------------------------------------- *)

Section InputValidation.
Context {RT : PyRuntime} (cfg : config).

(** The ways a job input object is malformed: no workflow, a workflow
    that is not an object, an empty workflow, images that are not a
    list, an image entry that is not an object with both keys. *)
Definition bad_image (img : json) : Prop :=
  match img with
  | JObj entry => has_key "name" entry = false \/ has_key "image" entry = false
  | _ => True
  end.

Inductive malformed : list (string * json) -> Prop :=
| missing_workflow fields :
    assoc "workflow" fields = None \/ assoc "workflow" fields = Some JNull ->
    malformed fields
| workflow_not_object fields workflow :
    assoc "workflow" fields = Some workflow ->
    is_dict workflow = false ->
    malformed fields
| empty_workflow fields :
    assoc "workflow" fields = Some (JObj []) ->
    malformed fields
| images_not_list fields images :
    assoc "images" fields = Some images ->
    is_none images = false ->
    is_list images = false ->
    malformed fields
| image_missing_keys fields images img :
    assoc "images" fields = Some (JArr images) ->
    In img images ->
    bad_image img ->
    malformed fields.

Lemma validate_images_bad (images : list json) (img : json) :
  In img images -> bad_image img ->
  exists c msg, validate_images images = Ok (Some (String c msg)).
Proof.
  induction images as [| first rest IH]; intros Hin Hbad.
  - destruct Hin.
  - simpl. destruct first as [ | b | n | s | l | entry ]; simpl;
      try (eexists; eexists; reflexivity).
    destruct (has_key "name" entry) eqn:Hname;
      destruct (has_key "image" entry) eqn:Himage; simpl;
      try (eexists; eexists; reflexivity).
    destruct Hin as [Heq | Hin].
    + subst img. simpl in Hbad. destruct Hbad; congruence.
    + apply IH; assumption.
Qed.

Lemma validate_fields_malformed (fields : list (string * json)) :
  malformed fields ->
  exists c msg, validate_fields (JObj fields) = Ok (None, Some (String c msg)).
Proof.
  intro Hbad. unfold validate_fields, get, get_default. simpl.
  destruct (assoc "workflow" fields) as [workflow |] eqn:Hw;
    [| eexists; eexists; reflexivity].
  destruct workflow as [ | b | n | s | l | nodes ];
    try (eexists; eexists; reflexivity).
  destruct nodes as [| node nodes]; [eexists; eexists; reflexivity |].
  cbn [is_none is_dict negb len exc_bind length].
  replace (Z.of_nat (S (length nodes)) =? 0)%Z with false
    by (symmetry; apply Z.eqb_neq; lia).
  destruct Hbad as [fields [H | H] | fields wf H Hd | fields H
                   | fields images H Hn Hl | fields images img H Hin Himg];
    try congruence.
  - rewrite Hw in H. inversion H; subst. discriminate.
  - rewrite H. destruct images; try discriminate; simpl;
      eexists; eexists; reflexivity.
  - rewrite H. simpl.
    destruct (validate_images_bad images img Hin Himg) as [c [msg Hv]].
    rewrite Hv. simpl. exists c, msg. reflexivity.
Qed.

(** The value the handler validates: [job.get("input", {})]. *)
Definition input_of (job : list (string * json)) : json :=
  match assoc "input" job with Some v => v | None => JObj [] end.

(** The object a job input carries: the input itself, or the object its
    text decodes to. *)
Inductive carries : json -> list (string * json) -> Prop :=
| carries_object fields : carries (JObj fields) fields
| carries_text s fields :
    json_loads s = Some (JObj fields) -> carries (JStr s) fields.

Lemma validate_input_carried (input : json) (fields : list (string * json)) :
  carries input fields -> validate_input input = validate_fields (JObj fields).
Proof.
  intros [fields' | s fields' Hs]; unfold validate_input; simpl.
  - reflexivity.
  - rewrite Hs. reflexivity.
Qed.

Lemma handler_rejects (job : list (string * json)) (c : ascii) (msg : string)
    (w : world) :
  validate_input (input_of job) = Ok (None, Some (String c msg)) ->
  handler cfg job w =
  (Ret (error_response (String c msg)),
   add_log INFO
     ("Processing job: "
        ++ str (match assoc "id" job with Some v => v | None => JStr "unknown" end))
     w).
Proof.
  intro Hv. unfold handler, handler_prepare. fold (input_of job).
  rewrite Hv. reflexivity.
Qed.

(** C10.  A string input is decoded with [json.loads] and the decoded
    object is validated exactly as an object supplied directly; a string
    that is not JSON yields "Invalid JSON format in input".  (A decoded
    [null] or string has no [get]: the call raises AttributeError.) *)
Theorem validate_input_decodes_strings (s : string) :
  match json_loads s with
  | Some (JObj fields) => validate_input (JStr s) = validate_input (JObj fields)
  | Some JNull => validate_input (JStr s) = no_attribute JNull "get"
  | Some (JStr t) => validate_input (JStr s) = no_attribute (JStr t) "get"
  | Some v => validate_input (JStr s) = validate_input v
  | None => validate_input (JStr s) = Ok (None, Some "Invalid JSON format in input")
  end.
Proof.
  unfold validate_input. simpl.
  destruct (json_loads s) as [v |]; [| reflexivity].
  destruct v; reflexivity.
Qed.

(** C8.  A job input that is malformed (as an object, or as the text of
    one) makes [validate_input] return an error message, and the handler
    returns that message as its error response having made no call: the
    trace of calls is as it was and no scripted reply is consumed. *)
Theorem malformed_input_short_circuits (input : json)
    (fields : list (string * json)) :
  carries input fields ->
  malformed fields ->
  exists msg,
    msg <> "" /\
    validate_input input = Ok (None, Some msg) /\
    forall (job : list (string * json)) (w : world),
      input_of job = input ->
      fst (handler cfg job w) = Ret (error_response msg) /\
      trace (snd (handler cfg job w)) = trace w /\
      http (snd (handler cfg job w)) = http w /\
      ws_connects (snd (handler cfg job w)) = ws_connects w /\
      ws_recvs (snd (handler cfg job w)) = ws_recvs w /\
      uploads (snd (handler cfg job w)) = uploads w.
Proof.
  intros Hcarries Hbad.
  destruct (validate_fields_malformed fields Hbad) as [c [msg Hv]].
  exists (String c msg). split; [discriminate |].
  assert (Hvi : validate_input input = Ok (None, Some (String c msg))).
  { rewrite (validate_input_carried input fields Hcarries). exact Hv. }
  split; [exact Hvi |].
  intros job w Hin. rewrite <- Hin in Hvi.
  rewrite (handler_rejects job c msg w Hvi).
  repeat split.
Qed.

End InputValidation.

(* --------------------------------------------------------------------- *)
(** *** Calls against a scripted world *)
(* --------------------------------------------------------------------- *)

Lemma request_reply (c : call) (w : world) (x : response + exn)
    (rest : list (response + exn)) :
  http w = x :: rest ->
  request c w =
  (match x with inl r => Ret r | inr e => Raise e end,
   record c (set_http rest w)).
Proof. unfold request. intros ->. destruct x; reflexivity. Qed.

Lemma time_sleep_run (ms : Z) (w : world) :
  (0 <= ms)%Z -> time_sleep ms w = (Ret tt, record (Sleep ms) w).
Proof.
  intro H. unfold time_sleep.
  replace (ms <? 0)%Z with false by (symmetry; apply Z.ltb_ge; exact H).
  reflexivity.
Qed.

(* --------------------------------------------------------------------- *)
(** *** The readiness prober *)
(* --------------------------------------------------------------------- *)

Section ReadinessProber.

(** An attempt that is not a success and not fatal: a response whose
    status is not 200, or an exception of [requests]. *)
Definition failed_attempt (reply : response + exn) : Prop :=
  match reply with
  | inl r => status_code r <> 200%Z
  | inr e => is_a e RequestException = true
  end.

Lemma check_server_loop_reaches (url : string) (delay : Z) (r : response)
    (rest : list (response + exn)) :
  (0 <= delay)%Z ->
  status_code r = 200%Z ->
  forall (pre : list (response + exn)) (n : nat) (w : world),
    Forall failed_attempt pre ->
    (length pre < n)%nat ->
    http w = (pre ++ inl r :: rest)%list ->
    fst (check_server_loop url delay n w) = Ret true.
Proof.
  intros Hdelay Hok. induction pre as [| reply pre IH]; intros n w Hpre Hlen Hw.
  - destruct n as [| n]; [simpl in Hlen; lia |].
    simpl. unfold bind, try_except.
    rewrite (request_reply _ w (inl r) rest Hw).
    rewrite Hok. reflexivity.
  - destruct n as [| n]; [simpl in Hlen; lia |].
    inversion Hpre as [| ? ? Hreply Hrest]; subst.
    simpl in Hw. simpl. unfold bind at 1. unfold try_except, bind at 1.
    rewrite (request_reply _ w reply _ Hw).
    destruct reply as [r0 | e]; simpl in Hreply.
    + replace (status_code r0 =? 200)%Z with false
        by (symmetry; apply Z.eqb_neq; exact Hreply).
      unfold ret at 1. unfold bind. rewrite time_sleep_run by exact Hdelay.
      apply IH; [exact Hrest | simpl in Hlen; lia | reflexivity].
    + assert (Hcatch :
        (if is_a e RequestsTimeout then ret false
         else if is_a e RequestException then ret false
         else raise e) = (ret false : M bool)).
      { rewrite Hreply. destruct (is_a e RequestsTimeout); reflexivity. }
      rewrite Hcatch. unfold ret at 1. unfold bind.
      rewrite time_sleep_run by exact Hdelay.
      apply IH; [exact Hrest | simpl in Hlen; lia | reflexivity].
Qed.

(** C4, as the code has it.  When an attempt within the retry budget
    receives a response whose status is exactly 200, every earlier
    attempt having failed, the prober returns true. *)
Theorem check_server_succeeds_on_200 (url : string) (retries delay : Z)
    (w : world) (pre rest : list (response + exn)) (r : response) :
  (0 <= delay)%Z ->
  http w = (pre ++ inl r :: rest)%list ->
  Forall failed_attempt pre ->
  (length pre < Z.to_nat retries)%nat ->
  status_code r = 200%Z ->
  fst (check_server url retries delay w) = Ret true.
Proof.
  intros Hdelay Hw Hpre Hlen Hok.
  unfold check_server, bind, logger.
  pose proof (check_server_loop_reaches url delay r rest Hdelay Hok pre
                (Z.to_nat retries)
                (add_log INFO ("Checking API server at " ++ url ++ "...") w)
                Hpre Hlen Hw) as Hloop.
  destruct (check_server_loop url delay (Z.to_nat retries)
              (add_log INFO ("Checking API server at " ++ url ++ "...") w))
    as [[b | e | ] w'] eqn:Hrun; simpl in Hloop; inversion Hloop; subst.
  reflexivity.
Qed.

End ReadinessProber.

(* --------------------------------------------------------------------- *)
(** *** The submitter *)
(* --------------------------------------------------------------------- *)

Section Submitter.
Context {RT : PyRuntime} (cfg : config).

(** A [node_errors] mapping: node id to error type to message. *)
Definition node_errors_value (nodes : list (string * list (string * json)))
  : json :=
  JObj (map (fun node => (fst node, JObj (snd node))) nodes).

(** Its (node, error_type, message) triples in the order of the mapping. *)
Definition findings (nodes : list (string * list (string * json)))
  : list (string * string * json) :=
  flat_map (fun node => map (fun f => (fst node, fst f, snd f)) (snd node))
    nodes.

Definition finding_line (f : string * string * json) : string :=
  let '(node_id, error_type, msg) := f in
  "• Node " ++ node_id ++ " (" ++ error_type ++ "): " ++ str msg.

(** The top-level message of a rejection body. *)
Inductive top_level_message (body : list (string * json)) : string -> Prop :=
| no_error_field :
    assoc "error" body = None ->
    top_level_message body "Workflow validation failed"
| error_with_message err m :
    assoc "error" body = Some (JObj err) ->
    assoc "message" err = Some (JStr m) ->
    top_level_message body m
| error_without_message err :
    assoc "error" body = Some (JObj err) ->
    assoc "message" err = None ->
    top_level_message body "Workflow validation failed"
| error_not_object v :
    assoc "error" body = Some v ->
    is_dict v = false ->
    top_level_message body (str v).

(** The text of the error: the top-level message, then a colon and the
    lines of the findings, when there are any. *)
Definition expected_detail (top : string)
    (nodes : list (string * list (string * json))) : string :=
  match findings nodes with
  | [] => top
  | _ :: _ =>
      top ++ ":" ++ newline
        ++ String.concat newline (map finding_line (findings nodes))
  end.

Lemma details_are_findings (nodes : list (string * list (string * json))) :
  map bullet
    (flat_map node_details
       (map (fun node => (fst node, JObj (snd node))) nodes)) =
  map finding_line (findings nodes).
Proof.
  induction nodes as [| [node_id errs] nodes IH]; [reflexivity |].
  simpl. unfold findings in *. simpl.
  rewrite !map_app, IH. f_equal.
  rewrite !map_map. apply map_ext. intros [error_type msg]. reflexivity.
Qed.

Lemma has_key_assoc {A} (k : string) (l : list (string * A)) (v : A) :
  assoc k l = Some v -> has_key k l = true.
Proof. unfold has_key. intros ->. reflexivity. Qed.

Lemma validation_error_message_detail (body : list (string * json))
    (nodes : list (string * list (string * json))) (top : string) :
  assoc "node_errors" body = Some (node_errors_value nodes) ->
  top_level_message body top ->
  validation_error_message (JObj body) = Ok (JStr (expected_detail top nodes)).
Proof.
  intros Hnodes Htop.
  unfold validation_error_message.
  cbn [contains getitem exc_bind].
  rewrite (has_key_assoc _ _ _ Hnodes), Hnodes.
  assert (Hmsg :
    (if has_key "error" body
     then exc_bind
            match assoc "error" body with
            | Some x => Ok x
            | None => Err (mk_exn KeyError (JStr "error"))
            end
            (fun error_info =>
               if is_dict error_info
               then get_default error_info "message"
                      (JStr "Workflow validation failed")
               else Ok (JStr (str error_info)))
     else Ok (JStr "Workflow validation failed")) = Ok (JStr top)).
  { destruct Htop as [H | err m H Hm | err H Hm | v H Hv].
    - unfold has_key. rewrite H. reflexivity.
    - rewrite (has_key_assoc _ _ _ H), H. simpl. rewrite Hm. reflexivity.
    - rewrite (has_key_assoc _ _ _ H), H. simpl. rewrite Hm. reflexivity.
    - rewrite (has_key_assoc _ _ _ H), H. simpl. rewrite Hv. reflexivity. }
  rewrite Hmsg. cbn [exc_bind node_errors_value items].
  pose proof (details_are_findings nodes) as Hd.
  unfold expected_detail.
  destruct (flat_map node_details
              (map (fun node => (fst node, JObj (snd node))) nodes))
    as [| d ds];
    destruct (findings nodes) as [| f fs]; try discriminate Hd.
  - reflexivity.
  - cbn [iadd_str]. rewrite Hd. reflexivity.
Qed.

(** C7, as the code has it.  For a 400 response whose body holds a
    [node_errors] mapping from node to error type to message, and whose
    top-level message is text (the [message] of [error], the default when
    there is none, or the text of an [error] that is not an object), the
    submitter raises ValueError whose text is the top-level message,
    followed, when there are findings, by a colon and one line for every
    (node, error type) pair in the order of the mapping. *)
Theorem queue_workflow_reports_every_finding (workflow : json)
    (client_id : string) (w : world) (resp : response)
    (rest : list (response + exn)) (body : list (string * json))
    (nodes : list (string * list (string * json))) (top : string) :
  http w = inl resp :: rest ->
  status_code resp = 400%Z ->
  json_body resp = inl (JObj body) ->
  assoc "node_errors" body = Some (node_errors_value nodes) ->
  top_level_message body top ->
  fst (queue_workflow cfg workflow client_id w) =
  Raise (mk_exn ValueError (JStr (expected_detail top nodes))).
Proof.
  intros Hw Hstatus Hbody Hnodes Htop.
  unfold queue_workflow. unfold bind at 1.
  rewrite (request_reply _ w (inl resp) rest Hw).
  rewrite Hstatus. simpl Z.eqb. cbv iota.
  unfold bind at 1. unfold bind at 1. unfold logger at 1.
  unfold try_except, bind at 1, response_json. rewrite Hbody.
  unfold ret at 1. unfold bind at 1.
  rewrite (validation_error_message_detail body nodes top Hnodes Htop).
  reflexivity.
Qed.

End Submitter.

(* --------------------------------------------------------------------- *)
(** *** The stream monitor *)
(* --------------------------------------------------------------------- *)

(** Inversion of a run that returned. *)
Ltac invert_run :=
  repeat match goal with
  | H : bind _ _ _ = (Ret _, _) |- _ =>
      let a := fresh "a" in
      let w := fresh "w" in
      let Hm := fresh "Hm" in
      apply bind_ret_inv in H; destruct H as (a & w & Hm & H)
  | H : lift _ _ = (Ret _, _) |- _ =>
      apply lift_ret_inv in H; destruct H; subst
  | H : ret _ _ = (Ret _, _) |- _ => inversion H; subst; clear H
  | H : logger _ _ _ = (Ret _, _) |- _ => inversion H; subst; clear H
  | H : raise _ _ = (Ret _, _) |- _ => discriminate H
  | H : (if ?b then _ else _) _ = (Ret _, _) |- _ => destruct b eqn:?
  end.

Section StreamMonitor.
Context {RT : PyRuntime} (cfg : config).

(** The states the loop can leave with: finished, or failed with a new
    last error. *)
Definition stopped (st st' : monitor_state) : Prop :=
  st' = mk_monitor_state true (errors st) \/
  exists msg, st' = mk_monitor_state (execution_done st) (append (errors st) msg).

Lemma on_message_result (prompt_id : json) (st st' : monitor_state)
    (message : json) (c : control) (w w' : world) :
  on_message prompt_id st message w = (Ret (c, st'), w') ->
  match c with
  | Continue => st' = st
  | Break => stopped st st'
  end.
Proof.
  unfold on_message. intro H. invert_run; try reflexivity.
  - left. reflexivity.
  - right. eexists. reflexivity.
Qed.

Lemma monitor_step_result (url : string) (prompt_id : json)
    (st st' : monitor_state) (c : control) (w w' : world) :
  monitor_step cfg url prompt_id st w = (Ret (c, st'), w') ->
  match c with
  | Continue => st' = st
  | Break => stopped st st'
  end.
Proof.
  unfold monitor_step. intro H.
  apply try_except_ret_inv in H. destruct H as [H | (e & w1 & _ & H)].
  - invert_run. unfold on_recv in H.
    destruct a as [s | b | e].
    + destruct (json_loads s) as [message |]; [| discriminate H].
      eapply on_message_result; exact H.
    + inversion H. reflexivity.
    + inversion H. reflexivity.
  - invert_run; reflexivity.
Qed.

Lemma monitor_loop_result (url : string) (prompt_id : json) (fuel : nat) :
  forall (st st' : monitor_state) (w w' : world),
    monitor_loop cfg fuel url prompt_id st w = (Ret st', w') ->
    stopped st st'.
Proof.
  induction fuel as [| fuel IH]; intros st st' w w' H.
  - discriminate H.
  - simpl in H. apply bind_ret_inv in H.
    destruct H as ([c st1] & w1 & Hstep & H).
    apply monitor_step_result in Hstep.
    destruct c.
    + subst st1. eapply IH; exact H.
    + inversion H; subst. exact Hstep.
Qed.

Lemma try_finally_ret_inv {A} (m : M A) (f : M unit) (w w' : world) (a : A) :
  try_finally m f w = (Ret a, w') -> exists w1, m w = (Ret a, w1).
Proof.
  unfold try_finally.
  destruct (m w) as [[a0 | e | ] w1]; intro H.
  - destruct (f w1) as [[u | e | ] w2]; inversion H; subst.
    exists w1. reflexivity.
  - destruct (f w1) as [[u | e' | ] w2]; discriminate H.
  - discriminate H.
Qed.

(** C9.  A pair the stream monitor returns is (true, no errors) or
    (false, some errors); (false, no errors) is never returned. *)
Theorem websocket_result_is_decided (workflow : json) (client_id : string)
    (prompt_id : json) (w w' : world) (done : bool) (errs : list string) :
  process_with_websocket cfg workflow client_id prompt_id w
    = (Ret (done, errs), w') ->
  (done = true /\ errs = []) \/ (done = false /\ errs <> []).
Proof.
  unfold process_with_websocket. intro H.
  invert_run.
  apply try_finally_ret_inv in Hm1. destruct Hm1 as [w3 Hm1].
  invert_run.
  apply monitor_loop_result in Hm1.
  destruct Hm1 as [-> | [msg ->]]; simpl.
  - left. split; reflexivity.
  - right. split; [reflexivity | discriminate].
Qed.

(** *** Messages the loop passes over *)

(** The object under key [k], [{}] when the key is absent. *)
Definition field_obj (k : string) (fields : list (string * json))
  : option (list (string * json)) :=
  match assoc k fields with
  | None => Some []
  | Some (JObj o) => Some o
  | Some _ => None
  end.

(** The value under key [k], [None] when the key is absent. *)
Definition field (k : string) (fields : list (string * json)) : json :=
  match assoc k fields with Some v => v | None => JNull end.

(** A status message, and a message that carries another prompt id. *)
Inductive noise (prompt_id : json) : json -> Prop :=
| status_noise fields data status exec_info :
    field "type" fields = JStr "status" ->
    field_obj "data" fields = Some data ->
    field_obj "status" data = Some status ->
    field_obj "exec_info" status = Some exec_info ->
    noise prompt_id (JObj fields)
| other_prompt fields data :
    eq (field "type" fields) (JStr "status") = false ->
    field_obj "data" fields = Some data ->
    eq (field "prompt_id" data) prompt_id = false ->
    noise prompt_id (JObj fields).

(** Every message the loop reads and passes over: a status report, an
    [executing] message that is not the completion of [prompt_id] (it
    names a node, or another prompt), an [execution_error] of another
    prompt, and a message of any other type. *)
Inductive passed_over (prompt_id : json) : json -> Prop :=
| status_report fields data status exec_info :
    field "type" fields = JStr "status" ->
    field_obj "data" fields = Some data ->
    field_obj "status" data = Some status ->
    field_obj "exec_info" status = Some exec_info ->
    passed_over prompt_id (JObj fields)
| node_progress fields data :
    field "type" fields = JStr "executing" ->
    field_obj "data" fields = Some data ->
    is_none (field "node" data) && eq (field "prompt_id" data) prompt_id = false ->
    passed_over prompt_id (JObj fields)
| foreign_error fields data :
    field "type" fields = JStr "execution_error" ->
    field_obj "data" fields = Some data ->
    eq (field "prompt_id" data) prompt_id = false ->
    passed_over prompt_id (JObj fields)
| other_type fields :
    field "type" fields <> JStr "status" ->
    field "type" fields <> JStr "executing" ->
    field "type" fields <> JStr "execution_error" ->
    passed_over prompt_id (JObj fields).

Lemma get_default_field_obj (k : string) (fields o : list (string * json)) :
  field_obj k fields = Some o ->
  get_default (JObj fields) k (JObj []) = Ok (JObj o).
Proof.
  unfold field_obj, get_default.
  destruct (assoc k fields) as [[ | | | | | o'] |]; intro H; inversion H;
    reflexivity.
Qed.

Lemma get_field (k : string) (fields : list (string * json)) :
  get (JObj fields) k = Ok (field k fields).
Proof. reflexivity. Qed.

Lemma bind_lift_ok {A B} (a : A) (k : A -> M B) (w : world) :
  bind (lift (Ok a)) k w = k a w.
Proof. reflexivity. Qed.

Lemma bind_logger {B} (l : level) (msg : string) (k : unit -> M B) (w : world) :
  bind (logger l msg) k w = k tt (add_log l msg w).
Proof. reflexivity. Qed.

(** Only a [str] equals a [str]. *)
Lemma eq_text (v : json) (s : string) : eq v (JStr s) = true <-> v = JStr s.
Proof.
  destruct v; simpl; split; intro H; try discriminate H.
  - apply String.eqb_eq in H. subst. reflexivity.
  - inversion H. apply String.eqb_refl.
Qed.

Lemma eq_other_text (v : json) (s : string) :
  v <> JStr s -> eq v (JStr s) = false.
Proof.
  intro H. destruct (eq v (JStr s)) eqn:He; [| reflexivity].
  apply eq_text in He. contradiction.
Qed.

Lemma noise_is_passed_over (prompt_id : json) (m : json) :
  noise prompt_id m -> passed_over prompt_id m.
Proof.
  intros [fields data status exec_info Htype Hdata Hstatus Hinfo
         | fields data Htype Hdata Hpid].
  - exact (status_report prompt_id fields data status exec_info
             Htype Hdata Hstatus Hinfo).
  - destruct (eq (field "type" fields) (JStr "executing")) eqn:Hexecuting.
    + apply eq_text in Hexecuting.
      apply (node_progress prompt_id fields data Hexecuting Hdata).
      rewrite Hpid. apply andb_false_r.
    + destruct (eq (field "type" fields) (JStr "execution_error")) eqn:Herror.
      * apply eq_text in Herror.
        exact (foreign_error prompt_id fields data Herror Hdata Hpid).
      * apply other_type; intro Heq; rewrite Heq in *; discriminate.
Qed.

(** The loop passes over such a message: it continues with its state as
    it was, and touches neither script. *)
Lemma on_message_passed_over (prompt_id : json) (st : monitor_state)
    (m : json) (w : world) :
  passed_over prompt_id m ->
  exists w1,
    on_message prompt_id st m w = (Ret (Continue, st), w1) /\
    ws_recvs w1 = ws_recvs w /\ ws_connects w1 = ws_connects w.
Proof.
  intros [fields data status exec_info Htype Hdata Hstatus Hinfo
         | fields data Htype Hdata Hlast
         | fields data Htype Hdata Hpid
         | fields Hstatus Hexecuting Herror];
    unfold on_message; rewrite get_field, bind_lift_ok.
  - rewrite Htype.
    replace (eq (JStr "status") (JStr "status")) with true by reflexivity.
    rewrite (get_default_field_obj _ _ _ Hdata), bind_lift_ok.
    rewrite (get_default_field_obj _ _ _ Hstatus), bind_lift_ok.
    rewrite (get_default_field_obj _ _ _ Hinfo), bind_lift_ok.
    unfold get_default. rewrite bind_lift_ok, bind_logger.
    eexists. split; [reflexivity | split; reflexivity].
  - rewrite Htype.
    replace (eq (JStr "executing") (JStr "status")) with false by reflexivity.
    replace (eq (JStr "executing") (JStr "executing")) with true by reflexivity.
    rewrite (get_default_field_obj _ _ _ Hdata), bind_lift_ok.
    rewrite !get_field, !bind_lift_ok. rewrite Hlast.
    eexists. split; [reflexivity | split; reflexivity].
  - rewrite Htype.
    replace (eq (JStr "execution_error") (JStr "status")) with false
      by reflexivity.
    replace (eq (JStr "execution_error") (JStr "executing")) with false
      by reflexivity.
    replace (eq (JStr "execution_error") (JStr "execution_error")) with true
      by reflexivity.
    rewrite (get_default_field_obj _ _ _ Hdata), bind_lift_ok.
    rewrite !get_field, !bind_lift_ok. rewrite Hpid.
    eexists. split; [reflexivity | split; reflexivity].
  - rewrite (eq_other_text _ _ Hstatus), (eq_other_text _ _ Hexecuting),
      (eq_other_text _ _ Herror).
    eexists. split; [reflexivity | split; reflexivity].
Qed.

Lemma on_message_noise (prompt_id : json) (st : monitor_state) (m : json)
    (w : world) :
  noise prompt_id m ->
  exists w1,
    on_message prompt_id st m w = (Ret (Continue, st), w1) /\
    ws_recvs w1 = ws_recvs w /\ ws_connects w1 = ws_connects w.
Proof.
  intro Hnoise. apply on_message_passed_over, noise_is_passed_over, Hnoise.
Qed.

Lemma get_default_obj_inv (fields : list (string * json)) (k : string)
    (v next : json) (k' : string) (default : json) :
  get_default (JObj fields) k (JObj []) = Ok v ->
  get_default v k' default = Ok next ->
  exists o, field_obj k fields = Some o /\ v = JObj o.
Proof.
  unfold get_default at 1, field_obj. intros Hv Hnext.
  inversion Hv as [Hv']. subst v. clear Hv.
  destruct (assoc k fields) as [x |].
  - destruct x; try discriminate Hnext. eexists. split; reflexivity.
  - exists []. split; reflexivity.
Qed.

(** These are all of them: a message on which the loop continues is one
    of the four kinds. *)
Lemma continued_message_is_passed_over (prompt_id : json)
    (st st' : monitor_state) (m : json) (w w' : world) :
  on_message prompt_id st m w = (Ret (Continue, st'), w') ->
  passed_over prompt_id m.
Proof.
  unfold on_message. intro H.
  destruct m as [ | | | | | fields]; try discriminate H.
  rewrite get_field, bind_lift_ok in H.
  destruct (eq (field "type" fields) (JStr "status")) eqn:Hstatus.
  { apply eq_text in Hstatus.
    apply bind_ret_inv in H. destruct H as (data & w1 & Hdata & H).
    apply lift_ret_inv in Hdata. destruct Hdata as [Hdata ->].
    apply bind_ret_inv in H. destruct H as (status & w2 & Hst & H).
    apply lift_ret_inv in Hst. destruct Hst as [Hst ->].
    apply bind_ret_inv in H. destruct H as (exec_info & w3 & Hinfo & H).
    apply lift_ret_inv in Hinfo. destruct Hinfo as [Hinfo ->].
    apply bind_ret_inv in H. destruct H as (remaining & w4 & Hrem & H).
    apply lift_ret_inv in Hrem. destruct Hrem as [Hrem ->].
    destruct (get_default_obj_inv _ _ _ _ _ _ Hdata Hst) as (d & Hd & ->).
    destruct (get_default_obj_inv _ _ _ _ _ _ Hst Hinfo) as (s & Hs & ->).
    destruct (get_default_obj_inv _ _ _ _ _ _ Hinfo Hrem) as (i & Hi & ->).
    exact (status_report prompt_id fields d s i Hstatus Hd Hs Hi). }
  assert (Hnot_status : field "type" fields <> JStr "status").
  { intro Heq. rewrite Heq in Hstatus. discriminate Hstatus. }
  destruct (eq (field "type" fields) (JStr "executing")) eqn:Hexecuting.
  { apply eq_text in Hexecuting.
    apply bind_ret_inv in H. destruct H as (data & w1 & Hdata & H).
    apply lift_ret_inv in Hdata. destruct Hdata as [Hdata ->].
    apply bind_ret_inv in H. destruct H as (node & w2 & Hnode & H).
    apply lift_ret_inv in Hnode. destruct Hnode as [Hnode ->].
    destruct (get_default_obj_inv _ _ _ _ _ _ Hdata Hnode) as (d & Hd & ->).
    rewrite get_field in Hnode. inversion Hnode; subst node.
    rewrite get_field, bind_lift_ok in H.
    destruct (is_none (field "node" d) && eq (field "prompt_id" d) prompt_id)
      eqn:Hlast.
    - rewrite bind_logger in H. discriminate H.
    - exact (node_progress prompt_id fields d Hexecuting Hd Hlast). }
  assert (Hnot_executing : field "type" fields <> JStr "executing").
  { intro Heq. rewrite Heq in Hexecuting. discriminate Hexecuting. }
  destruct (eq (field "type" fields) (JStr "execution_error")) eqn:Herror.
  { apply eq_text in Herror.
    apply bind_ret_inv in H. destruct H as (data & w1 & Hdata & H).
    apply lift_ret_inv in Hdata. destruct Hdata as [Hdata ->].
    apply bind_ret_inv in H. destruct H as (pid & w2 & Hpid & H).
    apply lift_ret_inv in Hpid. destruct Hpid as [Hpid ->].
    destruct (get_default_obj_inv _ _ _ _ _ _ Hdata Hpid) as (d & Hd & ->).
    rewrite get_field in Hpid. inversion Hpid; subst pid.
    destruct (eq (field "prompt_id" d) prompt_id) eqn:Hmine.
    - rewrite !get_field, !bind_lift_ok, bind_logger in H. discriminate H.
    - exact (foreign_error prompt_id fields d Herror Hd Hmine). }
  apply other_type; [exact Hnot_status | exact Hnot_executing |].
  intro Heq. rewrite Heq in Herror. discriminate Herror.
Qed.

(** *** Replies that leave the monitor as it is *)

(** What [ws.recv()] can produce without ending the loop or closing the
    channel: a binary frame, a receive timeout, text that is not JSON (or
    a decoding error raised by the call itself), a message that is passed
    over. *)
Inductive calm (prompt_id : json) : recv_reply -> Prop :=
| calm_binary b : calm prompt_id (RecvBytes b)
| calm_timeout e :
    is_a e WebSocketTimeoutException = true -> calm prompt_id (RecvRaise e)
| calm_decode_error e :
    is_a e JSONDecodeError = true -> calm prompt_id (RecvRaise e)
| calm_invalid t : json_loads t = None -> calm prompt_id (RecvStr t)
| calm_message t m :
    json_loads t = Some m -> passed_over prompt_id m ->
    calm prompt_id (RecvStr t).

Lemma ws_recv_reply (w : world) (r : recv_reply) (rest : list recv_reply) :
  ws_recvs w = r :: rest ->
  ws_recv w =
  match r with
  | RecvRaise e =>
      (Raise e,
       if is_a e WebSocketConnectionClosedException
       then set_ws_connected false (record WsRecv (set_ws_recvs rest w))
       else record WsRecv (set_ws_recvs rest w))
  | _ => (Ret r, record WsRecv (set_ws_recvs rest w))
  end.
Proof. unfold ws_recv. intros ->. destruct r; reflexivity. Qed.

Lemma timeout_is_not_closed (e : exn) :
  is_a e WebSocketTimeoutException = true ->
  is_a e WebSocketConnectionClosedException = false.
Proof.
  destruct e as [c arg].
  destruct c; intro H; try discriminate H; reflexivity.
Qed.

Lemma closed_is_not_timeout (e : exn) :
  is_a e WebSocketConnectionClosedException = true ->
  is_a e WebSocketTimeoutException = false.
Proof.
  destruct e as [c arg].
  destruct c; intro H; try discriminate H; reflexivity.
Qed.

Lemma decode_error_is_not_of_the_channel (e : exn) :
  is_a e JSONDecodeError = true ->
  is_a e WebSocketTimeoutException = false /\
  is_a e WebSocketConnectionClosedException = false.
Proof.
  destruct e as [c arg].
  destruct c; intro H; try discriminate H; split; reflexivity.
Qed.

(** A calm reply leaves the state as it is and the loop running. *)
Lemma monitor_step_calm (url : string) (prompt_id : json) (st : monitor_state)
    (reply : recv_reply) (rest : list recv_reply) (w : world) :
  calm prompt_id reply ->
  ws_recvs w = reply :: rest ->
  exists w1,
    monitor_step cfg url prompt_id st w = (Ret (Continue, st), w1) /\
    ws_recvs w1 = rest /\ ws_connects w1 = ws_connects w.
Proof.
  intros Hcalm Hw. unfold monitor_step, try_except, bind.
  rewrite (ws_recv_reply w reply rest Hw).
  destruct Hcalm as [b | e He | e He | t Ht | t m Ht Hm].
  - eexists. split; [reflexivity | split; reflexivity].
  - rewrite (timeout_is_not_closed e He), He.
    eexists. split; [reflexivity | split; reflexivity].
  - destruct (decode_error_is_not_of_the_channel e He) as [-> ->]. rewrite He.
    eexists. split; [reflexivity | split; reflexivity].
  - unfold on_recv. rewrite Ht.
    eexists. split; [reflexivity | split; reflexivity].
  - unfold on_recv. rewrite Ht.
    destruct (on_message_passed_over prompt_id st m
                (record WsRecv (set_ws_recvs rest w)) Hm)
      as (w1 & Hrun & Hr & Hc).
    rewrite Hrun. exists w1. split; [reflexivity |].
    split; [exact Hr | exact Hc].
Qed.

(** *** Reconnection *)

Lemma ws_connect_failure (url : string) (w : world) (e : exn)
    (rest : list (option exn)) :
  ws_connects w = Some e :: rest ->
  ws_connect url w = (Raise e, record (WsConnect url) (set_ws_connects rest w)).
Proof. unfold ws_connect. intros ->. reflexivity. Qed.

Lemma ws_connect_success (url : string) (w : world)
    (rest : list (option exn)) :
  ws_connects w = None :: rest ->
  ws_connect url w =
  (Ret tt, record (WsConnect url) (set_ws_connected true (set_ws_connects rest w))).
Proof. unfold ws_connect. intros ->. reflexivity. Qed.

(** When every attempt of the budget fails to connect, the loop ends by
    raising the exception of the last attempt. *)
Lemma reconnect_loop_exhausted (url : string) (last_failure : exn)
    (more : list (option exn)) :
  (0 <= WEBSOCKET_RECONNECT_DELAY_S cfg)%Z ->
  forall (fails : list exn) (attempt : Z) (w : world),
    ws_connects w = (map Some (fails ++ [last_failure]) ++ more)%list ->
    (attempt + Z.of_nat (length fails) = WEBSOCKET_RECONNECT_ATTEMPTS cfg - 1)%Z ->
    fst (reconnect_loop cfg url (S (length fails)) attempt w)
      = Raise last_failure.
Proof.
  intro Hdelay.
  induction fails as [| e fails IH]; intros attempt w Hw Hn.
  - cbn [length reconnect_loop]. rewrite bind_logger.
    unfold bind at 1, try_except, bind at 1.
    rewrite time_sleep_run by lia.
    unfold bind at 1, ws_new at 1. unfold bind at 1.
    erewrite ws_connect_failure by exact Hw.
    rewrite is_a_Exception, bind_logger.
    replace (attempt =? WEBSOCKET_RECONNECT_ATTEMPTS cfg - 1)%Z with true
      by (symmetry; apply Z.eqb_eq; simpl in Hn; lia).
    reflexivity.
  - cbn [length reconnect_loop]. rewrite bind_logger.
    unfold bind at 1, try_except, bind at 1.
    rewrite time_sleep_run by lia.
    unfold bind at 1, ws_new at 1. unfold bind at 1.
    erewrite ws_connect_failure by exact Hw.
    rewrite is_a_Exception, bind_logger.
    replace (attempt =? WEBSOCKET_RECONNECT_ATTEMPTS cfg - 1)%Z with false
      by (symmetry; apply Z.eqb_neq; cbn [length] in Hn; lia).
    unfold ret at 1.
    apply IH; [reflexivity | cbn [length] in Hn; lia].
Qed.

(** The calls of [n] reconnection attempts: a pause, then a connection. *)
Definition reconnect_calls (url : string) (n : nat) : list call :=
  concat (repeat [Sleep (1000 * WEBSOCKET_RECONNECT_DELAY_S cfg); WsConnect url] n).

(** The reconnect loop when an attempt within the budget succeeds. *)
Lemma reconnect_loop_recovers (url : string) (more : list (option exn)) :
  (0 <= WEBSOCKET_RECONNECT_DELAY_S cfg)%Z ->
  forall (fails : list exn) (n : nat) (attempt : Z) (w : world),
    ws_connects w = (map Some fails ++ None :: more)%list ->
    (length fails < n)%nat ->
    (attempt + Z.of_nat (length fails) < WEBSOCKET_RECONNECT_ATTEMPTS cfg)%Z ->
    exists w1,
      reconnect_loop cfg url n attempt w = (Ret tt, w1) /\
      ws_connects w1 = more /\ ws_recvs w1 = ws_recvs w /\
      ws_connected w1 = true /\
      trace w1 = (trace w ++ reconnect_calls url (S (length fails)))%list.
Proof.
  intro Hdelay.
  induction fails as [| e fails IH]; intros n attempt w Hw Hn Hbudget;
    (destruct n as [| n]; [simpl in Hn; lia |]);
    cbn [reconnect_loop]; rewrite bind_logger;
    unfold bind at 1, try_except, bind at 1;
    rewrite time_sleep_run by lia;
    unfold bind at 1, ws_new at 1; unfold bind at 1.
  - erewrite ws_connect_success by exact Hw.
    rewrite bind_logger. unfold ret at 1.
    eexists. split; [reflexivity | repeat split].
    cbn [trace record set_ws_connected set_ws_connects add_log].
    unfold append, reconnect_calls. cbn [length repeat concat].
    rewrite <- !app_assoc. reflexivity.
  - erewrite ws_connect_failure by exact Hw.
    rewrite is_a_Exception, bind_logger.
    replace (attempt =? WEBSOCKET_RECONNECT_ATTEMPTS cfg - 1)%Z with false
      by (symmetry; apply Z.eqb_neq; cbn [length] in Hbudget; lia).
    unfold ret at 1.
    match goal with
    | |- context [reconnect_loop cfg url n (attempt + 1)%Z ?w2] =>
        destruct (IH n (attempt + 1)%Z w2 eq_refl)
          as (w1 & Hrun & Hc & Hr & Hconn & Ht)
    end.
    + simpl in Hn. lia.
    + cbn [length] in Hbudget. lia.
    + exists w1.
      split; [exact Hrun | split; [exact Hc | split; [| split; [exact Hconn |]]]].
      * rewrite Hr. reflexivity.
      * rewrite Ht.
        cbn [trace record set_ws_connected set_ws_connects add_log].
        unfold append, reconnect_calls. cbn [length repeat concat].
        rewrite <- !app_assoc. reflexivity.
Qed.

(** A closed channel that is reconnected within the budget leaves the
    state of the loop as it is. *)
Lemma monitor_step_recovers (url : string) (prompt_id : json)
    (st : monitor_state) (closed : exn) (fails : list exn)
    (rest : list recv_reply) (more : list (option exn)) (w : world) :
  (0 <= WEBSOCKET_RECONNECT_DELAY_S cfg)%Z ->
  (Z.of_nat (length fails) < WEBSOCKET_RECONNECT_ATTEMPTS cfg)%Z ->
  is_a closed WebSocketConnectionClosedException = true ->
  ws_recvs w = RecvRaise closed :: rest ->
  ws_connects w = (map Some fails ++ None :: more)%list ->
  exists w1,
    monitor_step cfg url prompt_id st w = (Ret (Continue, st), w1) /\
    ws_recvs w1 = rest /\ ws_connects w1 = more.
Proof.
  intros Hdelay Hbudget Hclosed Hr Hc.
  unfold monitor_step, try_except, bind at 1.
  rewrite (ws_recv_reply w _ _ Hr).
  rewrite (closed_is_not_timeout closed Hclosed), Hclosed.
  rewrite bind_logger. unfold bind at 1, reconnect.
  match goal with
  | |- context [reconnect_loop cfg url ?n 0%Z ?w2] =>
      destruct (reconnect_loop_recovers url more Hdelay fails n 0%Z w2 Hc)
        as (w1 & Hrun & Hc1 & Hr1 & _)
  end.
  - lia.
  - lia.
  - rewrite Hrun. exists w1. split; [reflexivity | split; [| exact Hc1]].
    rewrite Hr1. reflexivity.
Qed.

(** A closed channel with no reconnection budget: nothing is attempted. *)
Lemma monitor_step_unattended (url : string) (prompt_id : json)
    (st : monitor_state) (closed : exn) (rest : list recv_reply) (w : world) :
  (WEBSOCKET_RECONNECT_ATTEMPTS cfg <= 0)%Z ->
  is_a closed WebSocketConnectionClosedException = true ->
  ws_recvs w = RecvRaise closed :: rest ->
  exists w1,
    monitor_step cfg url prompt_id st w = (Ret (Continue, st), w1) /\
    ws_recvs w1 = rest /\ ws_connects w1 = ws_connects w.
Proof.
  intros Hbudget Hclosed Hr.
  unfold monitor_step, try_except, bind at 1.
  rewrite (ws_recv_reply w _ _ Hr).
  rewrite (closed_is_not_timeout closed Hclosed), Hclosed.
  rewrite bind_logger. unfold bind at 1, reconnect.
  replace (Z.to_nat (WEBSOCKET_RECONNECT_ATTEMPTS cfg)) with 0%nat by lia.
  cbn [reconnect_loop]. unfold ret at 1.
  eexists. split; [reflexivity | split; reflexivity].
Qed.

(** *** What the loop survives *)

(** The replies the loop reads and goes on from, with the connection
    attempts they use up: calm replies use none; a closure that is
    recovered uses the attempts that fail (fewer than the budget) and the
    one that succeeds; a closure with no budget uses none. *)
Inductive survives (prompt_id : json)
  : list recv_reply -> list (option exn) -> Prop :=
| survives_nothing : survives prompt_id [] []
| survives_calm reply replies attempts :
    calm prompt_id reply ->
    survives prompt_id replies attempts ->
    survives prompt_id (reply :: replies) attempts
| survives_closure closed fails replies attempts :
    is_a closed WebSocketConnectionClosedException = true ->
    (0 <= WEBSOCKET_RECONNECT_DELAY_S cfg)%Z ->
    (Z.of_nat (length fails) < WEBSOCKET_RECONNECT_ATTEMPTS cfg)%Z ->
    survives prompt_id replies attempts ->
    survives prompt_id (RecvRaise closed :: replies)
      (map Some fails ++ None :: attempts)%list
| survives_unattended closed replies attempts :
    is_a closed WebSocketConnectionClosedException = true ->
    (WEBSOCKET_RECONNECT_ATTEMPTS cfg <= 0)%Z ->
    survives prompt_id replies attempts ->
    survives prompt_id (RecvRaise closed :: replies) attempts.

(** Over such replies the loop keeps its state and arrives at what
    follows them in both scripts. *)
Lemma monitor_loop_survives (url : string) (prompt_id : json)
    (st : monitor_state) (rest : list recv_reply) (more : list (option exn))
    (pre : list recv_reply) (attempts : list (option exn)) :
  survives prompt_id pre attempts ->
  forall (fuel : nat) (w : world),
    ws_recvs w = (pre ++ rest)%list ->
    ws_connects w = (attempts ++ more)%list ->
    exists w1,
      monitor_loop cfg (length pre + fuel) url prompt_id st w
        = monitor_loop cfg fuel url prompt_id st w1 /\
      ws_recvs w1 = rest /\ ws_connects w1 = more.
Proof.
  induction 1 as [| reply replies attempts Hcalm _ IH
                  | closed fails replies attempts Hclosed Hdelay Hbudget _ IH
                  | closed replies attempts Hclosed Hbudget _ IH];
    intros fuel w Hr Hc.
  - exists w. split; [reflexivity | split; assumption].
  - destruct (monitor_step_calm url prompt_id st reply (replies ++ rest)%list w
                Hcalm Hr) as (w1 & Hstep & Hr1 & Hc1).
    destruct (IH fuel w1 Hr1 ltac:(congruence)) as (w2 & Hloop & Hr2 & Hc2).
    exists w2. cbn [length Nat.add monitor_loop]. unfold bind at 1.
    rewrite Hstep. split; [exact Hloop | split; assumption].
  - rewrite <- app_assoc in Hc.
    destruct (monitor_step_recovers url prompt_id st closed fails
                (replies ++ rest)%list (attempts ++ more)%list w
                Hdelay Hbudget Hclosed Hr Hc) as (w1 & Hstep & Hr1 & Hc1).
    destruct (IH fuel w1 Hr1 Hc1) as (w2 & Hloop & Hr2 & Hc2).
    exists w2. cbn [length Nat.add monitor_loop]. unfold bind at 1.
    rewrite Hstep. split; [exact Hloop | split; assumption].
  - destruct (monitor_step_unattended url prompt_id st closed
                (replies ++ rest)%list w Hbudget Hclosed Hr)
      as (w1 & Hstep & Hr1 & Hc1).
    destruct (IH fuel w1 Hr1 ltac:(congruence)) as (w2 & Hloop & Hr2 & Hc2).
    exists w2. cbn [length Nat.add monitor_loop]. unfold bind at 1.
    rewrite Hstep. split; [exact Hloop | split; assumption].
Qed.

(** What the loop survives in two stretches, it survives in one. *)
Lemma survives_app (prompt_id : json) (pre : list recv_reply)
    (attempts : list (option exn)) :
  survives prompt_id pre attempts ->
  forall post attempts',
    survives prompt_id post attempts' ->
    survives prompt_id (pre ++ post)%list (attempts ++ attempts')%list.
Proof.
  induction 1 as [| reply replies attempts Hcalm _ IH
                  | closed fails replies attempts Hclosed Hdelay Hbudget _ IH
                  | closed replies attempts Hclosed Hbudget _ IH];
    intros post attempts' Hpost.
  - exact Hpost.
  - apply survives_calm; [exact Hcalm | apply IH, Hpost].
  - rewrite <- app_assoc. cbn [app].
    apply survives_closure; [assumption .. | apply IH, Hpost].
  - apply survives_unattended; [assumption .. | apply IH, Hpost].
Qed.

(** *** From the call to the loop *)

(** The world in which the loop starts once the first connection is up. *)
Definition connected_world (url : string) (more : list (option exn))
    (w : world) : world :=
  add_log INFO "WebSocket connected"
    (record (WsConnect url)
       (set_ws_connected true
          (set_ws_connects more
             (set_ws_connected false
                (add_log INFO ("Connecting to websocket: " ++ url) w))))).

Lemma close_if_connected_returns (w : world) :
  exists w', close_if_connected w = (Ret tt, w').
Proof.
  unfold close_if_connected. destruct (ws_connected w); eexists; reflexivity.
Qed.

(** With the library installed and a first connection that succeeds, the
    monitor ends as its loop ends. *)
Lemma process_with_websocket_outcome (workflow : json) (client_id : string)
    (prompt_id : json) (w : world) (more : list (option exn)) :
  websocket_installed cfg = true ->
  ws_connects w = None :: more ->
  fst (process_with_websocket cfg workflow client_id prompt_id w) =
  match fst (monitor_loop cfg (S (length (ws_recvs w))) (ws_url cfg client_id)
               prompt_id (mk_monitor_state false [])
               (connected_world (ws_url cfg client_id) more w)) with
  | Ret st => Ret (execution_done st, errors st)
  | Raise e => Raise e
  | Stall => Stall
  end.
Proof.
  intros Hlib Hconn.
  unfold process_with_websocket, import_websocket. rewrite Hlib.
  unfold bind at 1. unfold ret at 1. rewrite bind_logger.
  unfold bind at 1, try_finally.
  unfold bind at 1. unfold ws_new at 1.
  unfold bind at 1. unfold ws_connect at 1. cbn [ws_connects set_ws_connected add_log].
  rewrite Hconn. rewrite bind_logger.
  fold (connected_world (ws_url cfg client_id) more w).
  change (ws_recvs (connected_world (ws_url cfg client_id) more w))
    with (ws_recvs w).
  destruct (monitor_loop cfg (S (length (ws_recvs w))) (ws_url cfg client_id)
              prompt_id (mk_monitor_state false [])
              (connected_world (ws_url cfg client_id) more w))
    as [[st | e | ] w1]; cbn [fst].
  - destruct (close_if_connected_returns w1) as [w2 ->]. reflexivity.
  - destruct (close_if_connected_returns w1) as [w2 ->]. reflexivity.
  - reflexivity.
Qed.

(** The monitor on a script that the loop survives up to a reply [r]: the
    run is decided by the round that reads [r]. *)
Lemma process_with_websocket_reaches (workflow : json) (client_id : string)
    (prompt_id : json) (w : world) (pre rest : list recv_reply)
    (attempts more : list (option exn)) (r : recv_reply) :
  websocket_installed cfg = true ->
  ws_connects w = (None :: attempts ++ more)%list ->
  ws_recvs w = (pre ++ r :: rest)%list ->
  survives prompt_id pre attempts ->
  exists w1,
    fst (process_with_websocket cfg workflow client_id prompt_id w) =
    match fst (monitor_loop cfg (S (S (length rest))) (ws_url cfg client_id)
                 prompt_id (mk_monitor_state false []) w1) with
    | Ret st => Ret (execution_done st, errors st)
    | Raise e => Raise e
    | Stall => Stall
    end /\
    ws_recvs w1 = r :: rest /\ ws_connects w1 = more.
Proof.
  intros Hlib Hconn Hw Hpre.
  rewrite (process_with_websocket_outcome workflow client_id prompt_id w
             _ Hlib Hconn).
  destruct (monitor_loop_survives (ws_url cfg client_id) prompt_id
              (mk_monitor_state false []) (r :: rest) more pre attempts Hpre
              (S (S (length rest)))
              (connected_world (ws_url cfg client_id) (attempts ++ more)%list w)
              Hw eq_refl)
    as (w1 & Hloop & Hr & Hc).
  exists w1. split; [| split; assumption].
  replace (S (length (ws_recvs w)))
    with (length pre + S (S (length rest)))%nat
    by (rewrite Hw, length_app; simpl; lia).
  rewrite Hloop. reflexivity.
Qed.

(** *** Terminal messages *)

(** The completion message of prompt [x]. *)
Inductive completion (x : string) : json -> Prop :=
| completion_intro fields data :
    field "type" fields = JStr "executing" ->
    field_obj "data" fields = Some data ->
    field "node" data = JNull ->
    field "prompt_id" data = JStr x ->
    completion x (JObj fields).

(** An execution error of prompt [x], with the error line it produces. *)
Inductive failure (x : string) : json -> string -> Prop :=
| failure_intro fields data :
    field "type" fields = JStr "execution_error" ->
    field_obj "data" fields = Some data ->
    field "prompt_id" data = JStr x ->
    failure x (JObj fields)
      ("Workflow execution error: Node Type: " ++ str (field "node_type" data)
         ++ ", Node ID: " ++ str (field "node_id" data)
         ++ ", Message: " ++ str (field "exception_message" data)).

Lemma on_message_completion (x : string) (st : monitor_state) (m : json)
    (w : world) :
  completion x m ->
  exists w1,
    on_message (JStr x) st m w
      = (Ret (Break, mk_monitor_state true (errors st)), w1).
Proof.
  intros [fields data Htype Hdata Hnode Hpid].
  unfold on_message. rewrite get_field, bind_lift_ok, Htype.
  replace (eq (JStr "executing") (JStr "status")) with false by reflexivity.
  replace (eq (JStr "executing") (JStr "executing")) with true by reflexivity.
  rewrite (get_default_field_obj _ _ _ Hdata), bind_lift_ok.
  rewrite !get_field, !bind_lift_ok, Hnode, Hpid.
  cbn [is_none eq andb]. rewrite String.eqb_refl, bind_logger.
  eexists. reflexivity.
Qed.

Lemma on_message_failure (x : string) (st : monitor_state) (m : json)
    (line : string) (w : world) :
  failure x m line ->
  exists w1,
    on_message (JStr x) st m w
      = (Ret (Break,
              mk_monitor_state (execution_done st) (append (errors st) line)),
         w1).
Proof.
  intros [fields data Htype Hdata Hpid].
  unfold on_message. rewrite get_field, bind_lift_ok, Htype.
  replace (eq (JStr "execution_error") (JStr "status")) with false
    by reflexivity.
  replace (eq (JStr "execution_error") (JStr "executing")) with false
    by reflexivity.
  replace (eq (JStr "execution_error") (JStr "execution_error")) with true
    by reflexivity.
  rewrite (get_default_field_obj _ _ _ Hdata), bind_lift_ok.
  rewrite !get_field, !bind_lift_ok, Hpid.
  cbn [eq]. rewrite String.eqb_refl.
  rewrite !bind_lift_ok, bind_logger.
  eexists. reflexivity.
Qed.

(** C5, as the code has it.  Let the loop survive the replies before a
    text [t]: none of them is the completion message or an execution error
    of prompt [x], none is a message the loop cannot read, and every
    closure among them is recovered.  They may be status messages, progress
    messages of [x] itself, messages of other prompts or of other types,
    receive timeouts, binary frames, text that is not JSON.  If [t] is the
    completion message of [x] the monitor returns (true, []); if [t] is an
    execution error of [x] it returns false and the one error line of that
    message; and every status message and every message of another prompt
    leaves the state of the loop as it was. *)
Theorem stream_monitor_outcomes (x : string) (workflow : json)
    (client_id : string) (w : world) (pre rest : list recv_reply)
    (attempts more : list (option exn)) (t : string) (m : json) :
  websocket_installed cfg = true ->
  ws_connects w = (None :: attempts ++ more)%list ->
  ws_recvs w = (pre ++ RecvStr t :: rest)%list ->
  survives (JStr x) pre attempts ->
  json_loads t = Some m ->
  (completion x m ->
   fst (process_with_websocket cfg workflow client_id (JStr x) w)
     = Ret (true, [])) /\
  (forall line, failure x m line ->
   fst (process_with_websocket cfg workflow client_id (JStr x) w)
     = Ret (false, [line])) /\
  (forall (st : monitor_state) (message : json) (w0 : world),
     noise (JStr x) message ->
     exists w1, on_message (JStr x) st message w0 = (Ret (Continue, st), w1)).
Proof.
  intros Hlib Hconn Hw Hpre Ht.
  destruct (process_with_websocket_reaches workflow client_id (JStr x) w
              pre rest attempts more (RecvStr t) Hlib Hconn Hw Hpre)
    as (w1 & Hout & Hr & _).
  cbn [monitor_loop] in Hout.
  unfold bind at 1, monitor_step, try_except, bind at 1 in Hout.
  rewrite (ws_recv_reply w1 _ _ Hr) in Hout.
  unfold on_recv in Hout. rewrite Ht in Hout.
  split; [| split].
  - intro Hdone.
    destruct (on_message_completion x (mk_monitor_state false []) m
                (record WsRecv (set_ws_recvs rest w1)) Hdone) as [w2 Hrun].
    rewrite Hrun in Hout. exact Hout.
  - intros line Hfail.
    destruct (on_message_failure x (mk_monitor_state false []) m line
                (record WsRecv (set_ws_recvs rest w1)) Hfail) as [w2 Hrun].
    rewrite Hrun in Hout. exact Hout.
  - intros st message w0 Hnoise.
    destruct (on_message_noise (JStr x) st message w0 Hnoise)
      as (w2 & Hrun & _).
    exists w2. exact Hrun.
Qed.

(** C1, as the code has it.  Let the loop survive the replies before a
    closure of the channel, whatever they are (status and progress
    messages, messages of other prompts, timeouts, earlier closures that
    were recovered).  When every one of the configured reconnection
    attempts (at least one) after that closure fails, the monitor returns
    nothing: it raises the exception of the last failed attempt to its
    caller. *)
Theorem exhausted_reconnection_raises (workflow : json) (client_id : string)
    (prompt_id : json) (w : world) (pre rest : list recv_reply)
    (closed last_failure : exn) (fails : list exn)
    (attempts more : list (option exn)) :
  websocket_installed cfg = true ->
  (0 <= WEBSOCKET_RECONNECT_DELAY_S cfg)%Z ->
  WEBSOCKET_RECONNECT_ATTEMPTS cfg = Z.of_nat (S (length fails)) ->
  ws_connects w
    = (None :: attempts ++ map Some (fails ++ [last_failure]) ++ more)%list ->
  ws_recvs w = (pre ++ RecvRaise closed :: rest)%list ->
  survives prompt_id pre attempts ->
  is_a closed WebSocketConnectionClosedException = true ->
  fst (process_with_websocket cfg workflow client_id prompt_id w)
    = Raise last_failure.
Proof.
  intros Hlib Hdelay Hn Hconn Hw Hpre Hclosed.
  destruct (process_with_websocket_reaches workflow client_id prompt_id w
              pre rest attempts _ (RecvRaise closed) Hlib Hconn Hw Hpre)
    as (w1 & -> & Hr & Hc).
  set (url := ws_url cfg client_id).
  cbn [monitor_loop].
  unfold bind at 1, monitor_step, try_except, bind at 1.
  rewrite (ws_recv_reply w1 _ _ Hr).
  rewrite (closed_is_not_timeout closed Hclosed), Hclosed.
  rewrite bind_logger. unfold bind at 1, reconnect.
  rewrite Hn, Nat2Z.id.
  match goal with
  | |- context [reconnect_loop cfg url (S (length fails)) 0%Z ?w2] =>
      pose proof (reconnect_loop_exhausted url last_failure more Hdelay
                    fails 0%Z w2) as Hre
  end.
  cbn [ws_connects set_ws_connected record set_ws_recvs add_log] in Hre.
  specialize (Hre Hc).
  rewrite Hn in Hre. specialize (Hre ltac:(lia)).
  match goal with
  | |- context [reconnect_loop cfg url (S (length fails)) 0%Z ?w2] =>
      destruct (reconnect_loop cfg url (S (length fails)) 0%Z w2)
        as [[u | e | ] w3]
  end; cbn [fst] in Hre; inversion Hre; subst.
  reflexivity.
Qed.

End StreamMonitor.

(* --------------------------------------------------------------------- *)
(** *** The poll monitor *)
(* --------------------------------------------------------------------- *)

Section PollMonitor.
Context {RT : PyRuntime} (cfg : config).



(** A status [raise_for_status] lets through. *)
Definition passes (r : response) : Prop :=
  (status_code r < 400 \/ 600 <= status_code r)%Z.






Lemma raise_for_status_passes (url : string) (r : response) :
  passes r -> raise_for_status url r = ret tt.
Proof.
  unfold passes, raise_for_status. intros [H | H].
  - replace (400 <=? status_code r)%Z with false
      by (symmetry; apply Z.leb_gt; lia).
    replace (500 <=? status_code r)%Z with false
      by (symmetry; apply Z.leb_gt; lia).
    reflexivity.
  - replace (status_code r <? 500)%Z with false
      by (symmetry; apply Z.ltb_ge; lia).
    replace (status_code r <? 600)%Z with false
      by (symmetry; apply Z.ltb_ge; lia).
    rewrite !andb_false_r. reflexivity.
Qed.

Lemma time_time_reply (w : world) (t : Z) (rest : list Z) :
  clock w = t :: rest -> time_time w = (Ret t, set_clock rest w).
Proof. unfold time_time. intros ->. reflexivity. Qed.










End PollMonitor.

(* --------------------------------------------------------------------- *)
(** *** The result collector and the response *)
(* --------------------------------------------------------------------- *)

Section Collector.
Context {RT : PyRuntime} (cfg : config).

Definition no_output_response : json :=
  JObj [("status", JStr "success_no_images"); ("images", JArr [])].

Lemma handler_result_no_output (w : world) :
  fst (handler_result [] [] w) = Ret no_output_response.
Proof. reflexivity. Qed.

Lemma handler_result_only_errors (e : string) (errs : list string) (w : world) :
  fst (handler_result [] (e :: errs) w) = Ret (failure_response (e :: errs)).
Proof. reflexivity. Qed.

Lemma handler_collect_empty_outputs (job_id : json) (x : string)
    (entries prompt_history : list (string * json)) (w : world) :
  assoc x entries = Some (JObj prompt_history) ->
  field_obj "outputs" prompt_history = Some [] ->
  fst (handler_collect cfg job_id (JStr x) (JObj entries) [] w)
    = Ret (inr ([], ["Workflow produced no outputs"])).
Proof.
  intros Hentry Houtputs. unfold handler_collect.
  cbn [contains get_key]. rewrite (has_key_assoc _ _ _ Hentry), Hentry.
  rewrite bind_lift_ok. cbn [negb]. rewrite bind_lift_ok.
  rewrite (get_default_field_obj _ _ _ Houtputs), bind_lift_ok.
  reflexivity.
Qed.

Lemma handler_after_try (job : list (string * json)) (job_id workflow : json)
    (client_id : string) (out : list json) (errs : list string)
    (w w1 w2 : world) :
  handler_prepare cfg job w = (Ret (inr (job_id, workflow, client_id)), w1) ->
  handler_try cfg job_id workflow client_id w1 = (Ret (inr (out, errs)), w2) ->
  handler cfg job w = handler_result out errs w2.
Proof.
  intros Hprepare Htry. unfold handler. unfold bind at 1. rewrite Hprepare.
  unfold bind at 1, try_except. rewrite Htry. reflexivity.
Qed.

(** C2, as the code has it.  When the collection pass of a job ends with
    no artifact and no error, the handler's response is the success
    response with status "success_no_images" and an empty image list.  An
    empty outputs mapping is not such a pass: with no error recorded before,
    the pass itself records "Workflow produced no outputs", and a pass that
    ends with no artifact and some error makes the response the error
    response with those errors as details. *)
Theorem no_output_is_success_unless_outputs_empty
    (job : list (string * json)) (job_id workflow : json) (client_id : string)
    (w w1 : world) :
  handler_prepare cfg job w = (Ret (inr (job_id, workflow, client_id)), w1) ->
  (forall w2,
     handler_try cfg job_id workflow client_id w1 = (Ret (inr ([], [])), w2) ->
     fst (handler cfg job w) = Ret no_output_response) /\
  (forall (x : string) (entries prompt_history : list (string * json))
          (w0 : world),
     assoc x entries = Some (JObj prompt_history) ->
     field_obj "outputs" prompt_history = Some [] ->
     fst (handler_collect cfg job_id (JStr x) (JObj entries) [] w0)
       = Ret (inr ([], ["Workflow produced no outputs"]))) /\
  (forall e errs w2,
     handler_try cfg job_id workflow client_id w1
       = (Ret (inr ([], e :: errs)), w2) ->
     fst (handler cfg job w) = Ret (failure_response (e :: errs))).
Proof.
  intro Hprepare. split; [| split].
  - intros w2 Htry.
    rewrite (handler_after_try job job_id workflow client_id [] [] w w1 w2
               Hprepare Htry).
    apply handler_result_no_output.
  - intros x entries prompt_history w0 Hentry Houtputs.
    exact (handler_collect_empty_outputs job_id x entries prompt_history w0
             Hentry Houtputs).
  - intros e errs w2 Htry.
    rewrite (handler_after_try job job_id workflow client_id [] (e :: errs)
               w w1 w2 Hprepare Htry).
    apply handler_result_only_errors.
Qed.

Lemma file_exists_appended (path : string) (data : bytes)
    (l : list (string * bytes)) :
  existsb (fun f => String.eqb (fst f) path) (append l (path, data)) = true.
Proof.
  unfold append. rewrite existsb_app. simpl.
  rewrite String.eqb_refl. apply orb_true_iff. right. reflexivity.
Qed.

(** The scratch file the upload branch writes for [name]. *)
Definition scratch_path (name : string) (w : world) : string :=
  "/tmp/tmp" ++ int_str (Z.of_nat (tmp_count w))
    ++ (if String.eqb (splitext_ext name) "" then ".png"
        else splitext_ext name).

Lemma encode_s3_failed_upload (job_id : json) (name : string)
    (image_bytes : bytes) (output_data : list json) (errs : list string)
    (w : world) (e : exn) (rest : list (string + exn)) :
  runpod_installed cfg = true ->
  uploads w = inr e :: rest ->
  encode_s3 cfg job_id (JStr name) image_bytes (output_data, errs) w =
  (Ret (output_data, append errs ("S3 upload failed: " ++ exn_str e)),
   add_log ERROR ("S3 upload failed for " ++ name ++ ": " ++ exn_str e)
     (record (UploadImage job_id (scratch_path name w))
        (set_uploads rest
           (set_files (append (files w) (scratch_path name w, image_bytes))
              (S (tmp_count w)) w)))).
Proof.
  intros Hlib Hup.
  unfold encode_s3, try_except, import_rp_upload. rewrite Hlib.
  unfold bind at 1. unfold ret at 1.
  unfold bind at 1. unfold ret at 1.
  unfold bind at 1. unfold write_scratch_file at 1.
  unfold bind at 1. unfold rp_upload_image at 1.
  cbn [uploads set_files]. rewrite Hup.
  rewrite is_a_Exception, bind_logger.
  reflexivity.
Qed.

(** C3, what the code does.  When the upload call raises, the upload
    branch records the failure and goes on, the scratch file stays on
    disk, and the one log record it writes is the failure notice, which
    does not name the file. *)
Theorem failed_upload_leaves_scratch_file (job_id : json) (name : string)
    (image_bytes : bytes) (output_data : list json) (errs : list string)
    (w : world) (e : exn) (rest : list (string + exn)) :
  runpod_installed cfg = true ->
  uploads w = inr e :: rest ->
  fst (encode_s3 cfg job_id (JStr name) image_bytes (output_data, errs) w)
    = Ret (output_data, append errs ("S3 upload failed: " ++ exn_str e)) /\
  file_exists (scratch_path name w)
    (snd (encode_s3 cfg job_id (JStr name) image_bytes (output_data, errs) w))
    = true /\
  log (snd (encode_s3 cfg job_id (JStr name) image_bytes (output_data, errs) w))
    = append (log w)
        (ERROR, "S3 upload failed for " ++ name ++ ": " ++ exn_str e).
Proof.
  intros Hlib Hup.
  rewrite (encode_s3_failed_upload job_id name image_bytes output_data errs
             w e rest Hlib Hup).
  split; [reflexivity | split; [| reflexivity]].
  unfold file_exists. cbn [snd files add_log record set_uploads set_files].
  apply file_exists_appended.
Qed.

End Collector.

(* --------------------------------------------------------------------- *)
(** *** Runs on the sample worlds *)
(* --------------------------------------------------------------------- *)

Module Runs.
Import Samples.

Definition abc : json := JStr "abc".

Definition text_of (v : json) : recv_reply := RecvStr (dumps v).

Definition stream (connects : list (option exn)) (recvs : list recv_reply)
  : world :=
  set_ws_recvs recvs (set_ws_connects connects quiet_world).

Definition get_of (replies : list (response + exn)) : world :=
  set_http replies quiet_world.

Definition run_monitor (c : config) (w : world) : outcome (bool * list string) :=
  fst (process_with_websocket (RT := sample_runtime) c sample_workflow
         "client-1" abc w).

Definition sample_job : list (string * json) :=
  job_of (JObj [("workflow", sample_workflow)]).

Definition run_handler (c : config) (job : list (string * json)) (w : world)
  : outcome json * world :=
  handler (RT := sample_runtime) c job w.

(** Sample replies the loop passes over. *)
Lemma status_message_is_passed_over :
  calm (RT := sample_runtime) abc (text_of (status_message 1)).
Proof.
  apply (calm_message (RT := sample_runtime) abc _ (status_message 1));
    [reflexivity |].
  apply (status_report abc _
           [("status", JObj [("exec_info", JObj [("queue_remaining", JInt 1)])])]
           [("exec_info", JObj [("queue_remaining", JInt 1)])]
           [("queue_remaining", JInt 1)]); reflexivity.
Qed.

Lemma progress_message_is_passed_over :
  calm (RT := sample_runtime) abc (text_of (executing_message (JStr "3") abc)).
Proof.
  apply (calm_message (RT := sample_runtime) abc _
           (executing_message (JStr "3") abc)); [reflexivity |].
  apply (node_progress abc _ [("node", JStr "3"); ("prompt_id", abc)]);
    reflexivity.
Qed.

Lemma other_completion_is_passed_over :
  calm (RT := sample_runtime) abc
    (text_of (executing_message JNull (JStr "xyz"))).
Proof.
  apply (calm_message (RT := sample_runtime) abc _
           (executing_message JNull (JStr "xyz"))); [reflexivity |].
  apply (node_progress abc _ [("node", JNull); ("prompt_id", JStr "xyz")]);
    reflexivity.
Qed.

(** **** The handler from end to end *)

Example handler_returns_the_image :
  fst (run_handler sample_config sample_job
         (completed_run
            [ok_json (manifest
                        (JObj [("9", JObj [("images",
                                            JArr [image_ref "out.png" "output";
                                                  image_ref "t.png" "temp"])])]));
             ok_bytes png_bytes]))
  = Ret (JObj [("images", JArr [artifact (JStr "out.png") "base64" "TWFu"])]).
Proof. vm_compute. reflexivity. Qed.

Example handler_with_only_temp_images :
  fst (run_handler sample_config sample_job
         (completed_run
            [ok_json (manifest
                        (JObj [("9", JObj [("images",
                                            JArr [image_ref "t.png" "temp"])])]))]))
  = Ret no_output_response.
Proof. vm_compute. reflexivity. Qed.

Example handler_rejects_empty_workflow :
  run_handler sample_config (job_of (JObj [("workflow", JObj [])])) quiet_world
  = (Ret (error_response "'workflow' cannot be empty"),
     add_log INFO "Processing job: job-1" quiet_world).
Proof. vm_compute. reflexivity. Qed.

Example handler_survives_channel_failure :
  fst (run_handler (with_attempts 1 sample_config) sample_job
         (set_ws_recvs [RecvRaise connection_lost]
            (set_ws_connects [None; Some connection_refused]
               (get_of [status_only 200 "OK";
                        ok_json (JObj [("prompt_id", abc)])]))))
  = Ret (error_response "Unexpected error: [Errno 111] Connection refused").
Proof. vm_compute. reflexivity. Qed.

(** **** C1 *)

(** The channel closes and each of the five attempts is refused: the
    monitor raises, it does not return a pair. *)
Lemma monitor_raises_when_attempts_run_out :
  run_monitor sample_config
    (stream [None; Some connection_refused; Some connection_refused;
             Some connection_refused; Some connection_refused;
             Some connection_refused]
       [RecvRaise connection_lost])
  = Raise connection_refused.
Proof. vm_compute. reflexivity. Qed.

Lemma exhausted_reconnection_raises_witness :
  run_monitor (with_attempts 2 sample_config)
    (stream [None; Some connection_refused; None;
             Some connection_refused; Some connection_refused]
       [text_of (status_message 1);
        text_of (executing_message (JStr "3") abc);
        RecvRaise connection_lost;
        RecvRaise connection_lost])
  = Raise connection_refused.
Proof.
  apply (exhausted_reconnection_raises (RT := sample_runtime)
           (with_attempts 2 sample_config) sample_workflow "client-1" abc
           (stream [None; Some connection_refused; None;
                    Some connection_refused; Some connection_refused]
              [text_of (status_message 1);
               text_of (executing_message (JStr "3") abc);
               RecvRaise connection_lost;
               RecvRaise connection_lost])
           [text_of (status_message 1);
            text_of (executing_message (JStr "3") abc);
            RecvRaise connection_lost]
           [] connection_lost connection_refused
           [connection_refused] [Some connection_refused; None] []).
  - reflexivity.
  - simpl. lia.
  - reflexivity.
  - reflexivity.
  - reflexivity.
  - apply survives_calm; [exact status_message_is_passed_over |].
    apply survives_calm; [exact progress_message_is_passed_over |].
    apply (survives_closure (RT := sample_runtime)
             (with_attempts 2 sample_config) abc connection_lost
             [connection_refused] [] []).
    + reflexivity.
    + simpl. lia.
    + simpl. lia.
    + apply survives_nothing.
  - reflexivity.
Defined.

(** **** C2 *)

(** The manifest holds an empty outputs mapping, nothing failed before,
    and the response is an error response. *)
Lemma empty_outputs_is_an_error :
  fst (run_handler sample_config sample_job
         (completed_run [ok_json (manifest (JObj []))]))
  = Ret (failure_response ["Workflow produced no outputs"]).
Proof. vm_compute. reflexivity. Qed.

Definition only_temp_images : world :=
  completed_run
    [ok_json (manifest
                (JObj [("9", JObj [("images", JArr [image_ref "t.png" "temp"])])]))].

Lemma no_output_is_success_unless_outputs_empty_witness :
  fst (run_handler sample_config sample_job only_temp_images)
  = Ret no_output_response.
Proof.
  refine (proj1 (no_output_is_success_unless_outputs_empty
                   (RT := sample_runtime) sample_config sample_job
                   (JStr "job-1") sample_workflow "client-1" only_temp_images
                   (snd (handler_prepare (RT := sample_runtime) sample_config
                           sample_job only_temp_images))
                   _)
            (snd (handler_try (RT := sample_runtime) sample_config
                    (JStr "job-1") sample_workflow "client-1"
                    (snd (handler_prepare (RT := sample_runtime) sample_config
                            sample_job only_temp_images))))
            _).
  - vm_compute. reflexivity.
  - vm_compute. reflexivity.
Defined.

(** **** C3 *)

Definition failed_upload_world : world :=
  set_uploads [inr connection_refused]
    (completed_run
       [ok_json (manifest
                   (JObj [("9", JObj [("images",
                                       JArr [image_ref "out.png" "output"])])]));
        ok_bytes png_bytes]).

(** The upload is refused: the job fails, the scratch file is still on
    disk when the handler returns, and no log record names it. *)
Example handler_leaks_scratch_file :
  let r := run_handler (with_bucket sample_config) sample_job failed_upload_world in
  fst r = Ret (failure_response
                 ["S3 upload failed: [Errno 111] Connection refused"]) /\
  files (snd r) = [("/tmp/tmp0.png", png_bytes)] /\
  existsb (fun rec => str_contains "/tmp/tmp0.png" (snd rec)) (log (snd r))
    = false.
Proof. vm_compute. repeat split. Qed.

Lemma failed_upload_leaves_scratch_file_witness :
  file_exists "/tmp/tmp0.png"
    (snd (encode_s3 (RT := sample_runtime) (with_bucket sample_config)
            (JStr "job-1") (JStr "out.png") png_bytes ([], [])
            (set_uploads [inr connection_refused] quiet_world)))
  = true.
Proof.
  apply (failed_upload_leaves_scratch_file (RT := sample_runtime)
           (with_bucket sample_config) (JStr "job-1") "out.png" png_bytes [] []
           (set_uploads [inr connection_refused] quiet_world)
           connection_refused []).
  - reflexivity.
  - reflexivity.
Defined.

(** **** C4 *)

(** The one attempt is answered 204, a status of the 200 class, and the
    prober returns false. *)
Lemma check_server_rejects_204 :
  (200 <=? 204)%Z && (204 <? 300)%Z = true /\
  fst (check_server "http://127.0.0.1:8188/" 1 50
         (get_of [status_only 204 "No Content"]))
  = Ret false.
Proof. vm_compute. split; reflexivity. Qed.

Lemma check_server_succeeds_on_200_witness :
  fst (check_server "http://127.0.0.1:8188/" 3 50
         (get_of [status_only 503 "Service Unavailable"; status_only 200 "OK"]))
  = Ret true.
Proof.
  apply (check_server_succeeds_on_200 "http://127.0.0.1:8188/" 3 50
           (get_of [status_only 503 "Service Unavailable"; status_only 200 "OK"])
           [status_only 503 "Service Unavailable"] []
           (mk_response 200 "OK" "" []
              (inr (mk_exn RequestsJSONDecodeError (JStr "Expecting value"))))).
  - lia.
  - reflexivity.
  - constructor; [simpl; lia | constructor].
  - simpl. lia.
  - reflexivity.
Defined.

(** **** C5 *)

(** The sequence ends in the completion message of "abc", after an
    execution error of "abc": the monitor returns false and the error. *)
Lemma completion_after_error_is_not_seen :
  run_monitor sample_config
    (stream [None]
       [text_of (execution_error_message abc);
        text_of (executing_message JNull abc)])
  = Ret (false,
         ["Workflow execution error: Node Type: KSampler, Node ID: 3, Message: out of memory"]).
Proof. vm_compute. reflexivity. Qed.

Lemma status_message_is_noise :
  noise abc (status_message 1).
Proof.
  apply (status_noise abc _
           [("status", JObj [("exec_info", JObj [("queue_remaining", JInt 1)])])]
           [("exec_info", JObj [("queue_remaining", JInt 1)])]
           [("queue_remaining", JInt 1)]); reflexivity.
Qed.

Lemma other_prompt_is_noise :
  noise abc (executing_message JNull (JStr "xyz")).
Proof.
  apply (other_prompt abc _ [("node", JNull); ("prompt_id", JStr "xyz")]);
    reflexivity.
Qed.

Lemma stream_monitor_outcomes_witness :
  run_monitor sample_config
    (stream [None; Some connection_refused; None]
       [text_of (status_message 1);
        text_of (executing_message JNull (JStr "xyz"));
        text_of (executing_message (JStr "3") abc);
        RecvRaise (mk_exn WebSocketTimeoutException (JStr "timed out"));
        RecvRaise connection_lost;
        text_of (executing_message JNull abc)])
  = Ret (true, []).
Proof.
  refine (proj1 (stream_monitor_outcomes (RT := sample_runtime) sample_config
                   "abc" sample_workflow "client-1"
                   (stream [None; Some connection_refused; None]
                      [text_of (status_message 1);
                       text_of (executing_message JNull (JStr "xyz"));
                       text_of (executing_message (JStr "3") abc);
                       RecvRaise (mk_exn WebSocketTimeoutException (JStr "timed out"));
                       RecvRaise connection_lost;
                       text_of (executing_message JNull abc)])
                   [text_of (status_message 1);
                    text_of (executing_message JNull (JStr "xyz"));
                    text_of (executing_message (JStr "3") abc);
                    RecvRaise (mk_exn WebSocketTimeoutException (JStr "timed out"));
                    RecvRaise connection_lost]
                   [] [Some connection_refused; None] []
                   (dumps (executing_message JNull abc))
                   (executing_message JNull abc) _ _ _ _ _) _).
  - reflexivity.
  - reflexivity.
  - reflexivity.
  - apply survives_calm; [exact status_message_is_passed_over |].
    apply survives_calm; [exact other_completion_is_passed_over |].
    apply survives_calm; [exact progress_message_is_passed_over |].
    apply survives_calm;
      [apply (calm_timeout (RT := sample_runtime)); reflexivity |].
    apply (survives_closure (RT := sample_runtime) sample_config abc
             connection_lost [connection_refused] [] []).
    + reflexivity.
    + simpl. lia.
    + simpl. lia.
    + apply survives_nothing.
  - reflexivity.
  - apply (completion_intro "abc" _ [("node", JNull); ("prompt_id", abc)]);
      reflexivity.
Defined.

(** **** C6 *)

Definition queue_reply (pending running : list json) : response :=
  mk_response 200 "OK" "" []
    (inl (JObj [("queue_running", JArr running);
                ("queue_pending", JArr pending)])).

Definition history_reply (entries : list (string * json)) : response :=
  mk_response 200 "OK" "" [] (inl (JObj entries)).



Definition polling_world (ticks : list Z) (replies : list (response + exn))
  : world :=
  set_clock ticks (set_http replies quiet_world).











(** **** C7 *)

Definition rejection : response :=
  mk_response 400 "Bad Request" "" []
    (inl (JObj [("error", JObj [("type", JStr "prompt_outputs_failed_validation");
                                ("message", JStr "Prompt outputs failed validation")]);
                ("node_errors",
                 JObj [("3", JObj [("value_not_in_list", JStr "ckpt_name missing");
                                   ("required_input_missing", JStr "no seed")]);
                       ("7", JObj [("value_smaller_than_min", JInt 0)])])])).

Definition rejection_without_text : response :=
  mk_response 400 "Bad Request" "" []
    (inl (JObj [("error", JObj [("type", JStr "prompt_outputs_failed_validation");
                                ("message", JNull)]);
                ("node_errors",
                 JObj [("3", JObj [("value_not_in_list",
                                    JStr "ckpt_name missing")])])])).

(** The body holds a [node_errors] mapping with one finding, and a
    top-level message that is null: the submitter raises TypeError from
    [error_msg += ...], and no detail is produced at all. *)
Lemma message_that_is_not_text_loses_the_findings :
  fst (queue_workflow (RT := sample_runtime) sample_config sample_workflow
         "client-1" (get_of [inl rejection_without_text]))
  = Raise (mk_exn TypeError
             (JStr "unsupported operand type(s) for +=: 'NoneType' and 'str'")).
Proof. vm_compute. reflexivity. Qed.

Lemma queue_workflow_reports_every_finding_witness :
  fst (queue_workflow (RT := sample_runtime) sample_config sample_workflow
         "client-1" (get_of [inl rejection]))
  = Raise (mk_exn ValueError
             (JStr ("Prompt outputs failed validation:" ++ newline
                      ++ "• Node 3 (value_not_in_list): ckpt_name missing" ++ newline
                      ++ "• Node 3 (required_input_missing): no seed" ++ newline
                      ++ "• Node 7 (value_smaller_than_min): 0"))).
Proof.
  apply (queue_workflow_reports_every_finding (RT := sample_runtime)
           sample_config sample_workflow "client-1" (get_of [inl rejection])
           rejection []
           [("error", JObj [("type", JStr "prompt_outputs_failed_validation");
                            ("message", JStr "Prompt outputs failed validation")]);
            ("node_errors",
             JObj [("3", JObj [("value_not_in_list", JStr "ckpt_name missing");
                               ("required_input_missing", JStr "no seed")]);
                   ("7", JObj [("value_smaller_than_min", JInt 0)])])]
           [("3", [("value_not_in_list", JStr "ckpt_name missing");
                   ("required_input_missing", JStr "no seed")]);
            ("7", [("value_smaller_than_min", JInt 0)])]
           "Prompt outputs failed validation").
  - reflexivity.
  - reflexivity.
  - reflexivity.
  - reflexivity.
  - apply (error_with_message _
             [("type", JStr "prompt_outputs_failed_validation");
              ("message", JStr "Prompt outputs failed validation")]);
      reflexivity.
Defined.

(** **** C8 *)

Definition image_without_data : json :=
  JObj [("workflow", sample_workflow);
        ("images", JArr [JObj [("name", JStr "in.png")]])].

Lemma malformed_input_short_circuits_witness :
  exists msg,
    msg <> "" /\
    validate_input (RT := sample_runtime) image_without_data
      = Ok (None, Some msg) /\
    forall (job : list (string * json)) (w : world),
      input_of job = image_without_data ->
      fst (handler (RT := sample_runtime) sample_config job w)
        = Ret (error_response msg) /\
      trace (snd (handler (RT := sample_runtime) sample_config job w)) = trace w /\
      http (snd (handler (RT := sample_runtime) sample_config job w)) = http w /\
      ws_connects (snd (handler (RT := sample_runtime) sample_config job w))
        = ws_connects w /\
      ws_recvs (snd (handler (RT := sample_runtime) sample_config job w))
        = ws_recvs w /\
      uploads (snd (handler (RT := sample_runtime) sample_config job w))
        = uploads w.
Proof.
  apply (malformed_input_short_circuits (RT := sample_runtime) sample_config
           image_without_data
           [("workflow", sample_workflow);
            ("images", JArr [JObj [("name", JStr "in.png")]])]).
  - apply carries_object.
  - apply (image_missing_keys _ [JObj [("name", JStr "in.png")]]
             (JObj [("name", JStr "in.png")])).
    + reflexivity.
    + left. reflexivity.
    + right. reflexivity.
Defined.

(** **** C9 *)

Lemma websocket_result_is_decided_witness :
  (false = true /\
   ["Workflow execution error: Node Type: KSampler, Node ID: 3, Message: out of memory"]
     = []) \/
  (false = false /\
   ["Workflow execution error: Node Type: KSampler, Node ID: 3, Message: out of memory"]
     <> []).
Proof.
  apply (websocket_result_is_decided (RT := sample_runtime) sample_config
           sample_workflow "client-1" abc
           (stream [None] [text_of (execution_error_message abc)])
           (snd (process_with_websocket (RT := sample_runtime) sample_config
                   sample_workflow "client-1" abc
                   (stream [None] [text_of (execution_error_message abc)])))).
  vm_compute. reflexivity.
Defined.

End Runs.


(* ===================================================================== *)
(** ** Further properties of the worker *)
(* ===================================================================== *)

(* --------------------------------------------------------------------- *)
(** *** The readiness prober: the budget *)
(* --------------------------------------------------------------------- *)

Section ProberBudget.

(** The calls of [n] failed attempts: a request and a pause each. *)
Fixpoint probe_calls (url : string) (delay : Z) (n : nat) : list call :=
  match n with
  | O => []
  | S n' => HttpGet url [] 5 :: Sleep delay :: probe_calls url delay n'
  end.

Lemma failed_attempt_is_caught (reply : response + exn) (url : string)
    (rest : list (response + exn)) (w : world) :
  failed_attempt reply ->
  http w = reply :: rest ->
  try_except
    (response <- request (HttpGet url [] 5) ;;
     if (status_code response =? 200)%Z
     then logger INFO "API is reachable" ;; ret true
     else ret false)
    (fun e =>
       if is_a e RequestsTimeout then ret false
       else if is_a e RequestException then ret false
       else raise e) w
  = (Ret false, record (HttpGet url [] 5) (set_http rest w)).
Proof.
  intros Hfail Hw. unfold try_except, bind at 1.
  rewrite (request_reply _ w reply rest Hw).
  destruct reply as [r | e]; simpl in Hfail.
  - replace (status_code r =? 200)%Z with false
      by (symmetry; apply Z.eqb_neq; exact Hfail).
    reflexivity.
  - rewrite Hfail. destruct (is_a e RequestsTimeout); reflexivity.
Qed.

Lemma check_server_loop_exhausts (url : string) (delay : Z)
    (rest : list (response + exn)) :
  (0 <= delay)%Z ->
  forall (pre : list (response + exn)) (w : world),
    Forall failed_attempt pre ->
    http w = (pre ++ rest)%list ->
    exists w',
      check_server_loop url delay (length pre) w = (Ret false, w') /\
      http w' = rest /\
      trace w' = (trace w ++ probe_calls url delay (length pre))%list /\
      log w' = log w.
Proof.
  intro Hdelay. induction pre as [| reply pre IH]; intros w Hpre Hw.
  - exists w. simpl. rewrite app_nil_r. repeat split. exact Hw.
  - inversion Hpre as [| ? ? Hreply Hrest]; subst.
    cbn [length check_server_loop]. unfold bind at 1.
    rewrite (failed_attempt_is_caught reply url (pre ++ rest)%list w Hreply Hw).
    unfold bind at 1. rewrite time_sleep_run by exact Hdelay.
    destruct (IH (record (Sleep delay)
                    (record (HttpGet url [] 5) (set_http (pre ++ rest)%list w)))
                Hrest eq_refl) as (w' & Hrun & Hh & Ht & Hl).
    exists w'. split; [exact Hrun | split; [exact Hh | split]].
    + rewrite Ht. cbn [trace record set_http probe_calls]. unfold append.
      rewrite <- !app_assoc. reflexivity.
    + rewrite Hl. reflexivity.
Qed.

Lemma check_server_exhausts (url : string) (retries delay : Z)
    (w : world) (pre rest : list (response + exn)) :
  (0 <= delay)%Z ->
  length pre = Z.to_nat retries ->
  Forall failed_attempt pre ->
  http w = (pre ++ rest)%list ->
  exists w',
    check_server url retries delay w = (Ret false, w') /\
    http w' = rest /\
    trace w' = (trace w ++ probe_calls url delay (Z.to_nat retries))%list.
Proof.
  intros Hdelay Hlen Hpre Hw.
  destruct (check_server_loop_exhausts url delay rest Hdelay pre
              (add_log INFO ("Checking API server at " ++ url ++ "...") w)
              Hpre Hw) as (w' & Hrun & Hh & Ht & _).
  unfold check_server. rewrite bind_logger. unfold bind at 1.
  rewrite <- Hlen, Hrun. rewrite !bind_logger.
  eexists. split; [reflexivity |].
  cbn [http trace add_log]. split; assumption.
Qed.

(** X1.  When every attempt of the budget fails (a status other than 200
    or an exception of [requests]), the prober returns false, having made
    exactly one request and one pause per attempt and consumed exactly that
    many replies; a budget of zero or less makes no call at all. *)
Theorem check_server_gives_up_after_budget (url : string) (retries delay : Z)
    (w : world) (pre rest : list (response + exn)) :
  (0 <= delay)%Z ->
  length pre = Z.to_nat retries ->
  Forall failed_attempt pre ->
  http w = (pre ++ rest)%list ->
  fst (check_server url retries delay w) = Ret false /\
  http (snd (check_server url retries delay w)) = rest /\
  trace (snd (check_server url retries delay w))
    = (trace w ++ probe_calls url delay (Z.to_nat retries))%list.
Proof.
  intros Hdelay Hlen Hpre Hw.
  destruct (check_server_exhausts url retries delay w pre rest
              Hdelay Hlen Hpre Hw) as (w' & Hrun & Hh & Ht).
  rewrite Hrun. cbn [fst snd].
  split; [reflexivity | split; assumption].
Qed.

Lemma timeout_is_request_exception (e : exn) :
  is_a e RequestException = false -> is_a e RequestsTimeout = false.
Proof.
  destruct e as [c arg]. destruct c; intro H; try discriminate H; reflexivity.
Qed.

(** X2.  An exception that is not one of [requests] is not swallowed: when
    the first attempt raises it, the prober raises it. *)
Theorem check_server_lets_other_exceptions_escape (url : string)
    (retries delay : Z) (w : world) (e : exn) (rest : list (response + exn)) :
  (0 < retries)%Z ->
  http w = inr e :: rest ->
  is_a e RequestException = false ->
  fst (check_server url retries delay w) = Raise e.
Proof.
  intros Hretries Hw He.
  unfold check_server. rewrite bind_logger. unfold bind at 1.
  destruct (Z.to_nat retries) as [| n] eqn:Hn; [lia |].
  cbn [check_server_loop]. unfold bind at 1, try_except, bind at 1.
  rewrite (request_reply (HttpGet url [] 5)
             (add_log INFO ("Checking API server at " ++ url ++ "...") w)
             (inr e) rest Hw).
  rewrite (timeout_is_request_exception e He), He.
  reflexivity.
Qed.

End ProberBudget.

(* --------------------------------------------------------------------- *)
(** *** Input validation: what is accepted, what escapes *)
(* --------------------------------------------------------------------- *)

Section AcceptedInput.
Context {RT : PyRuntime} (cfg : config).

(** An image entry with both keys. *)
Definition good_image (img : json) : Prop :=
  exists entry,
    img = JObj entry /\
    has_key "name" entry = true /\ has_key "image" entry = true.

(** The value of [images] the validation lets through: absent or [None],
    or a list of good entries. *)
Inductive good_images : json -> Prop :=
| images_absent : good_images JNull
| images_listed l : Forall good_image l -> good_images (JArr l).

Lemma validate_images_good (l : list json) :
  Forall good_image l -> validate_images l = Ok None.
Proof.
  induction 1 as [| img l (entry & -> & Hname & Himage) _ IH]; [reflexivity |].
  simpl. rewrite Hname, Himage. simpl. exact IH.
Qed.

(** X3.  An input object whose workflow is a non-empty object and whose
    images are absent, [None], or a list of objects with both keys is
    accepted: the validated data holds that workflow and those images,
    unchanged, and there is no error message. *)
Theorem validate_input_accepts (fields : list (string * json))
    (node : string * json) (nodes : list (string * json)) :
  assoc "workflow" fields = Some (JObj (node :: nodes)) ->
  good_images (field "images" fields) ->
  validate_input (JObj fields) =
  Ok (Some (JObj [("workflow", JObj (node :: nodes));
                  ("images", field "images" fields)]),
      None).
Proof.
  intros Hw Himages. unfold validate_input, validate_fields, get, get_default.
  cbn [is_none]. rewrite Hw. cbn [exc_bind is_none is_dict negb len length].
  replace (Z.of_nat (S (length nodes)) =? 0)%Z with false
    by (symmetry; apply Z.eqb_neq; lia).
  fold (field "images" fields).
  destruct Himages as [| l Hl].
  - reflexivity.
  - cbn [is_none is_list negb iter exc_bind].
    rewrite (validate_images_good l Hl). reflexivity.
Qed.

(** X4.  A job input that is neither [None], nor text, nor an object (a
    list, a number, a boolean) has no [get]: [validate_input] raises
    AttributeError, and the handler, which validates outside its [try],
    lets the exception escape without a response and without a call. *)
Theorem handler_raises_on_non_object_input (job : list (string * json))
    (w : world) :
  is_none (input_of job) = false ->
  is_str (input_of job) = false ->
  is_dict (input_of job) = false ->
  validate_input (input_of job) = no_attribute (input_of job) "get" /\
  fst (handler cfg job w)
    = Raise (mk_exn AttributeError
               (JStr ("'" ++ type_name (input_of job)
                        ++ "' object has no attribute 'get'"))) /\
  trace (snd (handler cfg job w)) = trace w.
Proof.
  intros Hnone Hstr Hdict.
  assert (Hv : validate_input (input_of job) = no_attribute (input_of job) "get").
  { unfold validate_input. rewrite Hnone.
    destruct (input_of job); try discriminate; reflexivity. }
  split; [exact Hv |].
  unfold handler, handler_prepare. fold (input_of job). rewrite Hv.
  split; reflexivity.
Qed.

End AcceptedInput.

(* --------------------------------------------------------------------- *)
(** *** Uploading the input images *)
(* --------------------------------------------------------------------- *)

Section InputImages.
Context {RT : PyRuntime} (cfg : config).

Lemma str_contains_cons (sub : string) (c : ascii) (s : string) :
  str_contains sub (String c s)
  = is_prefix sub (String c s) || str_contains sub s.
Proof. reflexivity. Qed.

Lemma no_comma_head (c : ascii) (s : string) :
  str_contains "," (String c s) = false ->
  Ascii.eqb c "," = false /\ str_contains "," s = false.
Proof.
  rewrite str_contains_cons. intro H.
  apply orb_false_iff in H. destruct H as [Hc Hs].
  cbn [is_prefix] in Hc. rewrite andb_true_r in Hc. split; [| exact Hs].
  rewrite Ascii.eqb_sym. exact Hc.
Qed.

Lemma comma_is_found (prefix payload : string) :
  str_contains "," (prefix ++ "," ++ payload) = true.
Proof.
  induction prefix as [| c prefix IH].
  - reflexivity.
  - change (String c prefix ++ "," ++ payload)
      with (String c (prefix ++ "," ++ payload)).
    rewrite str_contains_cons, IH. apply orb_true_r.
Qed.

Lemma after_first_comma (prefix payload : string) :
  str_contains "," prefix = false ->
  after_first "," (prefix ++ "," ++ payload) = payload.
Proof.
  induction prefix as [| c prefix IH]; intro H.
  - reflexivity.
  - apply no_comma_head in H. destruct H as [Hc Hs].
    change (String c prefix ++ "," ++ payload)
      with (String c (prefix ++ "," ++ payload)).
    cbn [after_first]. rewrite Hc. exact (IH Hs).
Qed.

(** X5.  A data-URI prefix is stripped before decoding: an image given as
    [prefix,payload] is uploaded exactly as the bare [payload] is (the
    prefix and the payload holding no comma). *)
Theorem data_uri_prefix_is_stripped (with_prefix bare : list (string * json))
    (name : json) (prefix payload : string) (w : world) :
  assoc "name" with_prefix = Some name ->
  assoc "name" bare = Some name ->
  assoc "image" with_prefix = Some (JStr (prefix ++ "," ++ payload)) ->
  assoc "image" bare = Some (JStr payload) ->
  str_contains "," prefix = false ->
  str_contains "," payload = false ->
  upload_image_try cfg (JObj with_prefix) w = upload_image_try cfg (JObj bare) w.
Proof.
  intros Hn1 Hn2 Hi1 Hi2 Hprefix Hpayload.
  unfold upload_image_try. cbn [getitem contains].
  rewrite Hn1, Hn2, Hi1, Hi2. rewrite !bind_lift_ok.
  cbn [contains]. rewrite comma_is_found, Hpayload. rewrite !bind_lift_ok.
  rewrite (after_first_comma prefix payload Hprefix).
  reflexivity.
Qed.

End InputImages.

(* --------------------------------------------------------------------- *)
(** *** Computations that do not raise, and the replies they consume *)
(* --------------------------------------------------------------------- *)

Section Effects.

(** [m] never raises. *)
Definition safe {A} (m : M A) : Prop :=
  forall w e w', m w <> (Raise e, w').

(** [m] consumes at most [n] HTTP replies, and blocks only when fewer than
    [n] are left. *)
Definition bounded {A} (n : nat) (m : M A) : Prop :=
  forall w,
    match m w with
    | (Stall, _) => (length (http w) < n)%nat
    | (_, w') => (length (http w) <= n + length (http w'))%nat
    end.

Lemma safe_ret {A} (a : A) : safe (ret a).
Proof. intros w e w' H. discriminate H. Qed.

Lemma safe_logger (l : level) (msg : string) : safe (logger l msg).
Proof. intros w e w' H. discriminate H. Qed.

Lemma safe_lift_ok {A} (a : A) : safe (lift (Ok a)).
Proof. intros w e w' H. discriminate H. Qed.

Lemma safe_bind {A B} (m : M A) (k : A -> M B) :
  safe m -> (forall a, safe (k a)) -> safe (bind m k).
Proof.
  intros Hm Hk w e w' H. unfold bind in H.
  destruct (m w) as [[a | e0 | ] w1] eqn:Hrun.
  - exact (Hk a w1 e w' H).
  - exact (Hm w e0 w1 Hrun).
  - discriminate H.
Qed.

Lemma safe_try_except {A} (m : M A) (h : exn -> M A) :
  (forall e, safe (h e)) -> safe (try_except m h).
Proof.
  intros Hh w e w' H. unfold try_except in H.
  destruct (m w) as [[a | e0 | ] w1]; try discriminate H.
  exact (Hh e0 w1 e w' H).
Qed.

Lemma bounded_weaken {A} (n n' : nat) (m : M A) :
  (n <= n')%nat -> bounded n m -> bounded n' m.
Proof.
  intros Hle Hm w. specialize (Hm w).
  destruct (m w) as [[a | e | ] w1]; lia.
Qed.

Lemma bounded_ret {A} (a : A) : bounded 0 (ret a).
Proof. intro w. simpl. lia. Qed.

Lemma bounded_raise {A} (e : exn) : bounded 0 (raise e : M A).
Proof. intro w. simpl. lia. Qed.

Lemma bounded_lift {A} (c : exc A) : bounded 0 (lift c).
Proof. intro w. destruct c; simpl; lia. Qed.

Lemma bounded_logger (l : level) (msg : string) : bounded 0 (logger l msg).
Proof. intro w. simpl. lia. Qed.

Lemma bounded_request (c : call) : bounded 1 (request c).
Proof.
  intro w. unfold request.
  destruct (http w) as [| [r | e] rest]; simpl; lia.
Qed.

Lemma bounded_raise_for_status (url : string) (r : response) :
  bounded 0 (raise_for_status url r).
Proof.
  intro w. unfold raise_for_status.
  destruct ((400 <=? status_code r)%Z && (status_code r <? 500)%Z);
    [simpl; lia |].
  destruct ((500 <=? status_code r)%Z && (status_code r <? 600)%Z);
    simpl; lia.
Qed.

Lemma bounded_bind {A B} (n k : nat) (m : M A) (f : A -> M B) :
  bounded n m -> (forall a, bounded k (f a)) -> bounded (n + k) (bind m f).
Proof.
  intros Hm Hf w. unfold bind. specialize (Hm w).
  destruct (m w) as [[a | e | ] w1]; try lia.
  specialize (Hf a w1). destruct (f a w1) as [[b | e | ] w2]; lia.
Qed.

Lemma bounded_try_except {A} (n k : nat) (m : M A) (h : exn -> M A) :
  bounded n m -> (forall e, bounded k (h e)) -> bounded (n + k) (try_except m h).
Proof.
  intros Hm Hh w. unfold try_except. specialize (Hm w).
  destruct (m w) as [[a | e | ] w1]; try lia.
  specialize (Hh e w1). destruct (h e w1) as [[b | e' | ] w2]; lia.
Qed.

Lemma bounded_foldM {A St} (f : St -> A -> M St) (l : list A) :
  (forall s a, In a l -> bounded 1 (f s a)) ->
  forall s, bounded (length l) (foldM f l s).
Proof.
  induction l as [| a l IH]; intros Hf s.
  - apply bounded_ret.
  - cbn [foldM length]. change (S (length l)) with (1 + length l)%nat.
    apply bounded_bind.
    + apply Hf. left. reflexivity.
    + intro s'. apply IH. intros s0 a0 Hin. apply Hf. right. exact Hin.
Qed.

Lemma safe_foldM {A St} (f : St -> A -> M St) (l : list A) :
  (forall s a, In a l -> safe (f s a)) ->
  forall s, safe (foldM f l s).
Proof.
  induction l as [| a l IH]; intros Hf s.
  - apply safe_ret.
  - cbn [foldM]. apply safe_bind.
    + apply Hf. left. reflexivity.
    + intro s'. apply IH. intros s0 a0 Hin. apply Hf. right. exact Hin.
Qed.

(** A computation that neither raises nor runs short of replies returns. *)
Lemma safe_bounded_returns {A} (n : nat) (m : M A) (w : world) :
  safe m -> bounded n m -> (n <= length (http w))%nat ->
  exists a w', m w = (Ret a, w').
Proof.
  intros Hs Hb Hn. specialize (Hb w). specialize (Hs w).
  destruct (m w) as [[a | e | ] w1].
  - exists a, w1. reflexivity.
  - exfalso. exact (Hs e w1 eq_refl).
  - lia.
Qed.

End Effects.

Section UploadReport.
Context {RT : PyRuntime} (cfg : config).

Lemma upload_image_try_bounded (image : json) :
  bounded 1 (upload_image_try cfg image).
Proof.
  unfold upload_image_try.
  apply (bounded_bind 0 1); [apply bounded_lift | intro name].
  apply (bounded_bind 0 1); [apply bounded_lift | intro image_data].
  apply (bounded_bind 0 1); [apply bounded_lift | intro has_comma].
  apply (bounded_bind 0 1).
  { destruct has_comma; [| apply bounded_ret].
    destruct image_data; try apply bounded_lift. apply bounded_ret. }
  intro base64_data.
  apply (bounded_bind 0 1).
  { destruct base64_data; try apply bounded_lift.
    destruct (b64decode s); [apply bounded_ret | apply bounded_raise]. }
  intro blob.
  apply (bounded_bind 0 1).
  { unfold multipart_filename. destruct name; try apply bounded_lift;
      apply bounded_ret. }
  intros _.
  apply (bounded_bind 1 0); [apply bounded_request | intro response].
  apply (bounded_bind 0 0); [apply bounded_raise_for_status | intros _].
  apply (bounded_bind 0 0); [apply bounded_logger | intros _].
  apply bounded_ret.
Qed.



Lemma upload_image_step_bounded (acc : list string * list string) (image : json) :
  is_dict image = true -> bounded 1 (upload_image_step cfg acc image).
Proof.
  intro Hdict. destruct image as [ | | | | | entry]; try discriminate Hdict.
  destruct acc as [responses errs]. unfold upload_image_step. cbv zeta.
  apply (bounded_try_except 1 0).
  - apply (bounded_bind 1 0); [apply upload_image_try_bounded | intro line].
    apply bounded_ret.
  - intro e.
    assert (Hfail : forall prefix : string,
      bounded 0
        (name <- lift (get_default (JObj entry) "name" (JStr "unknown")) ;;
         logger ERROR (prefix ++ str name ++ ": " ++ exn_str e) ;;
         ret (responses, append errs (prefix ++ str name ++ ": " ++ exn_str e)))).
    { intro prefix.
      apply (bounded_bind 0 0); [apply bounded_lift | intro name].
      apply (bounded_bind 0 0); [apply bounded_logger | intros _].
      apply bounded_ret. }
    destruct (is_a e BinasciiError); [apply Hfail |].
    destruct (is_a e RequestException); [apply Hfail |].
    destruct (is_a e Exception); [apply Hfail | apply bounded_raise].
Qed.

Lemma upload_image_step_safe (acc : list string * list string) (image : json) :
  is_dict image = true -> safe (upload_image_step cfg acc image).
Proof.
  intro Hdict. destruct image as [ | | | | | entry]; try discriminate Hdict.
  destruct acc as [responses errs]. unfold upload_image_step. cbv zeta.
  apply safe_try_except. intro e.
  assert (Hfail : forall prefix : string,
    safe
      (name <- lift (get_default (JObj entry) "name" (JStr "unknown")) ;;
       logger ERROR (prefix ++ str name ++ ": " ++ exn_str e) ;;
       ret (responses, append errs (prefix ++ str name ++ ": " ++ exn_str e)))).
  { intro prefix. cbn [get_default].
    apply safe_bind; [apply safe_lift_ok | intro name].
    apply safe_bind; [apply safe_logger | intros _].
    apply safe_ret. }
  destruct (is_a e BinasciiError); [apply Hfail |].
  destruct (is_a e RequestException); [apply Hfail |].
  rewrite is_a_Exception. apply Hfail.
Qed.

(** The payload of an image text: what follows a data-URI prefix, when
    there is one. *)
Definition payload (data : string) : string :=
  if str_contains "," data then after_first "," data else data.

(** The line the [except] clauses record for an image: the first clause
    that matches the exception names what failed. *)
Definition failure_line (name : json) (e : exn) : string :=
  (if is_a e BinasciiError then "Error decoding base64 for "
   else if is_a e RequestException then "Error uploading "
   else "Unexpected error uploading ")
    ++ str name ++ ": " ++ exn_str e.

(** A status for which [raise_for_status] raises, with the kind of error
    its message names. *)
Inductive error_status (r : response) : string -> Prop :=
| client_error : (400 <= status_code r < 500)%Z -> error_status r "Client Error"
| server_error : (500 <= status_code r < 600)%Z -> error_status r "Server Error".

Definition upload_url : string := base_url cfg ++ "/upload/image".

Definition upload_call (name : string) (blob : bytes) : call :=
  HttpPost upload_url (ImageFile (JStr name) blob) 30.

(** What a pass over the images does, read off the images and the replies
    alone: the replies it uses, the calls it makes, the lines it collects
    for the uploads that succeeded and for those that failed.  An image
    whose payload decodes is posted, whatever happened to the images before
    it, and the reply decides its line; an image whose payload does not
    decode, or whose name cannot be written into the request, fails before
    any request and uses no reply. *)
Inductive upload_report
  : list json -> list (response + exn) -> list call ->
    list string -> list string -> Prop :=
| report_done : upload_report [] [] [] [] []
| report_uploaded entry name data blob r images replies calls lines errs :
    assoc "name" entry = Some (JStr name) ->
    assoc "image" entry = Some (JStr data) ->
    b64decode (payload data) = inl blob ->
    passes r ->
    upload_report images replies calls lines errs ->
    upload_report (JObj entry :: images) (inl r :: replies)
      (upload_call name blob :: calls)
      (("Successfully uploaded " ++ name) :: lines) errs
| report_rejected entry name data blob r kind images replies calls lines errs :
    assoc "name" entry = Some (JStr name) ->
    assoc "image" entry = Some (JStr data) ->
    b64decode (payload data) = inl blob ->
    error_status r kind ->
    upload_report images replies calls lines errs ->
    upload_report (JObj entry :: images) (inl r :: replies)
      (upload_call name blob :: calls) lines
      (failure_line (JStr name) (http_error r upload_url kind) :: errs)
| report_unreachable entry name data blob e images replies calls lines errs :
    assoc "name" entry = Some (JStr name) ->
    assoc "image" entry = Some (JStr data) ->
    b64decode (payload data) = inl blob ->
    upload_report images replies calls lines errs ->
    upload_report (JObj entry :: images) (inr e :: replies)
      (upload_call name blob :: calls) lines
      (failure_line (JStr name) e :: errs)
| report_undecodable entry name data e images replies calls lines errs :
    assoc "name" entry = Some name ->
    assoc "image" entry = Some (JStr data) ->
    b64decode (payload data) = inr e ->
    upload_report images replies calls lines errs ->
    upload_report (JObj entry :: images) replies calls lines
      (failure_line name e :: errs)
| report_unnamed entry name data blob images replies calls lines errs :
    assoc "name" entry = Some name ->
    is_str name = false ->
    is_none name = false ->
    assoc "image" entry = Some (JStr data) ->
    b64decode (payload data) = inl blob ->
    upload_report images replies calls lines errs ->
    upload_report (JObj entry :: images) replies calls lines
      (failure_line name
         (mk_exn AttributeError
            (JStr ("'" ++ type_name name
                     ++ "' object has no attribute 'translate'")))
         :: errs).

Lemma raise_for_status_error (url : string) (r : response) (kind : string) :
  error_status r kind -> raise_for_status url r = raise (http_error r url kind).
Proof.
  unfold raise_for_status. intros [H | H].
  - replace (400 <=? status_code r)%Z with true
      by (symmetry; apply Z.leb_le; lia).
    replace (status_code r <? 500)%Z with true
      by (symmetry; apply Z.ltb_lt; lia).
    reflexivity.
  - replace (status_code r <? 500)%Z with false
      by (symmetry; apply Z.ltb_ge; lia).
    replace (500 <=? status_code r)%Z with true
      by (symmetry; apply Z.leb_le; lia).
    replace (status_code r <? 600)%Z with true
      by (symmetry; apply Z.ltb_lt; lia).
    rewrite andb_false_r. reflexivity.
Qed.

(** The [try] body up to the decoding of the payload. *)
Lemma upload_image_try_decodes (entry : list (string * json)) (name : json)
    (data : string) (w : world) :
  assoc "name" entry = Some name ->
  assoc "image" entry = Some (JStr data) ->
  upload_image_try cfg (JObj entry) w =
  (blob <- match b64decode (payload data) with
           | inl b => ret b
           | inr e => raise e
           end ;;
   multipart_filename name ;;
   response <- request (HttpPost upload_url (ImageFile name blob) 30) ;;
   raise_for_status upload_url response ;;
   logger INFO ("Successfully uploaded " ++ str name) ;;
   ret ("Successfully uploaded " ++ str name)) w.
Proof.
  intros Hname Himage. unfold upload_image_try, payload. cbn [getitem].
  rewrite Hname, Himage. rewrite !bind_lift_ok. cbn [contains].
  rewrite bind_lift_ok.
  destruct (str_contains "," data); reflexivity.
Qed.

(** A round whose [try] body raised records the line of the failure. *)
Lemma upload_image_step_failed (entry : list (string * json)) (name : json)
    (e : exn) (lines errs : list string) (w w1 : world) :
  assoc "name" entry = Some name ->
  upload_image_try cfg (JObj entry) w = (Raise e, w1) ->
  upload_image_step cfg (lines, errs) (JObj entry) w
    = (Ret (lines, append errs (failure_line name e)),
       add_log ERROR (failure_line name e) w1).
Proof.
  intros Hname Htry. unfold upload_image_step, try_except, bind at 1.
  rewrite Htry. cbv zeta. unfold failure_line. cbn [get_default].
  rewrite Hname.
  destruct (is_a e BinasciiError); [reflexivity |].
  destruct (is_a e RequestException); [reflexivity |].
  rewrite is_a_Exception. reflexivity.
Qed.

Lemma upload_image_step_uploaded (entry : list (string * json))
    (name : string) (data : string) (blob : bytes) (r : response)
    (rest : list (response + exn)) (lines errs : list string) (w : world) :
  assoc "name" entry = Some (JStr name) ->
  assoc "image" entry = Some (JStr data) ->
  b64decode (payload data) = inl blob ->
  passes r ->
  http w = inl r :: rest ->
  upload_image_step cfg (lines, errs) (JObj entry) w
    = (Ret (append lines ("Successfully uploaded " ++ name), errs),
       add_log INFO ("Successfully uploaded " ++ name)
         (record (upload_call name blob) (set_http rest w))).
Proof.
  intros Hname Himage Hblob Hpass Hw.
  unfold upload_image_step, try_except, bind at 1.
  rewrite (upload_image_try_decodes entry _ data w Hname Himage), Hblob.
  unfold bind at 1, ret at 1. unfold bind at 1, multipart_filename, ret at 1.
  unfold bind at 1. rewrite (request_reply _ w (inl r) rest Hw).
  rewrite (raise_for_status_passes _ r Hpass).
  reflexivity.
Qed.

Lemma upload_image_try_refused (entry : list (string * json))
    (name : string) (data : string) (blob : bytes) (reply : response + exn)
    (e : exn) (rest : list (response + exn)) (w : world) :
  assoc "name" entry = Some (JStr name) ->
  assoc "image" entry = Some (JStr data) ->
  b64decode (payload data) = inl blob ->
  match reply with
  | inl r => raise_for_status upload_url r = raise e
  | inr e' => e' = e
  end ->
  http w = reply :: rest ->
  upload_image_try cfg (JObj entry) w
    = (Raise e, record (upload_call name blob) (set_http rest w)).
Proof.
  intros Hname Himage Hblob Hreply Hw.
  rewrite (upload_image_try_decodes entry _ data w Hname Himage), Hblob.
  unfold bind at 1, ret at 1. unfold bind at 1, multipart_filename, ret at 1.
  unfold bind at 1. rewrite (request_reply _ w reply rest Hw).
  destruct reply as [r | e'].
  - rewrite Hreply. reflexivity.
  - subst e'. reflexivity.
Qed.

(** The loop carries out the report, from any lines collected before. *)
Lemma upload_rounds_follow_the_report (images : list json)
    (replies : list (response + exn)) (calls : list call)
    (lines errs : list string) (rest : list (response + exn)) :
  upload_report images replies calls lines errs ->
  forall (lines0 errs0 : list string) (w : world),
    http w = (replies ++ rest)%list ->
    exists w',
      foldM (upload_image_step cfg) images (lines0, errs0) w
        = (Ret ((lines0 ++ lines)%list, (errs0 ++ errs)%list), w') /\
      trace w' = (trace w ++ calls)%list /\ http w' = rest.
Proof.
  induction 1 as
    [| entry name data blob r images replies calls lines errs
         Hname Himage Hblob Hpass _ IH
     | entry name data blob r kind images replies calls lines errs
         Hname Himage Hblob Hkind _ IH
     | entry name data blob e images replies calls lines errs
         Hname Himage Hblob _ IH
     | entry name data e images replies calls lines errs
         Hname Himage Hblob _ IH
     | entry name data blob images replies calls lines errs
         Hname Hstr Hnone Himage Hblob _ IH];
    intros lines0 errs0 w Hw.
  - exists w. cbn [foldM]. rewrite !app_nil_r.
    split; [reflexivity | split; [reflexivity | exact Hw]].
  - cbn [foldM]. unfold bind at 1.
    rewrite (upload_image_step_uploaded entry name data blob r
               (replies ++ rest)%list lines0 errs0 w
               Hname Himage Hblob Hpass Hw).
    match goal with
    | |- context [foldM _ images (?l, ?e) ?w1] =>
        destruct (IH l e w1 eq_refl) as (w' & Hrun & Ht & Hh)
    end.
    exists w'. rewrite Hrun. unfold append. rewrite <- app_assoc.
    split; [reflexivity | split; [| exact Hh]].
    rewrite Ht. cbn [trace add_log record set_http]. unfold append.
    rewrite <- app_assoc. reflexivity.
  - cbn [foldM]. unfold bind at 1.
    rewrite (upload_image_step_failed entry (JStr name) _ lines0 errs0 w _
               Hname
               (upload_image_try_refused entry name data blob (inl r) _
                  (replies ++ rest)%list w Hname Himage Hblob
                  (raise_for_status_error _ r kind Hkind) Hw)).
    match goal with
    | |- context [foldM _ images (?l, ?e) ?w1] =>
        destruct (IH l e w1 eq_refl) as (w' & Hrun & Ht & Hh)
    end.
    exists w'. rewrite Hrun. unfold append. rewrite <- app_assoc.
    split; [reflexivity | split; [| exact Hh]].
    rewrite Ht. cbn [trace add_log record set_http]. unfold append.
    rewrite <- app_assoc. reflexivity.
  - cbn [foldM]. unfold bind at 1.
    rewrite (upload_image_step_failed entry (JStr name) _ lines0 errs0 w _
               Hname
               (upload_image_try_refused entry name data blob (inr e) e
                  (replies ++ rest)%list w Hname Himage Hblob eq_refl Hw)).
    match goal with
    | |- context [foldM _ images (?l, ?e0) ?w1] =>
        destruct (IH l e0 w1 eq_refl) as (w' & Hrun & Ht & Hh)
    end.
    exists w'. rewrite Hrun. unfold append. rewrite <- app_assoc.
    split; [reflexivity | split; [| exact Hh]].
    rewrite Ht. cbn [trace add_log record set_http]. unfold append.
    rewrite <- app_assoc. reflexivity.
  - cbn [foldM]. unfold bind at 1.
    assert (Htry : upload_image_try cfg (JObj entry) w = (Raise e, w)).
    { rewrite (upload_image_try_decodes entry name data w Hname Himage), Hblob.
      reflexivity. }
    rewrite (upload_image_step_failed entry name e lines0 errs0 w w Hname Htry).
    match goal with
    | |- context [foldM _ images (?l, ?e0) ?w1] =>
        destruct (IH l e0 w1 Hw) as (w' & Hrun & Ht & Hh)
    end.
    exists w'. rewrite Hrun. unfold append. rewrite <- app_assoc.
    split; [reflexivity | split; [exact Ht | exact Hh]].
  - cbn [foldM]. unfold bind at 1.
    assert (Htry : upload_image_try cfg (JObj entry) w
                   = (Raise (mk_exn AttributeError
                               (JStr ("'" ++ type_name name
                                        ++ "' object has no attribute 'translate'"))),
                      w)).
    { rewrite (upload_image_try_decodes entry name data w Hname Himage), Hblob.
      unfold bind at 1, ret at 1. unfold bind at 1, multipart_filename.
      destruct name; try discriminate Hstr; try discriminate Hnone;
        reflexivity. }
    rewrite (upload_image_step_failed entry name _ lines0 errs0 w w Hname Htry).
    match goal with
    | |- context [foldM _ images (?l, ?e0) ?w1] =>
        destruct (IH l e0 w1 Hw) as (w' & Hrun & Ht & Hh)
    end.
    exists w'. rewrite Hrun. unfold append. rewrite <- app_assoc.
    split; [reflexivity | split; [exact Ht | exact Hh]].
Qed.

(** X6.  [upload_images] attempts every image.  Over a non-empty list of
    image objects with a reply for each it raises nothing and returns a
    report.  And the report is the one the images and the replies decide:
    every image whose payload decodes is posted, in order, also after
    another image failed; an image that fails before its request (payload
    that does not decode, name that is not text) costs no request; the
    status is success, with one line per image, only when no image failed,
    and otherwise the error status with the line of every failed image, in
    order, the lines of the uploads that succeeded being dropped. *)
Theorem upload_images_attempts_every_image (images : list json) (w : world) :
  images <> [] ->
  (Forall (fun image => is_dict image = true) images ->
   (length images <= length (http w))%nat ->
   exists v w', upload_images cfg (JArr images) w = (Ret v, w')) /\
  (forall (replies rest : list (response + exn)) (calls : list call)
          (lines errs : list string),
     upload_report images replies calls lines errs ->
     http w = (replies ++ rest)%list ->
     fst (upload_images cfg (JArr images) w)
       = Ret match errs with
             | [] => status_dict "success" "All images uploaded successfully"
                       lines
             | _ :: _ => status_dict "error" "Some images failed to upload" errs
             end /\
     trace (snd (upload_images cfg (JArr images) w)) = (trace w ++ calls)%list /\
     http (snd (upload_images cfg (JArr images) w)) = rest).
Proof.
  intro Hne.
  set (w0 := add_log INFO
               ("Uploading " ++ int_str (Z.of_nat (length images))
                  ++ " image(s)...") w).
  assert (Hrun : upload_images cfg (JArr images) w =
                 ('(responses, errs) <-
                    foldM (upload_image_step cfg) images ([], []) ;;
                  match errs with
                  | _ :: _ =>
                      ret (status_dict "error" "Some images failed to upload" errs)
                  | [] =>
                      ret (status_dict "success"
                             "All images uploaded successfully" responses)
                  end) w0).
  { unfold upload_images. destruct images as [| image images']; [contradiction |].
    cbn [truthy negb len iter]. rewrite bind_lift_ok, bind_logger, bind_lift_ok.
    reflexivity. }
  rewrite Hrun. clear Hrun. split.
  - intros Hdicts Hreplies.
    assert (Hin : forall image, In image images -> is_dict image = true).
    { apply Forall_forall. exact Hdicts. }
    destruct (safe_bounded_returns (length images)
                (foldM (upload_image_step cfg) images ([], [])) w0)
      as ([r e] & w1 & Hfold).
    + apply safe_foldM. intros s a Ha. apply upload_image_step_safe, Hin, Ha.
    + apply bounded_foldM. intros s a Ha.
      apply upload_image_step_bounded, Hin, Ha.
    + exact Hreplies.
    + unfold bind. rewrite Hfold. destruct e; eexists; eexists; reflexivity.
  - intros replies rest calls lines errs Hreport Hw.
    destruct (upload_rounds_follow_the_report images replies calls lines errs
                rest Hreport [] [] w0 Hw) as (w' & Hfold & Ht & Hh).
    unfold bind. rewrite Hfold. cbn [app].
    destruct errs; (split; [reflexivity | split; [exact Ht | exact Hh]]).
Qed.

End UploadReport.

(* --------------------------------------------------------------------- *)
(** *** The submitter: every kind of reply *)
(* --------------------------------------------------------------------- *)

Section SubmitterReplies.
Context {RT : PyRuntime} (cfg : config).

Definition prompt_url : string := base_url cfg ++ "/prompt".

Definition prompt_call (workflow : json) (client_id : string) : call :=
  HttpPost prompt_url
    (JsonBody (JObj [("prompt", workflow); ("client_id", JStr client_id)])) 30.

(** X7.  A reply with status 400 never makes the submitter return: whatever
    the body is, the call ends by raising. *)
Theorem queue_workflow_never_returns_on_400 (workflow : json)
    (client_id : string) (w : world) (resp : response)
    (rest : list (response + exn)) :
  http w = inl resp :: rest ->
  status_code resp = 400%Z ->
  exists e, fst (queue_workflow cfg workflow client_id w) = Raise e.
Proof.
  intros Hw Hstatus. unfold queue_workflow. unfold bind at 1.
  rewrite (request_reply _ w (inl resp) rest Hw).
  rewrite Hstatus. cbn [Z.eqb Pos.eqb]. cbv iota.
  unfold bind at 1. rewrite bind_logger.
  unfold try_except, bind at 1, response_json.
  destruct (json_body resp) as [body | e].
  - unfold ret at 1. unfold bind at 1.
    destruct (validation_error_message body) as [msg | e]; simpl.
    + eexists. reflexivity.
    + destruct (is_a e JSONDecodeError); eexists; reflexivity.
  - unfold raise at 1.
    destruct (is_a e JSONDecodeError); eexists; reflexivity.
Qed.

(** X8.  A 400 reply whose body is not JSON is reported with its raw text:
    the submitter raises ValueError "ComfyUI validation failed: <text>". *)
Theorem queue_workflow_reports_raw_text (workflow : json) (client_id : string)
    (w : world) (resp : response) (rest : list (response + exn)) (e : exn) :
  http w = inl resp :: rest ->
  status_code resp = 400%Z ->
  json_body resp = inr e ->
  is_a e JSONDecodeError = true ->
  fst (queue_workflow cfg workflow client_id w)
    = Raise (mk_exn ValueError
               (JStr ("ComfyUI validation failed: " ++ text resp))).
Proof.
  intros Hw Hstatus Hbody He. unfold queue_workflow. unfold bind at 1.
  rewrite (request_reply _ w (inl resp) rest Hw).
  rewrite Hstatus. cbn [Z.eqb Pos.eqb]. cbv iota.
  unfold bind at 1. rewrite bind_logger.
  unfold try_except, bind at 1, response_json. rewrite Hbody.
  unfold raise at 1. rewrite He. reflexivity.
Qed.

Lemma queue_workflow_not_400 (workflow : json) (client_id : string)
    (w : world) (resp : response) (rest : list (response + exn)) :
  http w = inl resp :: rest ->
  status_code resp <> 400%Z ->
  queue_workflow cfg workflow client_id w =
  (raise_for_status prompt_url resp ;; response_json resp)
    (record (prompt_call workflow client_id) (set_http rest w)).
Proof.
  intros Hw Hstatus. unfold queue_workflow. unfold bind at 1.
  rewrite (request_reply _ w (inl resp) rest Hw).
  replace (status_code resp =? 400)%Z with false
    by (symmetry; apply Z.eqb_neq; exact Hstatus).
  reflexivity.
Qed.

Lemma queue_workflow_returns_body (workflow : json) (client_id : string)
    (w : world) (resp : response) (rest : list (response + exn))
    (body : json) :
  http w = inl resp :: rest ->
  passes resp ->
  json_body resp = inl body ->
  queue_workflow cfg workflow client_id w
    = (Ret body, record (prompt_call workflow client_id) (set_http rest w)).
Proof.
  intros Hw Hpass Hbody.
  rewrite (queue_workflow_not_400 workflow client_id w resp rest Hw)
    by (destruct Hpass; lia).
  rewrite (raise_for_status_passes _ resp Hpass).
  unfold bind, ret, response_json. rewrite Hbody. reflexivity.
Qed.

(** X9.  A reply that is not an error returns its decoded body, after
    exactly one POST of [{prompt, client_id}] to [/prompt]; a reply with an
    error status other than 400 raises the HTTPError of that status. *)
Theorem queue_workflow_other_replies (workflow : json) (client_id : string)
    (w : world) (resp : response) (rest : list (response + exn)) :
  http w = inl resp :: rest ->
  (passes resp ->
   forall body, json_body resp = inl body ->
   queue_workflow cfg workflow client_id w
     = (Ret body, record (prompt_call workflow client_id) (set_http rest w))) /\
  ((400 < status_code resp < 500)%Z ->
   fst (queue_workflow cfg workflow client_id w)
     = Raise (http_error resp prompt_url "Client Error")) /\
  ((500 <= status_code resp < 600)%Z ->
   fst (queue_workflow cfg workflow client_id w)
     = Raise (http_error resp prompt_url "Server Error")).
Proof.
  intro Hw. split; [| split].
  - intros Hpass body Hbody.
    exact (queue_workflow_returns_body workflow client_id w resp rest body
             Hw Hpass Hbody).
  - intro Hrange.
    rewrite (queue_workflow_not_400 workflow client_id w resp rest Hw) by lia.
    unfold bind, raise_for_status.
    replace (400 <=? status_code resp)%Z with true
      by (symmetry; apply Z.leb_le; lia).
    replace (status_code resp <? 500)%Z with true
      by (symmetry; apply Z.ltb_lt; lia).
    reflexivity.
  - intro Hrange.
    rewrite (queue_workflow_not_400 workflow client_id w resp rest Hw) by lia.
    unfold bind, raise_for_status.
    replace (status_code resp <? 500)%Z with false
      by (symmetry; apply Z.ltb_ge; lia).
    replace (500 <=? status_code resp)%Z with true
      by (symmetry; apply Z.leb_le; lia).
    replace (status_code resp <? 600)%Z with true
      by (symmetry; apply Z.ltb_lt; lia).
    rewrite andb_false_r. reflexivity.
Qed.

(* --------------------------------------------------------------------- *)
(** *** Fetching an image *)
(* --------------------------------------------------------------------- *)

Definition is_error_status (r : response) : bool :=
  (400 <=? status_code r)%Z && (status_code r <? 600)%Z.

(** X10.  [get_image_data] never raises: an exception of the request and
    an error status both yield [None]; any other reply yields its bytes. *)
Theorem get_image_data_never_raises (filename subfolder image_type : json)
    (w : world) (reply : response + exn) (rest : list (response + exn)) :
  http w = reply :: rest ->
  fst (get_image_data cfg filename subfolder image_type w)
    = Ret (match reply with
           | inl r => if is_error_status r then None else Some (content r)
           | inr _ => None
           end).
Proof.
  intro Hw. unfold get_image_data. rewrite bind_logger.
  unfold try_except, bind at 1.
  erewrite request_reply by exact Hw.
  destruct reply as [r | e].
  - unfold bind at 1, raise_for_status, is_error_status.
    destruct (400 <=? status_code r)%Z eqn:H4;
      destruct (status_code r <? 500)%Z eqn:H5;
      destruct (500 <=? status_code r)%Z eqn:H55;
      destruct (status_code r <? 600)%Z eqn:H6;
      cbn [andb]; try rewrite is_a_Exception; try reflexivity.
    all: apply Z.ltb_lt in H5 || apply Z.ltb_ge in H5;
      apply Z.leb_le in H55 || apply Z.leb_gt in H55;
      apply Z.ltb_lt in H6 || apply Z.ltb_ge in H6;
      apply Z.leb_le in H4 || apply Z.leb_gt in H4; lia.
  - rewrite is_a_Exception. reflexivity.
Qed.

End SubmitterReplies.

(* --------------------------------------------------------------------- *)
(** *** The stream monitor: cleanup, recovery and what ends it *)
(* --------------------------------------------------------------------- *)

Section StreamMonitorEdges.
Context {RT : PyRuntime} (cfg : config).

Lemma close_if_connected_closes (w : world) :
  exists w',
    close_if_connected w = (Ret tt, w') /\ ws_connected w' = false.
Proof.
  unfold close_if_connected. destruct (ws_connected w) eqn:Hc.
  - eexists. split; reflexivity.
  - exists w. split; [reflexivity | exact Hc].
Qed.

Lemma try_finally_closes {A} (m : M A) (w w' : world) (r : outcome A) :
  try_finally m close_if_connected w = (r, w') ->
  r <> Stall -> ws_connected w' = false.
Proof.
  unfold try_finally. destruct (m w) as [[a | e | ] w1].
  - destruct (close_if_connected_closes w1) as (w2 & -> & Hc).
    intros H _. inversion H; subst. exact Hc.
  - destruct (close_if_connected_closes w1) as (w2 & -> & Hc).
    intros H _. inversion H; subst. exact Hc.
  - intros H Hr. inversion H; subst. exfalso. apply Hr. reflexivity.
Qed.

Lemma process_with_websocket_closes (workflow : json) (client_id : string)
    (prompt_id : json) (w w' : world) (r : outcome (bool * list string)) :
  websocket_installed cfg = true ->
  process_with_websocket cfg workflow client_id prompt_id w = (r, w') ->
  r <> Stall -> ws_connected w' = false.
Proof.
  intros Hlib H Hr. unfold process_with_websocket, import_websocket in H.
  rewrite Hlib in H. unfold bind at 1 in H. unfold ret at 1 in H.
  rewrite bind_logger in H. unfold bind at 1 in H.
  match type of H with
  | context [try_finally ?m close_if_connected ?w0] =>
      pose proof (try_finally_closes m w0) as Hclose;
      destruct (try_finally m close_if_connected w0) as [[st | e | ] w1]
  end; inversion H; subst.
  - apply (Hclose w' (Ret st) eq_refl). discriminate.
  - apply (Hclose w' (Raise e) eq_refl). discriminate.
  - exfalso. apply Hr. reflexivity.
Qed.

(** X11.  However the monitor ends, by returning or by raising, it leaves
    no socket connected: the [finally] clause closes the one that is. *)
Theorem websocket_is_closed_on_every_exit (workflow : json)
    (client_id : string) (prompt_id : json) (w : world) :
  websocket_installed cfg = true ->
  fst (process_with_websocket cfg workflow client_id prompt_id w) <> Stall ->
  ws_connected (snd (process_with_websocket cfg workflow client_id prompt_id w))
    = false.
Proof.
  intros Hlib Hr.
  destruct (process_with_websocket cfg workflow client_id prompt_id w)
    as [r w'] eqn:Hrun.
  exact (process_with_websocket_closes workflow client_id prompt_id w w' r
           Hlib Hrun Hr).
Qed.

Lemma monitor_loop_completion (url : string) (x : string) (st : monitor_state)
    (fuel : nat) (t : string) (m : json) (rest : list recv_reply) (w : world) :
  ws_recvs w = RecvStr t :: rest ->
  json_loads t = Some m ->
  completion x m ->
  exists w',
    monitor_loop cfg (S fuel) url (JStr x) st w
      = (Ret (mk_monitor_state true (errors st)), w').
Proof.
  intros Hr Ht Hdone. cbn [monitor_loop].
  unfold bind at 1, monitor_step, try_except, bind at 1.
  rewrite (ws_recv_reply w _ _ Hr). unfold on_recv. rewrite Ht.
  destruct (on_message_completion x st m (record WsRecv (set_ws_recvs rest w))
              Hdone) as [w2 Hrun].
  rewrite Hrun. eexists. reflexivity.
Qed.

(** X12.  A closed channel is survived when a reconnection attempt
    within the budget succeeds.  The round that reads the closure makes one
    attempt after another, each after a pause of the configured delay,
    until one connects: fewer failed attempts than the budget, then the
    successful one.  It leaves the state of the loop as it was and the new
    socket connected.  The monitor then goes on reading, and returns
    (true, []) on the completion message of its prompt, whatever the loop
    survived before and after the closure. *)
Theorem reconnection_within_budget_recovers (closed : exn) (fails : list exn) :
  (0 <= WEBSOCKET_RECONNECT_DELAY_S cfg)%Z ->
  (Z.of_nat (length fails) < WEBSOCKET_RECONNECT_ATTEMPTS cfg)%Z ->
  is_a closed WebSocketConnectionClosedException = true ->
  (forall (url : string) (prompt_id : json) (st : monitor_state)
          (rest : list recv_reply) (more : list (option exn)) (w : world),
     ws_recvs w = RecvRaise closed :: rest ->
     ws_connects w = (map Some fails ++ None :: more)%list ->
     exists w1,
       monitor_step cfg url prompt_id st w = (Ret (Continue, st), w1) /\
       ws_recvs w1 = rest /\ ws_connects w1 = more /\
       ws_connected w1 = true /\
       trace w1
         = (trace w ++ WsRecv :: reconnect_calls cfg url (S (length fails)))%list) /\
  (forall (x : string) (workflow : json) (client_id : string) (w : world)
          (pre post rest : list recv_reply)
          (before after more : list (option exn)) (t : string) (m : json),
     websocket_installed cfg = true ->
     ws_connects w
       = (None :: before ++ map Some fails ++ None :: after ++ more)%list ->
     ws_recvs w = (pre ++ RecvRaise closed :: post ++ RecvStr t :: rest)%list ->
     survives cfg (JStr x) pre before ->
     survives cfg (JStr x) post after ->
     json_loads t = Some m ->
     completion x m ->
     fst (process_with_websocket cfg workflow client_id (JStr x) w)
       = Ret (true, [])).
Proof.
  intros Hdelay Hbudget Hclosed. split.
  - intros url prompt_id st rest more w Hr Hc.
    unfold monitor_step, try_except, bind at 1.
    rewrite (ws_recv_reply w _ _ Hr).
    rewrite (closed_is_not_timeout closed Hclosed), Hclosed.
    rewrite bind_logger. unfold bind at 1, reconnect.
    match goal with
    | |- context [reconnect_loop cfg url ?n 0%Z ?w2] =>
        destruct (reconnect_loop_recovers cfg url more Hdelay fails n 0%Z w2 Hc)
          as (w1 & Hrun & Hc1 & Hr1 & Hconn & Ht)
    end.
    + lia.
    + lia.
    + rewrite Hrun. exists w1.
      split; [reflexivity |].
      split; [rewrite Hr1; reflexivity |].
      split; [exact Hc1 |]. split; [exact Hconn |].
      rewrite Ht. cbn [trace add_log set_ws_connected record set_ws_recvs].
      unfold append. rewrite <- app_assoc. reflexivity.
  - intros x workflow client_id w pre post rest before after more t m
      Hlib Hconn Hw Hpre Hpost Ht Hdone.
    assert (Hall : survives cfg (JStr x) (pre ++ RecvRaise closed :: post)%list
                     (before ++ map Some fails ++ None :: after)%list).
    { apply survives_app; [exact Hpre |].
      apply survives_closure; assumption. }
    destruct (process_with_websocket_reaches cfg workflow client_id (JStr x) w
                (pre ++ RecvRaise closed :: post)%list rest
                (before ++ map Some fails ++ None :: after)%list more
                (RecvStr t) Hlib) as (w1 & -> & Hr & _).
    + rewrite Hconn. rewrite <- !app_assoc. reflexivity.
    + rewrite Hw. rewrite <- app_assoc. reflexivity.
    + exact Hall.
    + destruct (monitor_loop_completion (ws_url cfg client_id) x
                  (mk_monitor_state false []) (S (length rest)) t m rest w1
                  Hr Ht Hdone) as [w2 Hrun].
      rewrite Hrun. reflexivity.
Qed.

(** X13.  With a reconnection budget of zero or less a closed channel is
    not reconnected and not reported: the round logs the closure, makes no
    connection attempt, and the loop goes on reading with its state as it
    was. *)
Theorem closed_channel_without_budget_is_ignored (url : string)
    (prompt_id : json) (st : monitor_state) (closed : exn)
    (rest : list recv_reply) (w : world) :
  (WEBSOCKET_RECONNECT_ATTEMPTS cfg <= 0)%Z ->
  is_a closed WebSocketConnectionClosedException = true ->
  ws_recvs w = RecvRaise closed :: rest ->
  exists w1,
    monitor_step cfg url prompt_id st w = (Ret (Continue, st), w1) /\
    ws_connects w1 = ws_connects w /\
    trace w1 = append (trace w) WsRecv /\
    ws_recvs w1 = rest.
Proof.
  intros Hbudget Hclosed Hr.
  unfold monitor_step, try_except, bind at 1.
  rewrite (ws_recv_reply w _ _ Hr).
  rewrite (closed_is_not_timeout closed Hclosed), Hclosed.
  rewrite bind_logger. unfold bind at 1, reconnect.
  replace (Z.to_nat (WEBSOCKET_RECONNECT_ATTEMPTS cfg)) with 0%nat by lia.
  cbn [reconnect_loop]. unfold ret at 1.
  eexists. split; [reflexivity | repeat split].
Qed.

Lemma on_message_not_object (prompt_id : json) (st : monitor_state)
    (m : json) (w : world) :
  is_dict m = false ->
  on_message prompt_id st m w
    = (Raise (mk_exn AttributeError
                (JStr ("'" ++ type_name m ++ "' object has no attribute 'get'"))),
       w).
Proof.
  intro Hm. unfold on_message, get, get_default.
  destruct m; try discriminate Hm; reflexivity.
Qed.

(** X14.  A message that is valid JSON but not an object (a list, a number,
    a string, [null]) ends the monitor, whatever the loop survived before
    it: [message.get] raises AttributeError, no [except] clause of the loop
    matches it, and the monitor raises it. *)
Theorem non_object_message_ends_the_monitor (workflow : json)
    (client_id : string) (prompt_id : json) (w : world)
    (pre rest : list recv_reply) (attempts more : list (option exn))
    (t : string) (m : json) :
  websocket_installed cfg = true ->
  ws_connects w = (None :: attempts ++ more)%list ->
  ws_recvs w = (pre ++ RecvStr t :: rest)%list ->
  survives cfg prompt_id pre attempts ->
  json_loads t = Some m ->
  is_dict m = false ->
  fst (process_with_websocket cfg workflow client_id prompt_id w)
    = Raise (mk_exn AttributeError
               (JStr ("'" ++ type_name m ++ "' object has no attribute 'get'"))).
Proof.
  intros Hlib Hconn Hw Hpre Ht Hm.
  destruct (process_with_websocket_reaches cfg workflow client_id prompt_id w
              pre rest attempts more (RecvStr t) Hlib Hconn Hw Hpre)
    as (w1 & -> & Hr & _).
  cbn [monitor_loop]. unfold bind at 1, monitor_step, try_except, bind at 1.
  rewrite (ws_recv_reply w1 _ _ Hr). unfold on_recv. rewrite Ht.
  rewrite (on_message_not_object prompt_id _ m _ Hm).
  reflexivity.
Qed.

(** X15.  The poll monitor replaces the stream monitor only when the
    WebSocket library is missing.  With the library installed, a first
    connection that fails with anything but ImportError is not a reason to
    poll: the exception is raised and no request is made. *)
Theorem polling_is_a_fallback_for_a_missing_library_only (workflow : json)
    (client_id : string) (prompt_id : json) (w : world) :
  (websocket_installed cfg = false ->
   monitor cfg workflow client_id prompt_id w
     = process_with_polling cfg prompt_id 600 w) /\
  (websocket_installed cfg = true ->
   forall e more,
     ws_connects w = Some e :: more ->
     is_a e ImportError = false ->
     fst (monitor cfg workflow client_id prompt_id w) = Raise e /\
     http (snd (monitor cfg workflow client_id prompt_id w)) = http w).
Proof.
  split.
  - intro Hlib. unfold monitor, try_except, bind at 1, import_websocket.
    rewrite Hlib. reflexivity.
  - intros Hlib e more Hconn He.
    assert (Hrun : exists w',
      monitor cfg workflow client_id prompt_id w = (Raise e, w') /\
      http w' = http w).
    { unfold monitor, try_except, bind at 1, import_websocket. rewrite Hlib.
      unfold ret at 1. unfold process_with_websocket, import_websocket.
      rewrite Hlib. unfold bind at 1. unfold ret at 1. rewrite bind_logger.
      unfold bind at 1, try_finally.
      unfold bind at 1. unfold ws_new at 1. unfold bind at 1.
      erewrite ws_connect_failure by exact Hconn.
      unfold close_if_connected. cbn [ws_connected record set_ws_connects
        set_ws_connected add_log].
      rewrite He. eexists. split; reflexivity. }
    destruct Hrun as (w' & -> & Hh). split; [reflexivity | exact Hh].
Qed.

End StreamMonitorEdges.

(* --------------------------------------------------------------------- *)
(** *** The poll monitor: its results and an exhausted budget *)
(* --------------------------------------------------------------------- *)

Section PollMonitorEdges.
Context {RT : PyRuntime} (cfg : config).

(** X16.  The poll monitor returns one of two pairs only: (true, []) or
    (false, [the timeout message]); it returns no other error and never
    (false, []). *)
Theorem polling_result_is_decided (prompt_id : json) (timeout : Z)
    (w w' : world) (done : bool) (errs : list string) :
  process_with_polling cfg prompt_id timeout w = (Ret (done, errs), w') ->
  (done = true /\ errs = []) \/
  (done = false /\
   errs = ["Workflow execution timed out after " ++ int_str timeout
             ++ " seconds"]).
Proof.
  unfold process_with_polling. intro H. invert_run.
  - left. split; reflexivity.
  - right. split; reflexivity.
Qed.

(** The exceptions of a round are all caught: the loop never raises when
    its pauses are allowed. *)
Lemma poll_loop_safe (prompt_id : json) (timeout start_time : Z) (fuel : nat) :
  safe (poll_loop cfg fuel prompt_id timeout start_time).
Proof.
  induction fuel as [| fuel IH].
  - intros w e w' H. discriminate H.
  - cbn [poll_loop]. intros w e w' H. unfold bind at 1 in H.
    unfold time_time in H. destruct (clock w) as [| t ts]; [discriminate H |].
    destruct (t - start_time <? timeout)%Z; [| discriminate H].
    unfold bind at 1, try_except in H.
    destruct (poll_try cfg prompt_id (set_clock ts w)) as [[b | e0 | ] w1].
    + destruct b; [discriminate H |].
      unfold bind at 1 in H. rewrite time_sleep_run in H by lia.
      exact (IH _ e w' H).
    + rewrite is_a_Exception, bind_logger in H. unfold ret at 1 in H.
      unfold bind at 1 in H. rewrite time_sleep_run in H by lia.
      exact (IH _ e w' H).
    + discriminate H.
Qed.

(** X17.  No exception escapes the poll monitor: whatever a round raises
    (a failed request, a body that is not JSON, a snapshot of the wrong
    shape) is logged and the loop goes on. *)
Theorem polling_never_raises (prompt_id : json) (timeout : Z) :
  safe (process_with_polling cfg prompt_id timeout).
Proof.
  unfold process_with_polling.
  apply safe_bind; [apply safe_logger | intros _].
  intros w e w' H. unfold bind at 1, time_time in H.
  destruct (clock w) as [| t ts]; [discriminate H |].
  unfold bind at 1 in H.
  destruct (poll_loop cfg (S (length (clock (set_clock ts w)))) prompt_id
              timeout t (set_clock ts w)) as [[[|] | e0 | ] w1] eqn:Hloop;
    try discriminate H.
  exact (poll_loop_safe prompt_id timeout t _ _ e0 w1 Hloop).
Qed.

(** X18.  A budget that is already spent at the first test of the loop (a
    timeout of zero or less, the clock not running backwards) gives the
    timeout result at once: no request is made and no pause taken. *)
Theorem polling_with_spent_budget_makes_no_request (prompt_id : json)
    (timeout : Z) (w : world) (start_time now : Z) (later : list Z) :
  clock w = start_time :: now :: later ->
  (timeout <= now - start_time)%Z ->
  fst (process_with_polling cfg prompt_id timeout w)
    = Ret (false, ["Workflow execution timed out after " ++ int_str timeout
                     ++ " seconds"]) /\
  trace (snd (process_with_polling cfg prompt_id timeout w)) = trace w /\
  http (snd (process_with_polling cfg prompt_id timeout w)) = http w.
Proof.
  intros Hclock Hspent.
  assert (Hrun : exists w',
    process_with_polling cfg prompt_id timeout w
      = (Ret (false, ["Workflow execution timed out after " ++ int_str timeout
                        ++ " seconds"]), w') /\
    trace w' = trace w /\ http w' = http w).
  { unfold process_with_polling. rewrite bind_logger.
    unfold bind at 1. erewrite time_time_reply by exact Hclock.
    unfold bind at 1. cbn [clock set_clock add_log length].
    cbn [poll_loop]. unfold bind at 1.
    erewrite time_time_reply by reflexivity.
    replace (now - start_time <? timeout)%Z with false
      by (symmetry; apply Z.ltb_ge; exact Hspent).
    eexists. split; [reflexivity | split; reflexivity]. }
  destruct Hrun as (w' & -> & Ht & Hh). repeat split; assumption.
Qed.

End PollMonitorEdges.

(* --------------------------------------------------------------------- *)
(** *** The handler: what its [try] turns into a response *)
(* --------------------------------------------------------------------- *)

Section HandlerResponses.
Context {RT : PyRuntime} (cfg : config).

(** The error text the [except] clauses give an exception. *)
Definition error_text (e : exn) : string :=
  if is_a e ValueError then exn_str e
  else if is_a e RequestException then "HTTP communication error: " ++ exn_str e
  else "Unexpected error: " ++ exn_str e.

(** X19.  No exception raised while submitting, monitoring or collecting
    escapes the handler: it becomes the error response, with the text of
    the exception for a ValueError, behind "HTTP communication error: "
    for an exception of [requests], behind "Unexpected error: " for any
    other. *)
Theorem handler_turns_exceptions_into_responses (job : list (string * json))
    (job_id workflow : json) (client_id : string) (w w1 w2 : world) (e : exn) :
  handler_prepare cfg job w = (Ret (inr (job_id, workflow, client_id)), w1) ->
  handler_try cfg job_id workflow client_id w1 = (Raise e, w2) ->
  fst (handler cfg job w) = Ret (error_response (error_text e)).
Proof.
  intros Hprepare Htry. unfold handler. unfold bind at 1. rewrite Hprepare.
  unfold bind at 1, try_except. rewrite Htry.
  unfold handler_except, error_text.
  destruct (is_a e ValueError); [reflexivity |].
  destruct (is_a e RequestException); [reflexivity |].
  rewrite is_a_Exception. reflexivity.
Qed.

(** X20.  A submission reply without a usable [prompt_id] (absent, [None]
    or empty) fails the request with "Missing 'prompt_id' in queue
    response: ..." before any monitoring: no socket is opened and no
    further request is made. *)
Theorem handler_requires_a_prompt_id (job : list (string * json))
    (job_id workflow : json) (client_id : string) (w w1 : world)
    (resp : response) (rest : list (response + exn))
    (queued : list (string * json)) :
  handler_prepare cfg job w = (Ret (inr (job_id, workflow, client_id)), w1) ->
  http w1 = inl resp :: rest ->
  passes resp ->
  json_body resp = inl (JObj queued) ->
  truthy (field "prompt_id" queued) = false ->
  fst (handler cfg job w)
    = Ret (error_response
             ("Missing 'prompt_id' in queue response: " ++ str (JObj queued))) /\
  http (snd (handler cfg job w)) = rest /\
  ws_connects (snd (handler cfg job w)) = ws_connects w1.
Proof.
  intros Hprepare Hw Hpass Hbody Hpid.
  assert (Hrun : exists w',
    handler cfg job w
      = (Ret (error_response
                ("Missing 'prompt_id' in queue response: " ++ str (JObj queued))),
         w') /\
    http w' = rest /\ ws_connects w' = ws_connects w1).
  { unfold handler. unfold bind at 1. rewrite Hprepare.
    unfold bind at 1, try_except, handler_try. rewrite bind_logger.
    unfold bind at 1.
    rewrite (queue_workflow_returns_body cfg workflow client_id
               (add_log INFO "Queuing workflow..." w1) resp rest (JObj queued)
               Hw Hpass Hbody).
    rewrite get_field, bind_lift_ok, Hpid. cbn [negb].
    unfold raise at 1. unfold handler_except.
    replace (is_a (mk_exn ValueError
                     (JStr ("Missing 'prompt_id' in queue response: "
                              ++ str (JObj queued)))) ValueError)
      with true by reflexivity.
    rewrite bind_logger. unfold ret at 1.
    eexists. split; [reflexivity | split; reflexivity]. }
  destruct Hrun as (w' & -> & Hh & Hc). repeat split; assumption.
Qed.

(** X21.  When the try block ends with at least one artifact the response
    is never an error response: it carries every artifact, in order, under
    "images", and the errors, when there are any, under "errors". *)
Theorem handler_returns_partial_results (job : list (string * json))
    (job_id workflow : json) (client_id : string) (w w1 w2 : world)
    (first : json) (others : list json) (errs : list string) :
  handler_prepare cfg job w = (Ret (inr (job_id, workflow, client_id)), w1) ->
  handler_try cfg job_id workflow client_id w1
    = (Ret (inr (first :: others, errs)), w2) ->
  fst (handler cfg job w)
    = Ret (JObj (("images", JArr (first :: others))
                   :: match errs with
                      | [] => []
                      | _ :: _ => [("errors", JArr (map JStr errs))]
                      end)).
Proof.
  intros Hprepare Htry.
  rewrite (handler_after_try cfg job job_id workflow client_id
             (first :: others) errs w w1 w2 Hprepare Htry).
  destruct errs; reflexivity.
Qed.

(** X22.  A prompt that the fetched history does not hold fails the
    request: with no error so far the response is the not-found error
    alone, otherwise the not-found line is added to the errors and the
    response is the aggregated failure. *)
Theorem missing_history_entry_fails_the_request (job_id : json) (x : string)
    (entries : list (string * json)) (errs : list string) (w : world) :
  has_key x entries = false ->
  handler_collect cfg job_id (JStr x) (JObj entries) errs w =
  (Ret (inl (match errs with
             | [] => error_response ("Prompt ID " ++ x ++ " not found in history")
             | _ :: _ =>
                 failure_response
                   (append errs ("Prompt ID " ++ x ++ " not found in history"))
             end)),
   add_log ERROR ("Prompt ID " ++ x ++ " not found in history") w).
Proof.
  intro Hkey. unfold handler_collect. cbn [contains]. rewrite Hkey.
  rewrite bind_lift_ok. cbn [negb]. rewrite bind_logger.
  destruct errs; reflexivity.
Qed.

End HandlerResponses.

(* --------------------------------------------------------------------- *)
(** *** The result collector: a best-effort pass *)
(* --------------------------------------------------------------------- *)

Section BestEffort.
Context {RT : PyRuntime} (cfg : config).

(** X23.  An image of type "temp" is never collected: whatever else its
    entry holds, the pass leaves the artifacts and the errors as they are
    and makes no call for it. *)
Theorem temp_images_are_skipped (job_id : json) (node_id : string)
    (acc : list json * list string) (info : list (string * json)) (w : world) :
  field "type" info = JStr "temp" ->
  collect_image cfg job_id node_id acc (JObj info) w =
  (Ret acc,
   add_log INFO ("Skipping temp image: " ++ str (field "filename" info)) w).
Proof.
  intro Htype. unfold collect_image. destruct acc as [output_data errs].
  rewrite get_field, bind_lift_ok.
  cbn [get_default]. rewrite bind_lift_ok.
  rewrite get_field, bind_lift_ok, Htype.
  replace (eq (JStr "temp") (JStr "temp")) with true by reflexivity.
  rewrite bind_logger. reflexivity.
Qed.

Lemma get_image_data_safe (filename subfolder image_type : json) :
  safe (get_image_data cfg filename subfolder image_type).
Proof.
  unfold get_image_data.
  apply safe_bind; [apply safe_logger | intros _].
  apply safe_try_except. intro e. rewrite is_a_Exception.
  apply safe_bind; [apply safe_logger | intros _]. apply safe_ret.
Qed.

Lemma encode_s3_safe (job_id filename : json) (image_bytes : bytes)
    (acc : list json * list string) :
  safe (encode_s3 cfg job_id filename image_bytes acc).
Proof.
  destruct acc as [output_data errs]. unfold encode_s3.
  apply safe_try_except. intro e. rewrite is_a_Exception.
  apply safe_bind; [apply safe_logger | intros _]. apply safe_ret.
Qed.

Lemma encode_base64_safe (filename : json) (image_bytes : bytes)
    (acc : list json * list string) :
  safe (encode_base64 filename image_bytes acc).
Proof.
  destruct acc as [output_data errs]. unfold encode_base64.
  apply safe_try_except. intro e. rewrite is_a_Exception.
  apply safe_bind; [apply safe_logger | intros _]. apply safe_ret.
Qed.

Lemma collect_image_safe (job_id : json) (node_id : string)
    (acc : list json * list string) (info : list (string * json)) :
  safe (collect_image cfg job_id node_id acc (JObj info)).
Proof.
  unfold collect_image. destruct acc as [output_data errs].
  cbn [get get_default].
  apply safe_bind; [apply safe_lift_ok | intro filename].
  apply safe_bind; [apply safe_lift_ok | intro subfolder].
  apply safe_bind; [apply safe_lift_ok | intro img_type].
  destruct (eq img_type (JStr "temp")).
  { apply safe_bind; [apply safe_logger | intros _]. apply safe_ret. }
  destruct (negb (truthy filename)); [apply safe_ret |].
  apply safe_bind; [apply get_image_data_safe | intro image_bytes].
  destruct image_bytes as [[| b bs] |]; try apply safe_ret.
  destruct (bucket_configured cfg);
    [apply encode_s3_safe | apply encode_base64_safe].
Qed.

(** What one entry can do to [(output_data, errors)]: nothing, one more
    artifact, or one more error. *)
Inductive grows_by_one : list json * list string -> list json * list string
                         -> Prop :=
| grows_not out errs : grows_by_one (out, errs) (out, errs)
| grows_artifact out errs a : grows_by_one (out, errs) (append out a, errs)
| grows_error out errs e : grows_by_one (out, errs) (out, append errs e).

Lemma encode_s3_grows (job_id filename : json) (image_bytes : bytes)
    (acc acc' : list json * list string) (w w' : world) :
  encode_s3 cfg job_id filename image_bytes acc w = (Ret acc', w') ->
  grows_by_one acc acc'.
Proof.
  destruct acc as [output_data errs]. unfold encode_s3. intro H.
  apply try_except_ret_inv in H. destruct H as [H | (e & w1 & _ & H)].
  - invert_run. apply grows_artifact.
  - invert_run. apply grows_error.
Qed.

Lemma encode_base64_grows (filename : json) (image_bytes : bytes)
    (acc acc' : list json * list string) (w w' : world) :
  encode_base64 filename image_bytes acc w = (Ret acc', w') ->
  grows_by_one acc acc'.
Proof.
  destruct acc as [output_data errs]. unfold encode_base64. intro H.
  apply try_except_ret_inv in H. destruct H as [H | (e & w1 & _ & H)].
  - invert_run. apply grows_artifact.
  - invert_run. apply grows_error.
Qed.

Lemma collect_image_grows (job_id : json) (node_id : string)
    (acc acc' : list json * list string) (image_info : json) (w w' : world) :
  collect_image cfg job_id node_id acc image_info w = (Ret acc', w') ->
  grows_by_one acc acc'.
Proof.
  unfold collect_image. destruct acc as [output_data errs]. intro H.
  invert_run; try apply grows_not; try apply grows_error.
  destruct a2 as [[| b bs] |].
  - invert_run. apply grows_error.
  - destruct (bucket_configured cfg).
    + eapply encode_s3_grows; exact H.
    + eapply encode_base64_grows; exact H.
  - invert_run. apply grows_error.
Qed.

(** What a pass over [n] entries can do: everything collected before is
    still there, in place, followed by at most [n] new items. *)
Definition extends_by (n : nat) (acc acc' : list json * list string) : Prop :=
  exists out errs,
    fst acc' = (fst acc ++ out)%list /\
    snd acc' = (snd acc ++ errs)%list /\
    (length out + length errs <= n)%nat.

Lemma grows_by_one_extends (acc acc' : list json * list string) :
  grows_by_one acc acc' -> extends_by 1 acc acc'.
Proof.
  intros [out errs | out errs a | out errs e]; unfold extends_by, append.
  - exists [], []. cbn [fst snd]. rewrite !app_nil_r. repeat split. simpl. lia.
  - exists [a], []. cbn [fst snd]. rewrite app_nil_r. repeat split.
    simpl. lia.
  - exists [], [e]. cbn [fst snd]. rewrite app_nil_r. repeat split.
    simpl. lia.
Qed.

Lemma extends_by_trans (n k : nat) (a b c : list json * list string) :
  extends_by n a b -> extends_by k b c -> extends_by (n + k) a c.
Proof.
  intros (o1 & e1 & Ho1 & He1 & Hn) (o2 & e2 & Ho2 & He2 & Hk).
  exists (o1 ++ o2)%list, (e1 ++ e2)%list.
  rewrite Ho2, Ho1, He2, He1, <- !app_assoc, !length_app.
  repeat split. lia.
Qed.

Lemma collect_images_extend (job_id : json) (node_id : string)
    (l : list json) :
  forall (acc acc' : list json * list string) (w w' : world),
    foldM (collect_image cfg job_id node_id) l acc w = (Ret acc', w') ->
    extends_by (length l) acc acc'.
Proof.
  induction l as [| image_info l IH]; intros acc acc' w w' H.
  - inversion H; subst. exists [], []. rewrite !app_nil_r. repeat split.
    simpl. lia.
  - cbn [foldM] in H. apply bind_ret_inv in H.
    destruct H as (acc1 & w1 & Hstep & H).
    apply collect_image_grows, grows_by_one_extends in Hstep.
    apply IH in H. exact (extends_by_trans 1 (length l) acc acc1 acc' Hstep H).
Qed.

(** X24.  One bad artifact never aborts the collection.  Over the image
    entries of a node that are objects, the pass raises nothing, whatever
    the fetch, the encoding or the upload does; and when it ends, all that
    was collected before is still there, in order, followed by at most one
    artifact or error per entry. *)
Theorem collection_is_best_effort (job_id : json) (node_id : string)
    (l : list json) (acc : list json * list string) (w : world) :
  Forall (fun image_info => is_dict image_info = true) l ->
  match foldM (collect_image cfg job_id node_id) l acc w with
  | (Ret acc', _) => extends_by (length l) acc acc'
  | (Raise _, _) => False
  | (Stall, _) => True
  end.
Proof.
  intro Hdicts.
  destruct (foldM (collect_image cfg job_id node_id) l acc w)
    as [[acc' | e | ] w'] eqn:Hrun.
  - exact (collect_images_extend job_id node_id l acc acc' w w' Hrun).
  - refine (safe_foldM (collect_image cfg job_id node_id) l _ acc w e w' Hrun).
    intros s image_info Hin.
    pose proof (proj1 (Forall_forall _ l) Hdicts image_info Hin) as Hd.
    destruct image_info; try discriminate Hd. apply collect_image_safe.
  - exact I.
Qed.

Lemma foldM_app {A St} (f : St -> A -> M St) (l1 l2 : list A) :
  forall (s s1 : St) (w w1 : world),
    foldM f l1 s w = (Ret s1, w1) ->
    foldM f (l1 ++ l2)%list s w = foldM f l2 s1 w1.
Proof.
  induction l1 as [| a l1 IH]; intros s s1 w w1 H.
  - inversion H; subst. reflexivity.
  - change ((a :: l1) ++ l2)%list with (a :: (l1 ++ l2))%list.
    cbn [foldM] in *. unfold bind in *.
    destruct (f s a w) as [[s' | e | ] w']; try discriminate H.
    exact (IH s' s1 w' w1 H).
Qed.

(** X25.  An image entry that is not an object is not survived: its [get]
    raises AttributeError out of the pass at that entry, whatever the
    entries before it have collected, so that the handler can only answer
    with an error. *)
Theorem non_object_entry_aborts_the_pass (job_id : json) (node_id : string)
    (before after : list json) (bad : json)
    (acc acc1 : list json * list string) (w w1 : world) :
  foldM (collect_image cfg job_id node_id) before acc w = (Ret acc1, w1) ->
  is_dict bad = false ->
  foldM (collect_image cfg job_id node_id) (before ++ bad :: after)%list acc w
    = (Raise (mk_exn AttributeError
                (JStr ("'" ++ type_name bad ++ "' object has no attribute 'get'"))),
       w1).
Proof.
  intros Hbefore Hbad.
  rewrite (foldM_app _ before (bad :: after) acc acc1 w w1 Hbefore).
  cbn [foldM]. unfold bind at 1, collect_image.
  destruct acc1 as [output_data errs]. unfold get, get_default.
  destruct bad; try discriminate Hbad; reflexivity.
Qed.

End BestEffort.

(* --------------------------------------------------------------------- *)
(** *** Starting the engine *)
(* --------------------------------------------------------------------- *)

Section EngineProcess.
Context {RT : PyRuntime} (cfg : config).

(** What the probes leave alone: the process handle and the answers of
    [poll()] still to come; and they only add calls to the trace. *)
Definition engine_untouched (w w' : world) : Prop :=
  comfy_process w' = comfy_process w /\ polls w' = polls w /\
  exists calls, trace w' = (trace w ++ calls)%list.

Definition leaves_engine {A} (m : M A) : Prop :=
  forall w r w', m w = (r, w') -> engine_untouched w w'.

Lemma engine_untouched_refl (w : world) : engine_untouched w w.
Proof.
  split; [reflexivity | split; [reflexivity |]].
  exists []. rewrite app_nil_r. reflexivity.
Qed.

Lemma engine_untouched_trans (w1 w2 w3 : world) :
  engine_untouched w1 w2 -> engine_untouched w2 w3 -> engine_untouched w1 w3.
Proof.
  intros (Hp & Hq & c1 & Ht) (Hp' & Hq' & c2 & Ht').
  split; [congruence | split; [congruence |]].
  exists (c1 ++ c2)%list. rewrite Ht', Ht, app_assoc. reflexivity.
Qed.

Lemma engine_untouched_record (c : call) (w : world) :
  engine_untouched w (record c w).
Proof.
  split; [reflexivity | split; [reflexivity |]]. exists [c]. reflexivity.
Qed.

Lemma leaves_engine_ret {A} (a : A) : leaves_engine (ret a).
Proof. intros w r w' H. inversion H. apply engine_untouched_refl. Qed.

Lemma leaves_engine_raise {A} (e : exn) : leaves_engine (raise e : M A).
Proof. intros w r w' H. inversion H. apply engine_untouched_refl. Qed.

Lemma leaves_engine_logger (l : level) (msg : string) :
  leaves_engine (logger l msg).
Proof.
  intros w r w' H. inversion H.
  split; [reflexivity | split; [reflexivity |]].
  exists []. cbn [trace add_log]. rewrite app_nil_r. reflexivity.
Qed.

Lemma leaves_engine_request (c : call) : leaves_engine (request c).
Proof.
  intros w r w' H. unfold request in H.
  destruct (http w) as [| [x | e] rest]; inversion H;
    try apply engine_untouched_refl;
    (split; [reflexivity | split; [reflexivity |]]; exists [c]; reflexivity).
Qed.

Lemma leaves_engine_sleep (ms : Z) : leaves_engine (time_sleep ms).
Proof.
  intros w r w' H. unfold time_sleep in H.
  destruct (ms <? 0)%Z; inversion H;
    [apply engine_untouched_refl | apply engine_untouched_record].
Qed.

Lemma leaves_engine_bind {A B} (m : M A) (k : A -> M B) :
  leaves_engine m -> (forall a, leaves_engine (k a)) -> leaves_engine (bind m k).
Proof.
  intros Hm Hk w r w' H. unfold bind in H.
  destruct (m w) as [[a | e | ] w1] eqn:Hrun.
  - exact (engine_untouched_trans _ _ _ (Hm w _ w1 Hrun) (Hk a w1 r w' H)).
  - inversion H; subst. exact (Hm w _ w' Hrun).
  - inversion H; subst. exact (Hm w _ w' Hrun).
Qed.

Lemma leaves_engine_try_except {A} (m : M A) (h : exn -> M A) :
  leaves_engine m -> (forall e, leaves_engine (h e)) ->
  leaves_engine (try_except m h).
Proof.
  intros Hm Hh w r w' H. unfold try_except in H.
  destruct (m w) as [[a | e | ] w1] eqn:Hrun.
  - inversion H; subst. exact (Hm w _ w' Hrun).
  - exact (engine_untouched_trans _ _ _ (Hm w _ w1 Hrun) (Hh e w1 r w' H)).
  - inversion H; subst. exact (Hm w _ w' Hrun).
Qed.

Lemma check_server_leaves_engine (url : string) (retries delay : Z) :
  leaves_engine (check_server url retries delay).
Proof.
  unfold check_server.
  apply leaves_engine_bind; [apply leaves_engine_logger | intros _].
  apply leaves_engine_bind.
  - induction (Z.to_nat retries) as [| n IH]; [apply leaves_engine_ret |].
    cbn [check_server_loop]. apply leaves_engine_bind.
    + apply leaves_engine_try_except.
      * apply leaves_engine_bind; [apply leaves_engine_request | intro r].
        destruct (status_code r =? 200)%Z; [| apply leaves_engine_ret].
        apply leaves_engine_bind; [apply leaves_engine_logger | intros _].
        apply leaves_engine_ret.
      * intro e. destruct (is_a e RequestsTimeout); [apply leaves_engine_ret |].
        destruct (is_a e RequestException);
          [apply leaves_engine_ret | apply leaves_engine_raise].
    + intros [|]; [apply leaves_engine_ret |].
      apply leaves_engine_bind; [apply leaves_engine_sleep | intros _]. exact IH.
  - intros [|]; [apply leaves_engine_ret |].
    apply leaves_engine_bind; [apply leaves_engine_logger | intros _].
    apply leaves_engine_ret.
Qed.

(** The branch that starts the engine. *)
Definition launch : M unit :=
  logger INFO ("Starting ComfyUI server from " ++ COMFYUI_DIR cfg ++ "...") ;;
  subprocess_Popen (COMFYUI_DIR cfg) ;;
  ready <- check_server (base_url cfg ++ "/")
             COMFY_API_AVAILABLE_MAX_RETRIES
             COMFY_API_AVAILABLE_INTERVAL_MS ;;
  if ready : bool then ret tt
  else raise (mk_exn RuntimeError (JStr "ComfyUI server failed to start")).

(** The engine is gone: there is no handle, or [poll()] gives the exit
    code of the process. *)
Definition engine_gone (w : world) : Prop :=
  comfy_process w = false \/
  exists code later, polls w = Some code :: later.

(** With the engine gone, the call is the launch; at most the answer of
    [poll()] is used up before it. *)
Lemma start_when_gone (w : world) :
  engine_gone w ->
  exists w0,
    start_comfyui_server cfg w = launch w0 /\
    http w0 = http w /\ popen w0 = popen w /\ trace w0 = trace w.
Proof.
  intro Hgone. unfold start_comfyui_server, bind at 1, engine_running.
  destruct (comfy_process w) eqn:Hp.
  - destruct Hgone as [Hnone | (code & later & Hpoll)]; [congruence |].
    unfold bind at 1, process_poll. rewrite Hpoll. unfold ret at 1.
    exists (set_polls later w). repeat split; reflexivity.
  - exists w. repeat split; reflexivity.
Qed.

(** The launch starts a process, whatever follows. *)
Lemma launch_starts_a_process (w : world) :
  exists calls,
    trace (snd (launch w))
      = (trace w ++ Popen (COMFYUI_DIR cfg) :: calls)%list.
Proof.
  unfold launch. rewrite bind_logger. unfold bind at 1, subprocess_Popen.
  cbn [popen add_log].
  destruct (popen w) as [e |].
  - exists []. reflexivity.
  - match goal with
    | |- context [bind (check_server ?url ?n ?d) ?k ?w0] =>
        pose proof (leaves_engine_bind (check_server url n d) k
                      (check_server_leaves_engine url n d)) as Hrest;
        destruct (bind (check_server url n d) k w0) as [r w'] eqn:Hrun
    end.
    + apply Hrest in Hrun.
      * destruct Hrun as (_ & _ & calls & Ht). exists calls.
        cbn [snd]. rewrite Ht. cbn [trace record set_comfy_process add_log].
        unfold append. rewrite <- app_assoc. reflexivity.
      * intros [|]; [apply leaves_engine_ret | apply leaves_engine_raise].
Qed.

Lemma launch_sets_the_handle (w w' : world) :
  launch w = (Ret tt, w') -> comfy_process w' = true.
Proof.
  unfold launch. rewrite bind_logger. unfold bind at 1, subprocess_Popen.
  cbn [popen add_log]. intro H.
  destruct (popen w); [discriminate H |].
  apply bind_ret_inv in H. destruct H as (ready & w1 & Hprobe & H).
  apply check_server_leaves_engine in Hprobe. destruct Hprobe as (Hp & _).
  destruct ready; inversion H; subst. rewrite Hp. reflexivity.
Qed.

Lemma start_sets_the_handle (w w' : world) :
  start_comfyui_server cfg w = (Ret tt, w') -> comfy_process w' = true.
Proof.
  unfold start_comfyui_server, bind at 1, engine_running. intro H.
  destruct (comfy_process w) eqn:Hp.
  - unfold bind at 1, process_poll in H.
    destruct (polls w) as [| [code |] later]; [discriminate H | |];
      unfold ret at 1 in H.
    + exact (launch_sets_the_handle _ _ H).
    + inversion H; subst. exact Hp.
  - exact (launch_sets_the_handle _ _ H).
Qed.

(** X26.  The engine is started again only when it is gone.  After a call
    of [start_comfyui_server] that returned there is a handle, and what the
    next call does is decided by [poll()] alone.  While the process runs
    ([poll()] is None) the call starts no process and makes no request: it
    uses up that answer and logs that the server is already running.  Once
    the process has ended ([poll()] gives its exit code) the call starts a
    new process. *)
Theorem engine_is_restarted_only_when_gone (w w1 : world)
    (answer : option Z) (later : list (option Z)) :
  start_comfyui_server cfg w = (Ret tt, w1) ->
  polls w1 = answer :: later ->
  comfy_process w1 = true /\
  match answer with
  | None =>
      start_comfyui_server cfg w1
        = (Ret tt,
           add_log INFO "ComfyUI server already running" (set_polls later w1))
  | Some _ =>
      exists calls,
        trace (snd (start_comfyui_server cfg w1))
          = (trace w1 ++ Popen (COMFYUI_DIR cfg) :: calls)%list
  end.
Proof.
  intros H Hpoll. pose proof (start_sets_the_handle w w1 H) as Hp.
  split; [exact Hp |].
  destruct answer as [code |].
  - destruct (start_when_gone w1) as (w0 & -> & _ & _ & Ht).
    + right. exists code, later. exact Hpoll.
    + rewrite <- Ht. apply launch_starts_a_process.
  - unfold start_comfyui_server, bind at 1, engine_running. rewrite Hp.
    unfold bind at 1, process_poll. rewrite Hpoll. reflexivity.
Qed.

(** X27.  An engine that is started but does not answer within the probe
    budget fails the start: [start_comfyui_server] raises RuntimeError
    "ComfyUI server failed to start", after one process start and the whole
    probe budget of requests. *)
Theorem unreachable_engine_fails_the_start (w : world)
    (pre rest : list (response + exn)) :
  engine_gone w ->
  popen w = None ->
  length pre = Z.to_nat COMFY_API_AVAILABLE_MAX_RETRIES ->
  Forall failed_attempt pre ->
  http w = (pre ++ rest)%list ->
  fst (start_comfyui_server cfg w)
    = Raise (mk_exn RuntimeError (JStr "ComfyUI server failed to start")) /\
  http (snd (start_comfyui_server cfg w)) = rest.
Proof.
  intros Hgone Hpopen Hlen Hpre Hw.
  destruct (start_when_gone w Hgone) as (w0 & -> & Hh0 & Hp0 & _).
  rewrite <- Hh0 in Hw. rewrite <- Hp0 in Hpopen.
  assert (Hrun : exists w',
    launch w0
      = (Raise (mk_exn RuntimeError (JStr "ComfyUI server failed to start")), w')
    /\ http w' = rest).
  { unfold launch. rewrite bind_logger.
    unfold bind at 1, subprocess_Popen. cbn [popen add_log]. rewrite Hpopen.
    unfold bind at 1.
    match goal with
    | |- context [check_server ?url ?n ?d ?w1] =>
        destruct (check_server_exhausts url n d w1 pre rest
                    ltac:(unfold COMFY_API_AVAILABLE_INTERVAL_MS; lia)
                    Hlen Hpre Hw) as (w2 & Hres & Hh & _);
        rewrite Hres
    end.
    eexists. split; [reflexivity | exact Hh]. }
  destruct Hrun as (w' & -> & Hh). split; [reflexivity | exact Hh].
Qed.

End EngineProcess.

(* --------------------------------------------------------------------- *)
(** *** Further runs on the sample worlds *)
(* --------------------------------------------------------------------- *)

Module MoreRuns.
Import Samples Runs.

Definition probe_url : string := "http://127.0.0.1:8188/".

Definition timed_out : exn := mk_exn RequestsTimeout (JStr "timed out").

Definition unavailable : response + exn :=
  status_only 503 "Service Unavailable".

(** **** X1, X2 *)

Lemma check_server_gives_up_after_budget_witness :
  fst (check_server probe_url 2 50
         (get_of [unavailable; inr timed_out; status_only 200 "OK"]))
    = Ret false /\
  http (snd (check_server probe_url 2 50
               (get_of [unavailable; inr timed_out; status_only 200 "OK"])))
    = [status_only 200 "OK"] /\
  trace (snd (check_server probe_url 2 50
                (get_of [unavailable; inr timed_out; status_only 200 "OK"])))
    = [HttpGet probe_url [] 5; Sleep 50; HttpGet probe_url [] 5; Sleep 50].
Proof.
  apply (check_server_gives_up_after_budget probe_url 2 50
           (get_of [unavailable; inr timed_out; status_only 200 "OK"])
           [unavailable; inr timed_out] [status_only 200 "OK"]).
  - lia.
  - reflexivity.
  - constructor; [simpl; lia | constructor; [reflexivity | constructor]].
  - reflexivity.
Defined.

Lemma check_server_lets_other_exceptions_escape_witness :
  fst (check_server probe_url 3 50
         (get_of [inr (mk_exn RuntimeError (JStr "no event loop"))]))
    = Raise (mk_exn RuntimeError (JStr "no event loop")).
Proof.
  apply (check_server_lets_other_exceptions_escape probe_url 3 50
           (get_of [inr (mk_exn RuntimeError (JStr "no event loop"))])
           (mk_exn RuntimeError (JStr "no event loop")) []).
  - lia.
  - reflexivity.
  - reflexivity.
Defined.

(** **** X3, X4 *)

Definition input_image : json :=
  JObj [("name", JStr "in.png"); ("image", JStr "TWFu")].

Definition input_with_image : list (string * json) :=
  [("workflow", sample_workflow); ("images", JArr [input_image])].

Lemma validate_input_accepts_witness :
  validate_input (RT := sample_runtime) (JObj input_with_image)
    = Ok (Some (JObj input_with_image), None).
Proof.
  apply (validate_input_accepts (RT := sample_runtime) input_with_image
           ("1", JObj [("class_type", JStr "CheckpointLoaderSimple")]) []).
  - reflexivity.
  - apply images_listed. constructor; [| constructor].
    exists [("name", JStr "in.png"); ("image", JStr "TWFu")].
    repeat split.
Defined.

Lemma handler_raises_on_non_object_input_witness :
  fst (run_handler sample_config (job_of (JArr [JInt 1])) quiet_world)
    = Raise (mk_exn AttributeError
               (JStr "'list' object has no attribute 'get'")).
Proof.
  apply (proj1 (proj2 (handler_raises_on_non_object_input
                         (RT := sample_runtime) sample_config
                         (job_of (JArr [JInt 1])) quiet_world
                         eq_refl eq_refl eq_refl))).
Defined.

(** **** X5, X6 *)

Lemma data_uri_prefix_is_stripped_witness :
  upload_image_try (RT := sample_runtime) sample_config
    (JObj [("name", JStr "in.png");
           ("image", JStr "data:image/png;base64,TWFu")])
    (get_of [status_only 200 "OK"])
  = upload_image_try (RT := sample_runtime) sample_config input_image
      (get_of [status_only 200 "OK"]).
Proof.
  apply (data_uri_prefix_is_stripped (RT := sample_runtime) sample_config
           [("name", JStr "in.png");
            ("image", JStr "data:image/png;base64,TWFu")]
           [("name", JStr "in.png"); ("image", JStr "TWFu")]
           (JStr "in.png") "data:image/png;base64" "TWFu");
    reflexivity.
Defined.

Definition undecodable_image : json :=
  JObj [("name", JStr "bad.png"); ("image", JStr "data:image/png;base64,!!!")].

Definition numbered_image : json :=
  JObj [("name", JInt 5); ("image", JStr "TWFu")].

Definition server_error_line : string :=
  "Error uploading in.png: 500 Server Error: Internal Server Error for url: http://127.0.0.1:8188/upload/image".

Definition refusal : response :=
  mk_response 500 "Internal Server Error" ""
    [] (inr (mk_exn RequestsJSONDecodeError (JStr "Expecting value"))).

Lemma sample_report :
  upload_report (RT := sample_runtime) sample_config
    [input_image; undecodable_image; numbered_image; input_image]
    [inl refusal; status_only 200 "OK"]
    [upload_call sample_config "in.png" png_bytes;
     upload_call sample_config "in.png" png_bytes]
    ["Successfully uploaded " ++ "in.png"]
    [failure_line (RT := sample_runtime) (JStr "in.png")
       (http_error refusal (upload_url sample_config) "Server Error");
     failure_line (RT := sample_runtime) (JStr "bad.png")
       (mk_exn BinasciiError (JStr "Incorrect padding"));
     failure_line (RT := sample_runtime) (JInt 5)
       (mk_exn AttributeError
          (JStr ("'" ++ type_name (JInt 5)
                   ++ "' object has no attribute 'translate'")))].
Proof.
  apply (report_rejected (RT := sample_runtime) sample_config _ "in.png"
           "TWFu" png_bytes refusal "Server Error");
    [reflexivity | reflexivity | reflexivity
     | apply server_error; simpl; lia |].
  apply (report_undecodable (RT := sample_runtime) sample_config _
           (JStr "bad.png") "data:image/png;base64,!!!"
           (mk_exn BinasciiError (JStr "Incorrect padding")));
    [reflexivity | reflexivity | reflexivity |].
  apply (report_unnamed (RT := sample_runtime) sample_config _
           (JInt 5) "TWFu" png_bytes);
    [reflexivity | reflexivity | reflexivity | reflexivity | reflexivity |].
  apply (report_uploaded (RT := sample_runtime) sample_config _ "in.png"
           "TWFu" png_bytes);
    [reflexivity | reflexivity | reflexivity | left; simpl; lia |].
  apply report_done.
Qed.

(** Four images and two replies: the first upload is refused, the second
    image does not decode, the third has a number for a name, and the
    fourth is still posted and accepted. *)
Lemma upload_images_attempts_every_image_witness :
  fst (upload_images (RT := sample_runtime) sample_config
         (JArr [input_image; undecodable_image; numbered_image; input_image])
         (get_of [status_only 500 "Internal Server Error"; status_only 200 "OK"]))
    = Ret (status_dict "error" "Some images failed to upload"
             [server_error_line;
              "Error decoding base64 for bad.png: Incorrect padding";
              "Unexpected error uploading 5: 'int' object has no attribute 'translate'"]) /\
  trace (snd (upload_images (RT := sample_runtime) sample_config
                (JArr [input_image; undecodable_image; numbered_image;
                       input_image])
                (get_of [status_only 500 "Internal Server Error";
                         status_only 200 "OK"])))
    = [upload_call sample_config "in.png" png_bytes;
       upload_call sample_config "in.png" png_bytes] /\
  http (snd (upload_images (RT := sample_runtime) sample_config
               (JArr [input_image; undecodable_image; numbered_image;
                      input_image])
               (get_of [status_only 500 "Internal Server Error";
                        status_only 200 "OK"])))
    = [].
Proof.
  refine (proj2 (upload_images_attempts_every_image (RT := sample_runtime)
                   sample_config
                   [input_image; undecodable_image; numbered_image; input_image]
                   (get_of [status_only 500 "Internal Server Error";
                            status_only 200 "OK"]) _)
            [status_only 500 "Internal Server Error"; status_only 200 "OK"] []
            [upload_call sample_config "in.png" png_bytes;
             upload_call sample_config "in.png" png_bytes]
            ["Successfully uploaded in.png"]
            [server_error_line;
             "Error decoding base64 for bad.png: Incorrect padding";
             "Unexpected error uploading 5: 'int' object has no attribute 'translate'"]
            _ _).
  - discriminate.
  - exact sample_report.
  - reflexivity.
Defined.

Example upload_images_reports_the_failed_image :
  fst (upload_images (RT := sample_runtime) sample_config
         (JArr [input_image; input_image])
         (get_of [status_only 200 "OK"; status_only 500 "Internal Server Error"]))
  = Ret (status_dict "error" "Some images failed to upload" [server_error_line]).
Proof. vm_compute. reflexivity. Qed.

(** **** X7, X8, X9, X10 *)

Lemma queue_workflow_never_returns_on_400_witness :
  exists e,
    fst (queue_workflow (RT := sample_runtime) sample_config sample_workflow
           "client-1" (get_of [inl rejection]))
    = Raise e.
Proof.
  apply (queue_workflow_never_returns_on_400 (RT := sample_runtime)
           sample_config sample_workflow "client-1" (get_of [inl rejection])
           rejection []); reflexivity.
Defined.

Definition garbled_rejection : response :=
  mk_response 400 "Bad Request" "<html>bad request</html>" []
    (inr (mk_exn RequestsJSONDecodeError (JStr "Expecting value"))).

Lemma queue_workflow_reports_raw_text_witness :
  fst (queue_workflow (RT := sample_runtime) sample_config sample_workflow
         "client-1" (get_of [inl garbled_rejection]))
  = Raise (mk_exn ValueError
             (JStr "ComfyUI validation failed: <html>bad request</html>")).
Proof.
  apply (queue_workflow_reports_raw_text (RT := sample_runtime) sample_config
           sample_workflow "client-1" (get_of [inl garbled_rejection])
           garbled_rejection []
           (mk_exn RequestsJSONDecodeError (JStr "Expecting value")));
    reflexivity.
Defined.

Definition accepted : response :=
  mk_response 200 "OK" "" [] (inl (JObj [("prompt_id", abc)])).

Lemma queue_workflow_other_replies_witness :
  queue_workflow (RT := sample_runtime) sample_config sample_workflow
    "client-1" (get_of [inl accepted])
  = (Ret (JObj [("prompt_id", abc)]),
     record (prompt_call sample_config sample_workflow "client-1")
       (set_http [] (get_of [inl accepted]))).
Proof.
  apply (proj1 (queue_workflow_other_replies (RT := sample_runtime)
                  sample_config sample_workflow "client-1"
                  (get_of [inl accepted]) accepted [] eq_refl)).
  - left. simpl. lia.
  - reflexivity.
Defined.

Lemma get_image_data_never_raises_witness :
  fst (get_image_data (RT := sample_runtime) sample_config (JStr "out.png")
         (JStr "") (JStr "output")
         (get_of [status_only 404 "Not Found"]))
  = Ret None.
Proof.
  apply (get_image_data_never_raises (RT := sample_runtime) sample_config
           (JStr "out.png") (JStr "") (JStr "output")
           (get_of [status_only 404 "Not Found"])
           (status_only 404 "Not Found") []).
  reflexivity.
Defined.

(** **** X11 to X15 *)

Definition completes : world :=
  stream [None] [text_of (executing_message JNull abc)].

Lemma websocket_is_closed_on_every_exit_witness :
  ws_connected
    (snd (process_with_websocket (RT := sample_runtime) sample_config
            sample_workflow "client-1" abc completes))
  = false.
Proof.
  apply (websocket_is_closed_on_every_exit (RT := sample_runtime)
           sample_config sample_workflow "client-1" abc completes).
  - reflexivity.
  - vm_compute. discriminate.
Defined.

Lemma completion_of_abc : completion "abc" (executing_message JNull abc).
Proof.
  apply (completion_intro "abc" _ [("node", JNull); ("prompt_id", abc)]);
    reflexivity.
Qed.

Lemma reconnection_within_budget_recovers_witness :
  run_monitor sample_config
    (stream [None; Some connection_refused; None]
       [text_of (executing_message (JStr "3") abc);
        RecvRaise connection_lost;
        text_of (status_message 1);
        text_of (executing_message JNull abc)])
  = Ret (true, []).
Proof.
  refine (proj2 (reconnection_within_budget_recovers (RT := sample_runtime)
                   sample_config connection_lost [connection_refused] _ _ _)
            "abc" sample_workflow "client-1"
            (stream [None; Some connection_refused; None]
               [text_of (executing_message (JStr "3") abc);
                RecvRaise connection_lost;
                text_of (status_message 1);
                text_of (executing_message JNull abc)])
            [text_of (executing_message (JStr "3") abc)]
            [text_of (status_message 1)] [] [] [] []
            (dumps (executing_message JNull abc))
            (executing_message JNull abc) _ _ _ _ _ _ _).
  - simpl. lia.
  - simpl. lia.
  - reflexivity.
  - reflexivity.
  - reflexivity.
  - reflexivity.
  - apply survives_calm;
      [exact progress_message_is_passed_over | apply survives_nothing].
  - apply survives_calm;
      [exact status_message_is_passed_over | apply survives_nothing].
  - reflexivity.
  - exact completion_of_abc.
Defined.

Lemma closed_channel_without_budget_is_ignored_witness :
  exists w1,
    monitor_step (RT := sample_runtime) (with_attempts 0 sample_config)
      "ws://127.0.0.1:8188/ws?clientId=client-1" abc
      (mk_monitor_state false [])
      (stream [] [RecvRaise connection_lost])
    = (Ret (Continue, mk_monitor_state false []), w1) /\
    ws_connects w1 = [] /\
    trace w1 = [WsRecv] /\
    ws_recvs w1 = [].
Proof.
  apply (closed_channel_without_budget_is_ignored (RT := sample_runtime)
           (with_attempts 0 sample_config)
           "ws://127.0.0.1:8188/ws?clientId=client-1" abc
           (mk_monitor_state false []) connection_lost []
           (stream [] [RecvRaise connection_lost])).
  - simpl. lia.
  - reflexivity.
  - reflexivity.
Defined.

Lemma non_object_message_ends_the_monitor_witness :
  run_monitor sample_config
    (stream [None]
       [text_of (executing_message (JStr "3") abc); text_of (JArr [])])
  = Raise (mk_exn AttributeError (JStr "'list' object has no attribute 'get'")).
Proof.
  apply (non_object_message_ends_the_monitor (RT := sample_runtime)
           sample_config sample_workflow "client-1" abc
           (stream [None]
              [text_of (executing_message (JStr "3") abc); text_of (JArr [])])
           [text_of (executing_message (JStr "3") abc)] [] [] []
           (dumps (JArr [])) (JArr [])).
  - reflexivity.
  - reflexivity.
  - reflexivity.
  - apply survives_calm;
      [exact progress_message_is_passed_over | apply survives_nothing].
  - reflexivity.
  - reflexivity.
Defined.

Lemma polling_is_a_fallback_for_a_missing_library_only_witness :
  fst (monitor (RT := sample_runtime) sample_config sample_workflow "client-1"
         abc (stream [Some connection_refused] []))
    = Raise connection_refused /\
  http (snd (monitor (RT := sample_runtime) sample_config sample_workflow
               "client-1" abc (stream [Some connection_refused] [])))
    = [].
Proof.
  apply (proj2 (polling_is_a_fallback_for_a_missing_library_only
                  (RT := sample_runtime) sample_config sample_workflow
                  "client-1" abc (stream [Some connection_refused] []))
           eq_refl connection_refused []).
  - reflexivity.
  - reflexivity.
Defined.

(** **** X16, X18 *)

Definition resolved_at_once : world :=
  polling_world [100; 100]%Z
    [inl (queue_reply [] []);
     inl (history_reply [("abc", JObj [("outputs", JObj [])])])].

Lemma polling_result_is_decided_witness :
  (true = true /\ @nil string = []) \/
  (true = false /\ [] = ["Workflow execution timed out after 600 seconds"]).
Proof.
  apply (polling_result_is_decided (RT := sample_runtime) sample_config abc
           600%Z resolved_at_once
           (snd (process_with_polling (RT := sample_runtime) sample_config abc
                   600%Z resolved_at_once))).
  vm_compute. reflexivity.
Defined.

Lemma polling_with_spent_budget_makes_no_request_witness :
  fst (process_with_polling (RT := sample_runtime) sample_config abc 0%Z
         (polling_world [100; 100]%Z [inl (queue_reply [] [])]))
    = Ret (false, ["Workflow execution timed out after 0 seconds"]) /\
  trace (snd (process_with_polling (RT := sample_runtime) sample_config abc 0%Z
                (polling_world [100; 100]%Z [inl (queue_reply [] [])])))
    = [] /\
  http (snd (process_with_polling (RT := sample_runtime) sample_config abc 0%Z
               (polling_world [100; 100]%Z [inl (queue_reply [] [])])))
    = [inl (queue_reply [] [])].
Proof.
  apply (polling_with_spent_budget_makes_no_request (RT := sample_runtime)
           sample_config abc 0%Z
           (polling_world [100; 100]%Z [inl (queue_reply [] [])])
           100%Z 100%Z []).
  - reflexivity.
  - lia.
Defined.

(** **** X19 to X22 *)

Definition prepared (w : world) : world :=
  snd (handler_prepare (RT := sample_runtime) sample_config sample_job w).

Definition tried (w : world) : world :=
  snd (handler_try (RT := sample_runtime) sample_config (JStr "job-1")
         sample_workflow "client-1" (prepared w)).

Definition submission_times_out : world :=
  get_of [status_only 200 "OK"; inr timed_out].

Lemma handler_turns_exceptions_into_responses_witness :
  fst (run_handler sample_config sample_job submission_times_out)
  = Ret (error_response "HTTP communication error: timed out").
Proof.
  apply (handler_turns_exceptions_into_responses (RT := sample_runtime)
           sample_config sample_job (JStr "job-1") sample_workflow "client-1"
           submission_times_out (prepared submission_times_out)
           (tried submission_times_out) timed_out).
  - vm_compute. reflexivity.
  - vm_compute. reflexivity.
Defined.

Definition reply_without_id : response :=
  mk_response 200 "OK" "" [] (inl (JObj [("number", JInt 7)])).

Definition submission_without_id : world :=
  get_of [status_only 200 "OK"; inl reply_without_id].

Lemma handler_requires_a_prompt_id_witness :
  fst (run_handler sample_config sample_job submission_without_id)
    = Ret (error_response
             "Missing 'prompt_id' in queue response: {'number': 7}") /\
  http (snd (run_handler sample_config sample_job submission_without_id)) = [] /\
  ws_connects (snd (run_handler sample_config sample_job submission_without_id))
    = [].
Proof.
  apply (handler_requires_a_prompt_id (RT := sample_runtime) sample_config
           sample_job (JStr "job-1") sample_workflow "client-1"
           submission_without_id (prepared submission_without_id)
           reply_without_id [] [("number", JInt 7)]).
  - vm_compute. reflexivity.
  - vm_compute. reflexivity.
  - left. simpl. lia.
  - reflexivity.
  - reflexivity.
Defined.

Definition one_of_two_fetched : world :=
  completed_run
    [ok_json (manifest
                (JObj [("9", JObj [("images",
                                    JArr [image_ref "out.png" "output";
                                          image_ref "gone.png" "output"])])]));
     ok_bytes png_bytes;
     status_only 404 "Not Found"].

Lemma handler_returns_partial_results_witness :
  fst (run_handler sample_config sample_job one_of_two_fetched)
  = Ret (JObj [("images", JArr [artifact (JStr "out.png") "base64" "TWFu"]);
               ("errors", JArr [JStr "Failed to fetch image data for gone.png"])]).
Proof.
  apply (handler_returns_partial_results (RT := sample_runtime) sample_config
           sample_job (JStr "job-1") sample_workflow "client-1"
           one_of_two_fetched (prepared one_of_two_fetched)
           (tried one_of_two_fetched)
           (artifact (JStr "out.png") "base64" "TWFu") []
           ["Failed to fetch image data for gone.png"]).
  - vm_compute. reflexivity.
  - vm_compute. reflexivity.
Defined.

Lemma missing_history_entry_fails_the_request_witness :
  handler_collect (RT := sample_runtime) sample_config (JStr "job-1") abc
    (JObj [("xyz", JObj [])]) ["Workflow execution error: boom"] quiet_world
  = (Ret (inl (failure_response
                 ["Workflow execution error: boom";
                  "Prompt ID abc not found in history"])),
     add_log ERROR "Prompt ID abc not found in history" quiet_world).
Proof.
  apply (missing_history_entry_fails_the_request (RT := sample_runtime)
           sample_config (JStr "job-1") "abc" [("xyz", JObj [])]
           ["Workflow execution error: boom"] quiet_world).
  reflexivity.
Defined.

(** **** X23, X24, X25 *)

Lemma temp_images_are_skipped_witness :
  collect_image (RT := sample_runtime) sample_config (JStr "job-1") "9"
    ([], []) (JObj [("type", JStr "temp")])
    (get_of [ok_bytes png_bytes])
  = (Ret ([], []),
     add_log INFO "Skipping temp image: None" (get_of [ok_bytes png_bytes])).
Proof.
  apply (temp_images_are_skipped (RT := sample_runtime) sample_config
           (JStr "job-1") "9" ([], []) [("type", JStr "temp")]
           (get_of [ok_bytes png_bytes])).
  reflexivity.
Defined.

Definition two_entries : list json :=
  [image_ref "out.png" "output"; JObj [("type", JStr "output")]].

Lemma collection_is_best_effort_witness :
  match foldM (collect_image (RT := sample_runtime) sample_config
                 (JStr "job-1") "9")
          two_entries ([], []) (get_of [ok_bytes png_bytes]) with
  | (Ret acc', _) => extends_by (length two_entries) ([], []) acc'
  | (Raise _, _) => False
  | (Stall, _) => True
  end.
Proof.
  apply (collection_is_best_effort (RT := sample_runtime) sample_config
           (JStr "job-1") "9" two_entries ([], []) (get_of [ok_bytes png_bytes])).
  repeat constructor.
Defined.

Example collection_goes_past_a_bad_entry :
  fst (foldM (collect_image (RT := sample_runtime) sample_config
                (JStr "job-1") "9")
         [JObj [("type", JStr "output")]; image_ref "out.png" "output"]
         ([], []) (get_of [ok_bytes png_bytes]))
  = Ret ([artifact (JStr "out.png") "base64" "TWFu"],
         ["Missing filename in node 9"]).
Proof. vm_compute. reflexivity. Qed.

Lemma non_object_entry_aborts_the_pass_witness :
  foldM (collect_image (RT := sample_runtime) sample_config (JStr "job-1") "9")
    [JStr "out.png"; image_ref "out.png" "output"] ([], [])
    (get_of [ok_bytes png_bytes])
  = (Raise (mk_exn AttributeError (JStr "'str' object has no attribute 'get'")),
     get_of [ok_bytes png_bytes]).
Proof.
  apply (non_object_entry_aborts_the_pass (RT := sample_runtime) sample_config
           (JStr "job-1") "9" [] [image_ref "out.png" "output"]
           (JStr "out.png") ([], []) ([], [])
           (get_of [ok_bytes png_bytes]) (get_of [ok_bytes png_bytes])).
  - reflexivity.
  - reflexivity.
Defined.

(** **** X26, X27 *)

Definition cold_world (replies : list (response + exn)) : world :=
  set_comfy_process false (get_of replies).

(** The world after a first start that found the engine reachable. *)
Definition started : world :=
  snd (start_comfyui_server sample_config (cold_world [status_only 200 "OK"])).

Lemma engine_is_restarted_only_when_gone_witness :
  comfy_process started = true /\
  start_comfyui_server sample_config started
  = (Ret tt,
     add_log INFO "ComfyUI server already running" (set_polls [] started)).
Proof.
  apply (engine_is_restarted_only_when_gone sample_config
           (cold_world [status_only 200 "OK"]) started None []).
  - vm_compute. reflexivity.
  - vm_compute. reflexivity.
Defined.

Definition is_popen (c : call) : bool :=
  match c with Popen _ => true | _ => false end.

(** The process has exited with code 1 between two calls: the second call
    starts another. *)
Example exited_engine_is_started_again :
  filter is_popen
    (trace (snd (start_comfyui_server sample_config
                   (set_http [status_only 200 "OK"]
                      (set_polls [Some 1%Z] started)))))
  = [Popen "/comfyui"; Popen "/comfyui"].
Proof. vm_compute. reflexivity. Qed.

Lemma unreachable_engine_fails_the_start_witness :
  fst (start_comfyui_server sample_config (cold_world (repeat unavailable 500)))
    = Raise (mk_exn RuntimeError (JStr "ComfyUI server failed to start")) /\
  http (snd (start_comfyui_server sample_config
               (cold_world (repeat unavailable 500))))
    = [].
Proof.
  apply (unreachable_engine_fails_the_start sample_config
           (cold_world (repeat unavailable 500)) (repeat unavailable 500) []).
  - left. reflexivity.
  - reflexivity.
  - vm_compute. reflexivity.
  - apply Forall_forall. intros reply Hin.
    apply repeat_spec in Hin. subst reply. simpl. lia.
  - rewrite app_nil_r. reflexivity.
Defined.

End MoreRuns.
